(** * monkycord: the JSON configuration store and the core wrapper

    A shallow embedding of [config.py] (JsonConfigDB, ConfigMixin,
    SubconfigMixin, SubConfig, JsonConfig) and of the persistence-related
    parts of [wrapper.py] (CoreWrapper's job/schedule mirroring,
    resumption and start-up documents, GuildStateDB).

    Python objects are mutable and shared by reference.  The embedding keeps
    an explicit object store: every dict, every JsonConfig, every SubConfig
    and every JsonConfigDB lives in a list indexed by its address, and the
    methods are written in a state-and-exception monad over that store. *)

From Stdlib Require Import ZArith Lia Ascii.
From stdpp Require Import gmap strings list fin_maps pretty.

(** ** Python values and dicts *)

(** JSON-shaped Python values: [None], booleans, ints, strings and dicts
    (lists and floats are left out).  A dict is a reference into the heap,
    so two values may alias the same dict object. *)
Inductive value :=
  | VNone
  | VBool (b : bool)
  | VInt (z : Z)
  | VStr (s : string)
  | VDict (l : nat).

#[global] Instance value_eq_dec : EqDecision value.
Proof. solve_decision. Defined.

(** A Python dict with string keys: insertion ordered, one entry per key. *)
Abbreviation pydict V := (list (string * V)).

Fixpoint dict_get {V} (k : string) (d : pydict V) : option V :=
  match d with
  | [] => None
  | (k', v) :: r => if decide (k = k') then Some v else dict_get k r
  end.

(** [d[k] = v]: an existing key keeps its position, a new key goes last. *)
Fixpoint dict_set {V} (k : string) (v : V) (d : pydict V) : pydict V :=
  match d with
  | [] => [(k, v)]
  | (k', v') :: r =>
      if decide (k = k') then (k, v) :: r else (k', v') :: dict_set k v r
  end.

(** [del d[k]] (the caller has checked that [k] is present). *)
Fixpoint dict_del {V} (k : string) (d : pydict V) : pydict V :=
  match d with
  | [] => []
  | (k', v) :: r =>
      if decide (k = k') then dict_del k r else (k', v) :: dict_del k r
  end.

Definition dict_mem {V} (k : string) (d : pydict V) : bool :=
  match dict_get k d with Some _ => true | None => false end.

Definition dict_keys {V} (d : pydict V) : list string := d.*1.

(** [s in t] on two Python strings. *)
Fixpoint is_substring (s t : string) : bool :=
  String.prefix s t ||
  match t with
  | EmptyString => false
  | String _ t' => is_substring s t'
  end.

(** ** JSON documents as stored in a file *)

#[warnings="-register-all"]
Inductive json :=
  | JNull
  | JBool (b : bool)
  | JInt (z : Z)
  | JStr (s : string)
  | JObj (items : list (string * json)).

Definition json_items (j : json) : option (list (string * json)) :=
  match j with JObj items => Some items | _ => None end.

(** ** Outcomes and the state-and-exception monad *)

Inductive exn :=
  | KeyError
  | TypeError
  | ValueError
  | AttributeError
  | RuntimeError
  | FileNotFoundError
  | ConfigException
  | GuildStateException
  | GuildRequiredException.

#[global] Instance exn_eq_dec : EqDecision exn.
Proof. solve_decision. Defined.

(** [Wrong] is not a Python outcome: it marks a store that no execution
    builds (an address that was never allocated, a parent chain that does
    not end in a JsonConfig). *)
Inductive res (A : Type) :=
  | Ok (a : A)
  | Raise (e : exn)
  | Wrong.
Arguments Ok {A} a.
Arguments Raise {A} e.
Arguments Wrong {A}.

(** A raised exception keeps the state reached so far: Python does not roll
    back the mutations made before the [raise]. *)
Definition M (S A : Type) : Type := S → res A * S.

Definition ret {S A} (a : A) : M S A := λ s, (Ok a, s).

Definition bind {S A B} (c : M S A) (k : A → M S B) : M S B :=
  λ s, match c s with
       | (Ok a, s') => k a s'
       | (Raise e, s') => (Raise e, s')
       | (Wrong, s') => (Wrong, s')
       end.

Definition raise {S A} (e : exn) : M S A := λ s, (Raise e, s).
Definition wrong {S A} : M S A := λ s, (Wrong, s).
Definition gets {S A} (f : S → A) : M S A := λ s, (Ok (f s), s).
Definition modify {S} (f : S → S) : M S unit := λ s, (Ok tt, f s).
Definition lift_res {S A} (r : res A) : M S A := λ s, (r, s).

Declare Scope py_scope.
Delimit Scope py_scope with py.
Notation "x <- c ;; k" := (bind c (λ x, k))
  (at level 100, c at next level, k at level 200, right associativity) : py_scope.
Notation "c ;; k" := (bind c (λ _, k))
  (at level 100, k at level 200, right associativity) : py_scope.
Open Scope py_scope.

(** A [for] loop over a list whose body may raise. *)
Fixpoint for_each {S A} (l : list A) (body : A → M S unit) : M S unit :=
  match l with
  | [] => ret tt
  | x :: r => body x ;; for_each r body
  end.

(** ** The object store *)

(** A reference to a configuration object: a JsonConfig or a SubConfig. *)
Inductive cfgref :=
  | RJson (i : nat)
  | RSub (i : nat).

#[global] Instance cfgref_eq_dec : EqDecision cfgref.
Proof. solve_decision. Defined.

(** [JsonConfig]'s fields.  [opts] is always a dict ([{}], [dict(...)]);
    [template] is whatever the caller passed ([None] by default). *)
Record JsonConfig := mkJsonConfig {
  opts : nat;
  path : string;
  template : value;
  check_date : bool;
  last_readwrite_date : option Z
}.

(** [SubConfig]'s fields; its [opts] field is [sc_opts] here, and it holds
    whatever [parent.opts[key]] was, dict or not. *)
Record SubConfig := mkSubConfig {
  parent : cfgref;
  sc_opts : value;
  name : string;
  invalid : bool
}.

(** [JsonConfigDB]'s fields; [db] maps an id to the address of its
    JsonConfig. *)
Record JsonConfigDB := mkJsonConfigDB {
  db_path : string;
  db : pydict nat;
  db_template : value;
  unique_template : bool
}.

(** What a file holds: a JSON text, or the truncated output of a
    [json.dump] that raised half way. *)
Inductive content :=
  | Text (j : json)
  | Partial.

Record file := mkFile {
  f_content : content;
  f_mtime : Z
}.

(** The store, the file system and the clock.  Timestamps are integers;
    [clock] is what [datetime.now().timestamp()] returns and what the file
    system stamps a written file with. *)
Record world := mkWorld {
  heap : list (pydict value);
  cfgs : list JsonConfig;
  subs : list SubConfig;
  dbs : list JsonConfigDB;
  fs : gmap string file;
  clock : Z
}.

Definition with_heap (h : list (pydict value)) (w : world) : world :=
  mkWorld h (cfgs w) (subs w) (dbs w) (fs w) (clock w).
Definition with_cfgs (c : list JsonConfig) (w : world) : world :=
  mkWorld (heap w) c (subs w) (dbs w) (fs w) (clock w).
Definition with_subs (s : list SubConfig) (w : world) : world :=
  mkWorld (heap w) (cfgs w) s (dbs w) (fs w) (clock w).
Definition with_dbs (d : list JsonConfigDB) (w : world) : world :=
  mkWorld (heap w) (cfgs w) (subs w) d (fs w) (clock w).
Definition with_fs (f : gmap string file) (w : world) : world :=
  mkWorld (heap w) (cfgs w) (subs w) (dbs w) f (clock w).
Definition with_clock (t : Z) (w : world) : world :=
  mkWorld (heap w) (cfgs w) (subs w) (dbs w) (fs w) t.

(** *** Dict objects *)

Definition alloc (d : pydict value) : M world nat :=
  λ w, (Ok (length (heap w)), with_heap (heap w ++ [d]) w).

Definition deref (l : nat) : M world (pydict value) :=
  λ w, (match heap w !! l with Some d => Ok d | None => Wrong end, w).

Definition store (l : nat) (d : pydict value) : M world unit :=
  modify (λ w, with_heap (<[l := d]> (heap w)) w).

(** [o[k]] *)
Definition getitem (o : value) (k : string) : M world value :=
  match o with
  | VDict l =>
      d <- deref l ;;
      match dict_get k d with
      | Some v => ret v
      | None => raise KeyError
      end
  | _ => raise TypeError
  end.

(** [o[k] = v] *)
Definition setitem (o : value) (k : string) (v : value) : M world unit :=
  match o with
  | VDict l => d <- deref l ;; store l (dict_set k v d)
  | _ => raise TypeError
  end.

(** [del o[k]] *)
Definition delitem (o : value) (k : string) : M world unit :=
  match o with
  | VDict l =>
      d <- deref l ;;
      if dict_mem k d then store l (dict_del k d) else raise KeyError
  | _ => raise TypeError
  end.

(** [k in o] *)
Definition contains (o : value) (k : string) : M world bool :=
  match o with
  | VDict l => d <- deref l ;; ret (dict_mem k d)
  | VStr s => ret (is_substring k s)
  | _ => raise TypeError
  end.

(** [dict(o)]: a new dict object with the same entries. *)
Definition dict_copy (o : value) : M world nat :=
  match o with
  | VDict l => d <- deref l ;; alloc d
  | VStr EmptyString => alloc []
  | VStr _ => raise ValueError
  | _ => raise TypeError
  end.

(** [o.items()], as the list a [for] loop walks. *)
Definition items_of (o : value) : M world (pydict value) :=
  match o with
  | VDict l => deref l
  | _ => raise AttributeError
  end.

(** *** json.dump and json.load *)

Definition res_bind {A B} (r : res A) (k : A → res B) : res B :=
  match r with
  | Ok a => k a
  | Raise e => Raise e
  | Wrong => Wrong
  end.

Fixpoint dump_items (f : value → res json) (d : pydict value)
    : res (list (string * json)) :=
  match d with
  | [] => Ok []
  | (k, v) :: r =>
      res_bind (f v) (λ j,
      res_bind (dump_items f r) (λ js, Ok ((k, j) :: js)))
  end.

(** The encoder keeps the dicts it is inside of in [markers] and raises
    ValueError ("Circular reference detected") when it meets one of them
    again.  [fuel] bounds the nesting depth. *)
Fixpoint dump_val (fuel : nat) (h : list (pydict value)) (markers : list nat)
    (v : value) : res json :=
  match v with
  | VNone => Ok JNull
  | VBool b => Ok (JBool b)
  | VInt z => Ok (JInt z)
  | VStr s => Ok (JStr s)
  | VDict l =>
      match fuel with
      | O => Wrong
      | S n =>
          if decide (l ∈ markers) then Raise ValueError
          else match h !! l with
               | None => Wrong
               | Some d =>
                   res_bind (dump_items (dump_val n h (l :: markers)) d)
                            (λ js, Ok (JObj js))
               end
      end
  end.

(** No chain of distinct dicts is longer than the heap, so this much fuel
    is never used up ([dump_fuel_enough] below). *)
Definition dump (h : list (pydict value)) (v : value) : res json :=
  dump_val (S (length h)) h [] v.

(** The members of a JSON object, decoded one after the other with [ld]
    into the entries of a dict; a repeated key keeps its last value. *)
Fixpoint load_pairs
    (ld : json → list (pydict value) → value * list (pydict value))
    (items : list (string * json)) (d : pydict value)
    (h : list (pydict value)) : pydict value * list (pydict value) :=
  match items with
  | [] => (d, h)
  | (k, jv) :: r =>
      let '(v, h') := ld jv h in load_pairs ld r (dict_set k v d) h'
  end.

(** The decoder builds the members of an object first and the dict last. *)
Fixpoint json_load (j : json) (h : list (pydict value))
    : value * list (pydict value) :=
  match j with
  | JNull => (VNone, h)
  | JBool b => (VBool b, h)
  | JInt z => (VInt z, h)
  | JStr s => (VStr s, h)
  | JObj items =>
      let '(d, h1) := load_pairs json_load items [] h in
      (VDict (length h1), h1 ++ [d])
  end.

(** *** Configuration objects *)

Definition get_cfg (i : nat) : M world JsonConfig :=
  λ w, (match cfgs w !! i with Some c => Ok c | None => Wrong end, w).

Definition put_cfg (i : nat) (c : JsonConfig) : M world unit :=
  modify (λ w, with_cfgs (<[i := c]> (cfgs w)) w).

Definition get_sub (i : nat) : M world SubConfig :=
  λ w, (match subs w !! i with Some s => Ok s | None => Wrong end, w).

Definition put_sub (i : nat) (s : SubConfig) : M world unit :=
  modify (λ w, with_subs (<[i := s]> (subs w)) w).

Definition get_db (i : nat) : M world JsonConfigDB :=
  λ w, (match dbs w !! i with Some d => Ok d | None => Wrong end, w).

Definition put_db (i : nat) (d : JsonConfigDB) : M world unit :=
  modify (λ w, with_dbs (<[i := d]> (dbs w)) w).

Definition put_file (p : string) (f : file) : M world unit :=
  modify (λ w, with_fs (<[p := f]> (fs w)) w).

(** [self.opts] *)
Definition opts_of (self : cfgref) : M world value :=
  match self with
  | RJson i => c <- get_cfg i ;; ret (VDict (opts c))
  | RSub i => s <- get_sub i ;; ret (sc_opts s)
  end.

(** ** config.py: JsonConfig *)

Module JsonConfig.

(** [__update_last_date] *)
Definition update_last_date (self : nat) : M world unit :=
  c <- get_cfg self ;;
  now <- gets clock ;;
  put_cfg self
    (mkJsonConfig (opts c) (path c) (template c) (check_date c) (Some now)).

Definition set_opts (self : nat) (l : nat) : M world unit :=
  c <- get_cfg self ;;
  put_cfg self
    (mkJsonConfig l (path c) (template c) (check_date c)
                  (last_readwrite_date c)).

(** [write]: the date check, then [open(path, 'w')], [json.dump] and the
    new date.  Opening truncates the file, so a dump that raises leaves
    a partial text behind. *)
Definition write (self : nat) : M world unit :=
  c <- get_cfg self ;;
  f <- gets (λ w, fs w !! path c) ;;
  match f with
  | Some fl =>
      if check_date c then
        match last_readwrite_date c with
        | None => raise TypeError
        | Some t =>
            if (t <? f_mtime fl)%Z then raise ConfigException else ret tt
        end
      else ret tt
  | None => ret tt
  end ;;
  now <- gets clock ;;
  put_file (path c) (mkFile Partial now) ;;
  h <- gets heap ;;
  j <- lift_res (dump h (VDict (opts c))) ;;
  put_file (path c) (mkFile (Text j) now) ;;
  update_last_date self.

(** [clear] *)
Definition clear (self : nat) : M world unit :=
  l <- alloc [] ;;
  set_opts self l.

(** The loop of [load] over [self.template.items()]; the result is
    [template_additions]. *)
Fixpoint backfill (self : nat) (items : pydict value) (additions : bool)
    : M world bool :=
  match items with
  | [] => ret additions
  | (key, _) :: r =>
      c <- get_cfg self ;;
      present <- contains (VDict (opts c)) key ;;
      if present then backfill self r additions
      else
        tv <- getitem (template c) key ;;
        setitem (VDict (opts c)) key tv ;;
        backfill self r true
  end.

(** [load] *)
Definition load (self : nat) : M world unit :=
  c <- get_cfg self ;;
  f <- gets (λ w, fs w !! path c) ;;
  match f with
  | None => raise FileNotFoundError
  | Some fl =>
      match f_content fl with
      | Partial => raise ValueError
      | Text j =>
          v <- (λ w, let '(v, h) := json_load j (heap w) in
                     (Ok v, with_heap h w)) ;;
          l <- dict_copy v ;;
          set_opts self l ;;
          update_last_date self ;;
          match template c with
          | VNone => ret tt
          | t =>
              items <- items_of t ;;
              additions <- backfill self items false ;;
              if additions then write self else ret tt
          end
      end
  end.

(** [create] *)
Definition create (self : nat) : M world unit :=
  c <- get_cfg self ;;
  match template c with
  | VNone => ret tt
  | t => l <- dict_copy t ;; set_opts self l
  end ;;
  write self.

(** [init] *)
Definition init (self : nat) : M world unit :=
  c <- get_cfg self ;;
  f <- gets (λ w, fs w !! path c) ;;
  match f with
  | Some _ => load self
  | None => create self
  end.

(** [JsonConfig(path, template, check_date)]: the new object's address. *)
Definition new (p : string) (t : value) (cd : bool) : M world nat :=
  l <- alloc [] ;;
  self <- (λ w, (Ok (length (cfgs w)),
                 with_cfgs (cfgs w ++ [mkJsonConfig l p t cd None]) w)) ;;
  init self ;;
  ret self.

End JsonConfig.

(** ** config.py: SubConfig *)

Module SubConfig.

(** [SubConfig(parent, name, cfg)] *)
Definition new (p : cfgref) (n : string) (cfg : value) : M world nat :=
  λ w, (Ok (length (subs w)),
        with_subs (subs w ++ [mkSubConfig p cfg n false]) w).

(** [clear]: a new dict in the parent, and [self.opts] re-read from it. *)
Definition clear (self : nat) : M world unit :=
  s <- get_sub self ;;
  l <- alloc [] ;;
  po <- opts_of (parent s) ;;
  setitem po (name s) (VDict l) ;;
  po' <- opts_of (parent s) ;;
  v <- getitem po' (name s) ;;
  put_sub self (mkSubConfig (parent s) v (name s) (invalid s)).

(** [write]: [self.parent.write()], up to the JsonConfig at the root.
    [fuel] bounds the length of the parent chain. *)
Fixpoint write (fuel : nat) (self : nat) : M world unit :=
  match fuel with
  | O => wrong
  | S n =>
      s <- get_sub self ;;
      match parent s with
      | RJson i => JsonConfig.write i
      | RSub j => write n j
      end
  end.

End SubConfig.

(** Method dispatch on the class of [self]. *)
Definition write_of (self : cfgref) : M world unit :=
  match self with
  | RJson i => JsonConfig.write i
  | RSub i => λ w, SubConfig.write (S (length (subs w))) i w
  end.

Definition clear_of (self : cfgref) : M world unit :=
  match self with
  | RJson i => JsonConfig.clear i
  | RSub i => SubConfig.clear i
  end.

(** ** config.py: ConfigMixin and SubconfigMixin *)

Module ConfigMixin.

Definition set (self : cfgref) (key : string) (v : value) : M world unit :=
  o <- opts_of self ;;
  setitem o key v ;;
  write_of self.

Definition get (self : cfgref) (key : string) : M world value :=
  o <- opts_of self ;;
  getitem o key.

Definition get_and_set (self : cfgref) (key : string)
    (f : value → M world value) : M world unit :=
  o <- opts_of self ;;
  old <- getitem o key ;;
  v <- f old ;;
  o' <- opts_of self ;;
  setitem o' key v ;;
  write_of self.

Definition delete (self : cfgref) (key : string) (ignore_keyerror : bool)
    : M world unit :=
  skip <- (if ignore_keyerror then
             o <- opts_of self ;;
             present <- contains o key ;;
             ret (negb present)
           else ret false) ;;
  if skip : bool then ret tt
  else
    o <- opts_of self ;;
    delitem o key ;;
    write_of self.

Definition get_and_clear (self : cfgref) : M world value :=
  o <- opts_of self ;;
  cfg <- dict_copy o ;;
  clear_of self ;;
  write_of self ;;
  ret (VDict cfg).

(** [__contains__] *)
Definition contains (self : cfgref) (item : string) : M world bool :=
  o <- opts_of self ;;
  contains o item.

End ConfigMixin.

Module SubconfigMixin.

Definition sub (self : cfgref) (key : string) : M world cfgref :=
  o <- opts_of self ;;
  v <- getitem o key ;;
  i <- SubConfig.new self key v ;;
  ret (RSub i).

End SubconfigMixin.

(** ** config.py: JsonConfigDB *)

(** An id as callers pass it: an int or a string; [str] is Python's. *)
Inductive cid_t :=
  | CInt (z : Z)
  | CStr (s : string).

Definition str (c : cid_t) : string :=
  match c with
  | CInt z => pretty z
  | CStr s => s
  end.

Module JsonConfigDB.

(** [cfg_loc].  Paths are kept as strings; [path / (cid + ".json")] is
    written out as it reads for a [cid] that holds no separator. *)
Definition cfg_loc (self : nat) (cid : string) : M world string :=
  d <- get_db self ;;
  ret (db_path d +:+ "/" +:+ cid +:+ ".json").

Definition get_template (self : nat) (cid : cid_t) : M world value :=
  d <- get_db self ;;
  if unique_template d then
    present <- contains (db_template d) (str cid) ;;
    if present : bool then getitem (db_template d) (str cid)
    else l <- alloc [] ;; ret (VDict l)
  else ret (db_template d).

Definition create_config (self : nat) (cid : cid_t) : M world unit :=
  t <- get_template self (CStr (str cid)) ;;
  p <- cfg_loc self (str cid) ;;
  c <- JsonConfig.new p t false ;;
  d <- get_db self ;;
  put_db self (mkJsonConfigDB (db_path d) (dict_set (str cid) c (db d))
                              (db_template d) (unique_template d)).

Definition get_config (self : nat) (cid : cid_t) : M world nat :=
  d <- get_db self ;;
  (if dict_mem (str cid) (db d) then ret tt
   else create_config self (CStr (str cid))) ;;
  d' <- get_db self ;;
  match dict_get (str cid) (db d') with
  | Some c => ret c
  | None => raise KeyError
  end.

Definition write_db (self : nat) : M world unit :=
  d <- get_db self ;;
  for_each (db d).*2 JsonConfig.write.

End JsonConfigDB.

(** ** Events from outside the process *)

(** Time passes. *)
Definition advance (d : Z) (w : world) : world :=
  with_clock (clock w + d) w.

(** Somebody else rewrites the file at [p]. *)
Definition external_edit (p : string) (f : file) (w : world) : world :=
  with_fs (<[p := f]> (fs w)) w.

(** ** wrapper.py: GuildStateDB *)

(** discord.Guild, as far as this code looks at it. *)
Record Guild := mkGuild {
  guild_id : Z
}.

(** What callers pass as [guild_entity]: [None], an int, a Guild, an object
    with a [guild] attribute (which may hold [None]), or anything else. *)
Inductive guild_entity :=
  | EntNone
  | EntInt (z : Z)
  | EntGuild (g : Guild)
  | EntHasGuild (g : option Guild)
  | EntOther.

(** A state class: its [__qualname__], and whether it subclasses
    GuildStateBase. *)
Record state_type := mkStateType {
  qualname : string;
  is_guild_state : bool
}.

(** A GuildStateBase instance; its identity is its address in [objects]. *)
Record GuildState := mkGuildState {
  gs_type : state_type;
  gs_guild : option Guild
}.

Record GuildStateDB := mkGuildStateDB {
  types : gmap string state_type;
  statedb : gmap string (gmap Z nat);
  objects : list GuildState;
  bot_get_guild : Z → option Guild
}.

Module GuildStateDB.

Definition typekey (t : state_type) : string := qualname t.

Definition register_cls (t : state_type) : M GuildStateDB unit :=
  if negb (is_guild_state t) then raise GuildStateException
  else
    s <- gets id ;;
    if decide (is_Some (types s !! typekey t)) then raise GuildStateException
    else
      modify (λ s, mkGuildStateDB (<[typekey t := t]> (types s))
                                  (<[typekey t := ∅]> (statedb s))
                                  (objects s) (bot_get_guild s)).

(** [__check_typekey] *)
Definition check_typekey (k : string) : M GuildStateDB unit :=
  s <- gets id ;;
  match types s !! k with
  | Some _ => ret tt
  | None => raise GuildStateException
  end.

Definition unregister_cls (t : state_type) : M GuildStateDB unit :=
  check_typekey (typekey t) ;;
  modify (λ s, mkGuildStateDB (base.delete (typekey t) (types s))
                              (statedb s) (objects s) (bot_get_guild s)) ;;
  s <- gets id ;;
  match statedb s !! typekey t with
  | None => raise KeyError
  | Some _ =>
      modify (λ s, mkGuildStateDB (types s)
                                  (base.delete (typekey t) (statedb s))
                                  (objects s) (bot_get_guild s))
  end.

(** [_get_guild_and_id] *)
Definition get_guild_and_id (e : guild_entity)
    : M GuildStateDB (option Guild * Z) :=
  match e with
  | EntNone => raise GuildRequiredException
  | EntInt z => s <- gets id ;; ret (bot_get_guild s z, z)
  | EntGuild g => ret (Some g, guild_id g)
  | EntHasGuild (Some g) => ret (Some g, guild_id g)
  | EntHasGuild None => raise AttributeError
  | EntOther => raise TypeError
  end.

(** [__get_of_type]: the registered class and its dict of states. *)
Definition get_of_type (t : state_type)
    : M GuildStateDB (state_type * gmap Z nat) :=
  check_typekey (typekey t) ;;
  s <- gets id ;;
  match types s !! typekey t, statedb s !! typekey t with
  | Some t', Some states => ret (t', states)
  | _, _ => raise KeyError
  end.

(** [get]: the cached instance, or a new one that is then cached. *)
Definition get (t : state_type) (e : guild_entity) : M GuildStateDB nat :=
  gi <- get_guild_and_id e ;;
  ts <- get_of_type t ;;
  match ts.2 !! gi.2 with
  | Some gs => ret gs
  | None =>
      s <- gets id ;;
      let gs := length (objects s) in
      modify (λ s, mkGuildStateDB
                     (types s)
                     (<[typekey t := <[gi.2 := gs]> ts.2]> (statedb s))
                     (objects s ++ [mkGuildState ts.1 gi.1])
                     (bot_get_guild s)) ;;
      ret gs
  end.

(** The loop of [delete].  Its body is [del guild_id[states]]: the int is
    the object subscripted and the dict the key, which Python refuses
    with a TypeError. *)
Fixpoint delete_loop (gid : Z) (values : list (gmap Z nat))
    : M GuildStateDB unit :=
  match values with
  | [] => ret tt
  | states :: r =>
      if decide (is_Some (states !! gid)) then raise TypeError
      else delete_loop gid r
  end.

Definition delete (e : guild_entity) : M GuildStateDB unit :=
  gi <- get_guild_and_id e ;;
  s <- gets id ;;
  delete_loop gi.2 (map_to_list (statedb s)).*2.

End GuildStateDB.

(** ** wrapper.py: CoreWrapper *)

(** Modelled from the spec: job.JobHeader and job.CronHeader are declared in
    job.py, which is not part of the sources.  A header is an opaque
    JSON-serialisable record with an id and the id of its guild; [record]
    is what [as_dict()] returns, and [from_dict] reads a header back from
    such a dict. *)
Record Header := mkHeader {
  header_id : Z;
  header_guild_id : Z;
  record : list (string * json)
}.

Record CoreWrapper := mkCoreWrapper {
  core_world : world;
  config_db : nat;
  common_config_db : nat;
  job_db : nat;
  gs_db : GuildStateDB;
  monkycfg : nat;
  jobs_resumed : bool;
  get_guild : Z → option Guild;
  queue_submitted : list Header;
  cron_created : list Header
}.

Definition with_world (w : world) (b : CoreWrapper) : CoreWrapper :=
  mkCoreWrapper w (config_db b) (common_config_db b) (job_db b) (gs_db b)
    (monkycfg b) (jobs_resumed b) (get_guild b) (queue_submitted b)
    (cron_created b).

Definition with_gs_db (g : GuildStateDB) (b : CoreWrapper) : CoreWrapper :=
  mkCoreWrapper (core_world b) (config_db b) (common_config_db b) (job_db b)
    g (monkycfg b) (jobs_resumed b) (get_guild b) (queue_submitted b)
    (cron_created b).

Definition with_jobs_resumed (r : bool) (b : CoreWrapper) : CoreWrapper :=
  mkCoreWrapper (core_world b) (config_db b) (common_config_db b) (job_db b)
    (gs_db b) (monkycfg b) r (get_guild b) (queue_submitted b)
    (cron_created b).

Definition with_queue_submitted (q : list Header) (b : CoreWrapper)
    : CoreWrapper :=
  mkCoreWrapper (core_world b) (config_db b) (common_config_db b) (job_db b)
    (gs_db b) (monkycfg b) (jobs_resumed b) (get_guild b) q (cron_created b).

Definition with_cron_created (c : list Header) (b : CoreWrapper)
    : CoreWrapper :=
  mkCoreWrapper (core_world b) (config_db b) (common_config_db b) (job_db b)
    (gs_db b) (monkycfg b) (jobs_resumed b) (get_guild b) (queue_submitted b)
    c.

(** Run a store operation inside the bot. *)
Definition lift {A} (c : M world A) : M CoreWrapper A :=
  λ b, let '(r, w) := c (core_world b) in (r, with_world w b).

Definition lift_gs {A} (c : M GuildStateDB A) : M CoreWrapper A :=
  λ b, let '(r, g) := c (gs_db b) in (r, with_gs_db g b).

(** Modelled from the spec: [as_dict] of job.py (absent) returns the
    record as a dict, a new one each time. *)
Definition as_dict (h : Header) : M world value :=
  λ w, let '(v, hp) := json_load (JObj (record h)) (heap w) in
       (Ok v, with_heap hp w).

(** Modelled from the spec: [from_dict] of job.py (absent), the inverse of
    [as_dict]; the record carries its id under "id" and its guild under
    "guild_id". *)
Definition from_dict (v : value) : M world Header :=
  i <- getitem v "id" ;;
  g <- getitem v "guild_id" ;;
  h <- gets heap ;;
  j <- lift_res (dump h v) ;;
  match i, g, j with
  | VInt i, VInt g, JObj items => ret (mkHeader i g items)
  | _, _, _ => raise TypeError
  end.

(** [max(val, n)] for an int [n]: [n] if [n > val], else [val]. *)
Definition py_max (val : value) (n : Z) : M world value :=
  match val with
  | VInt z => ret (if (z <? n)%Z then VInt n else VInt z)
  | VBool b => ret (if (Z.b2z b <? n)%Z then VInt n else VBool b)
  | _ => raise TypeError
  end.

(** A [for] loop over [d.items()] of a JsonConfigDB's [db]: the iterator
    raises RuntimeError when the dict has changed size since the loop
    began. *)
Fixpoint for_db_items (dbi : nat) (size : nat) (items : pydict nat)
    (body : string → nat → M CoreWrapper unit) : M CoreWrapper unit :=
  d <- lift (get_db dbi) ;;
  if negb (length (db d) =? size)%nat then raise RuntimeError
  else
    match items with
    | [] => ret tt
    | (k, c) :: r => body k c ;; for_db_items dbi size r body
    end.

Module CoreWrapper.

Definition get_jobcfg_for_header (h : Header) : M CoreWrapper nat :=
  b <- gets id ;;
  match get_guild b (header_guild_id h) with
  | None => raise AttributeError
  | Some guild => lift (JsonConfigDB.get_config (job_db b) (CInt (guild_id guild)))
  end.

(** [_cfg_job_create] *)
Definition cfg_job_create (h : Header) : M CoreWrapper unit :=
  cfg <- get_jobcfg_for_header h ;;
  s <- lift (SubconfigMixin.sub (RJson cfg) "jobs") ;;
  d <- lift (as_dict h) ;;
  lift (ConfigMixin.set s (str (CInt (header_id h))) d).

(** [_cfg_job_delete] *)
Definition cfg_job_delete (h : Header) : M CoreWrapper unit :=
  cfg <- get_jobcfg_for_header h ;;
  s <- lift (SubconfigMixin.sub (RJson cfg) "jobs") ;;
  lift (ConfigMixin.delete s (str (CInt (header_id h))) true).

(** [_cfg_sched_create] *)
Definition cfg_sched_create (h : Header) : M CoreWrapper unit :=
  cfg <- get_jobcfg_for_header h ;;
  s <- lift (SubconfigMixin.sub (RJson cfg) "cron") ;;
  d <- lift (as_dict h) ;;
  lift (ConfigMixin.set s (str (CInt (header_id h))) d) ;;
  b <- gets id ;;
  lift (ConfigMixin.get_and_set (RJson (monkycfg b)) "last_schedule_id"
          (λ val, py_max val (header_id h))).

(** [_cfg_sched_delete] *)
Definition cfg_sched_delete (h : Header) : M CoreWrapper unit :=
  cfg <- get_jobcfg_for_header h ;;
  s <- lift (SubconfigMixin.sub (RJson cfg) "cron") ;;
  lift (ConfigMixin.delete s (str (CInt (header_id h))) false).

(** Modelled from the spec: [JobQueue.submit_job] of job.py (absent)
    takes the job and calls the [on_job_submit] subscriber, which is
    [_cfg_job_create]. *)
Definition submit_job (h : Header) : M CoreWrapper unit :=
  modify (λ b, with_queue_submitted (queue_submitted b ++ [h]) b) ;;
  cfg_job_create h.

(** Modelled from the spec: [JobCron.create_schedule] of job.py (absent)
    registers the schedule and calls the [on_create_schedule]
    subscriber, which is [_cfg_sched_create]. *)
Definition create_schedule (h : Header) : M CoreWrapper unit :=
  modify (λ b, with_cron_created (cron_created b ++ [h]) b) ;;
  cfg_sched_create h.

(** [resume_job] *)
Definition resume_job (header : value) : M CoreWrapper unit :=
  h <- lift (from_dict header) ;;
  submit_job h.

(** [reschedule_cron] *)
Definition reschedule_cron (header_dict : value) : M CoreWrapper unit :=
  h <- lift (from_dict header_dict) ;;
  create_schedule h.

(** [resume_jobs] *)
Definition resume_jobs : M CoreWrapper unit :=
  b <- gets id ;;
  d <- lift (get_db (job_db b)) ;;
  for_db_items (job_db b) (length (db d)) (db d) (λ _ cfg,
    s <- lift (SubconfigMixin.sub (RJson cfg) "jobs") ;;
    jobs <- lift (ConfigMixin.get_and_clear s) ;;
    items <- lift (items_of jobs) ;;
    for_each items (λ kv, resume_job kv.2)).

(** [reschedule_all_cron] *)
Definition reschedule_all_cron : M CoreWrapper unit :=
  b <- gets id ;;
  d <- lift (get_db (job_db b)) ;;
  for_db_items (job_db b) (length (db d)) (db d) (λ _ cfg,
    s <- lift (SubconfigMixin.sub (RJson cfg) "cron") ;;
    crons <- lift (ConfigMixin.get_and_clear s) ;;
    items <- lift (items_of crons) ;;
    for_each items (λ kv, reschedule_cron kv.2)).

(** [__on_ready] *)
Definition on_ready : M CoreWrapper unit :=
  b <- gets id ;;
  if negb (jobs_resumed b) then
    reschedule_all_cron ;;
    resume_jobs ;;
    modify (with_jobs_resumed true)
  else ret tt.

(** [__on_guild_remove] *)
Definition on_guild_remove (guild : Guild) : M CoreWrapper unit :=
  lift_gs (GuildStateDB.delete (EntGuild guild)).

(** [gs] *)
Definition gs (t : state_type) (e : guild_entity) : M CoreWrapper nat :=
  lift_gs (GuildStateDB.get t e).

End CoreWrapper.

(** ** Vocabulary of the properties *)

(** The file of [c] has not been modified since [c] was last read or
    written: it is absent, or its modification time is not past
    [last_readwrite_date].  (Without [check_date] nobody looks.) *)
Definition unmodified (c : JsonConfig) (w : world) : Prop :=
  check_date c = true →
  ∀ f, fs w !! path c = Some f →
    ∃ t, last_readwrite_date c = Some t ∧ (f_mtime f ≤ t)%Z.

(** The state of [c] after a [write] at time [now]. *)
Definition written (c : JsonConfig) (now : Z) : JsonConfig :=
  mkJsonConfig (opts c) (path c) (template c) (check_date c) (Some now).

(** The world after JsonConfig number [i], which is [c], wrote [j]. *)
Definition after_write (i : nat) (c : JsonConfig) (j : json) (w : world)
    : world :=
  with_cfgs (<[i := written c (clock w)]> (cfgs w))
    (with_fs (<[path c := mkFile (Text j) (clock w)]> (fs w)) w).

(** Values other than dicts. *)
Definition scalar (v : value) : Prop :=
  match v with VDict _ => False | _ => True end.

(** [v] can be written out: no cycle, no dangling address. *)
Definition serialisable (h : list (pydict value)) (v : value) : Prop :=
  ∃ j, dump h v = Ok j.

(** [v] dumps in [h'] wherever an encoder that has only entered dicts of
    [h] meets it, with [δ] units of fuel to spare. *)
Definition fresh_ok (h h' : list (pydict value)) (δ : nat) (v : value)
    : Prop :=
  ∀ n ms, (∀ m, m ∈ ms → m < length h) →
    ∃ j, dump_val (δ + n) h' ms v = Ok j.

(** What a document holds in memory: the dict its [opts] points to. *)
Definition doc_opts (w : world) (i : nat) : option (pydict value) :=
  c ← cfgs w !! i; heap w !! opts c.

(** What a SubConfig holds in memory. *)
Definition view_opts (w : world) (n : nat) : option (pydict value) :=
  s ← subs w !! n;
  match sc_opts s with VDict l => heap w !! l | _ => None end.

(** The JSON document persisted at [p]. *)
Definition file_json (w : world) (p : string) : option json :=
  f ← fs w !! p;
  match f_content f with Text j => Some j | Partial => None end.

(** The whole content of a document, nested dicts included. *)
Definition doc_json (w : world) (i : nat) : option json :=
  c ← cfgs w !! i;
  match dump (heap w) (VDict (opts c)) with Ok j => Some j | _ => None end.

(** The JsonConfig at the end of the parent chain of [r], when the chain
    is at most [fuel] long. *)
Fixpoint root_of (fuel : nat) (ss : list SubConfig) (r : cfgref)
    : option nat :=
  match r with
  | RJson i => Some i
  | RSub n =>
      match fuel with
      | O => None
      | S f => s ← ss !! n; root_of f ss (parent s)
      end
  end.

(** The dict a value points to. *)
Definition dict_at (w : world) (v : value) : option (pydict value) :=
  match v with VDict l => heap w !! l | _ => None end.

(** The sequence of the aliasing property:
    [sub = doc.sub("jobs"); sub.set("1", "x"); sub.clear();
     sub.set("2", "y")]. *)
Definition set_clear_set (doc : nat) : M world cfgref :=
  sub <- SubconfigMixin.sub (RJson doc) "jobs" ;;
  ConfigMixin.set sub "1" (VStr "x") ;;
  clear_of sub ;;
  ConfigMixin.set sub "2" (VStr "y") ;;
  ret sub.


(** The fields of a JsonConfig that [write] leaves alone. *)
Definition cfg_shape (c : JsonConfig) : nat * string * value * bool :=
  (opts c, path c, template c, check_date c).

(** [w'] differs from [w] in files and in dates only. *)
Definition same_objects (w w' : world) : Prop :=
  heap w' = heap w ∧ subs w' = subs w ∧ dbs w' = dbs w ∧
  clock w' = clock w ∧ cfg_shape <$> cfgs w' = cfg_shape <$> cfgs w.

(** The dict that [dict(json.load(f))] starts from when the file holds
    [j], and the heap once [j] is decoded. *)
Definition loaded (j : json) (h : list (pydict value))
    : option (pydict value) * list (pydict value) :=
  let '(v, h') := json_load j h in
  (match v with VDict l => h' !! l | _ => None end, h').

(** The last schedule id the bot holds in memory, and the one in the file
    of [monkycfg]. *)
Definition counter (b : CoreWrapper) : option value :=
  d ← doc_opts (core_world b) (monkycfg b);
  dict_get "last_schedule_id" d.

Definition durable_counter (b : CoreWrapper) : option json :=
  c ← cfgs (core_world b) !! monkycfg b;
  j ← file_json (core_world b) (path c);
  items ← json_items j;
  dict_get "last_schedule_id" items.

(** [keeps m o v w]: JsonConfig number [m] has its dict at [o], and that
    dict holds [v] under "last_schedule_id". *)
Definition keeps (m o : nat) (v : value) (w : world) : Prop :=
  (∃ c, cfgs w !! m = Some c ∧ opts c = o) ∧
  (∃ d, heap w !! o = Some d ∧ dict_get "last_schedule_id" d = Some v).

(** The ready signal, delivered [n] times in a row. *)
Definition ready_signals (n : nat) : M CoreWrapper unit :=
  for_each (replicate n tt) (λ _, CoreWrapper.on_ready).

(** A run of schedule-created signals. *)
Definition schedules_created (hs : list Header) : M CoreWrapper unit :=
  for_each hs CoreWrapper.cfg_sched_create.

(** ** Concrete stores *)

(** A job store as CoreWrapper builds it: the template
    [{"jobs": {}, "cron": {}}] at address 0, and no document yet. *)
Definition jobdb_world : world :=
  mkWorld [ [("jobs", VDict 1); ("cron", VDict 2)]; []; [] ] [] []
          [mkJsonConfigDB "jobdb" [] (VDict 0) false] ∅ 0.

(** The documents of guilds 1 and 2 are made, one after the other. *)
Definition two_guilds : M world (nat * nat) :=
  c1 <- JsonConfigDB.get_config 0 (CInt 1) ;;
  c2 <- JsonConfigDB.get_config 0 (CInt 2) ;;
  ret (c1, c2).

(** A job is recorded for the first of two documents. *)
Definition submit_in_first (cs : nat * nat) : M world unit :=
  s <- SubconfigMixin.sub (RJson cs.1) "jobs" ;;
  ConfigMixin.set s "7" (VStr "x").

(** One document with [check_date] on, read at time 5 from a file last
    modified at time 5; it holds [{"jobs": {"9": "old"}, "a": 1}], and
    there is a view of its "jobs". *)
Definition example_doc : JsonConfig :=
  mkJsonConfig 0 "cfg/1.json" VNone true (Some 5%Z).

Definition example_view : SubConfig :=
  mkSubConfig (RJson 0) (VDict 1) "jobs" false.

Definition example_world : world :=
  mkWorld [ [("jobs", VDict 1); ("a", VInt 1)]; [("9", VStr "old")] ]
          [example_doc] [example_view] []
          {["cfg/1.json" := mkFile (Text (JObj [])) 5%Z]} 7%Z.

(** A document about to be loaded: its file holds [{"a": 1}] and its
    template is [{"a": 0, "b": 2}]. *)
Definition loading_doc : JsonConfig :=
  mkJsonConfig 1 "cfg/2.json" (VDict 0) false None.

Definition loading_world : world :=
  mkWorld [ [("a", VInt 0); ("b", VInt 2)]; [] ] [loading_doc] [] []
          {["cfg/2.json" := mkFile (Text (JObj [("a", JInt 1)])) 3%Z]} 4%Z.

(** A registry with one state class and nothing cached. *)
Definition example_state_type : state_type := mkStateType "PlayerState" true.

Definition example_gs_db : GuildStateDB :=
  mkGuildStateDB {["PlayerState" := example_state_type]}
                 {["PlayerState" := ∅]} [] (λ z, Some (mkGuild z)).

(** A bot that was stopped with job 4 and schedule 2 of guild 1 on record:
    [monkycfg] is document 0, the job document of guild 1 is document 1. *)
Definition example_bot_world : world :=
  mkWorld
    [ [("jobs", VDict 1); ("cron", VDict 2)]; []; [];
      [("last_schedule_id", VInt 0)];
      [("jobs", VDict 5); ("cron", VDict 6)];
      [("4", VDict 7)];
      [("2", VDict 8)];
      [("id", VInt 4); ("guild_id", VInt 1); ("task_type", VStr "msg")];
      [("id", VInt 2); ("guild_id", VInt 1); ("schedule", VStr "* * * * *")] ]
    [ mkJsonConfig 3 "commoncfg/_monky.json" VNone false (Some 0%Z);
      mkJsonConfig 4 "jobdb/1.json" (VDict 0) false (Some 0%Z) ]
    []
    [ mkJsonConfigDB "jobdb" [("1", 1)] (VDict 0) false ]
    ∅ 1%Z.

Definition example_bot : CoreWrapper :=
  mkCoreWrapper example_bot_world 0 0 0 example_gs_db 0 false
                (λ z, Some (mkGuild z)) [] [].

Definition schedule_3 : Header :=
  mkHeader 3 1 [("id", JInt 3); ("guild_id", JInt 1)].

Definition schedule_1 : Header :=
  mkHeader 1 1 [("id", JInt 1); ("guild_id", JInt 1)].

Definition job_4 : Header :=
  mkHeader 4 1 [("id", JInt 4); ("guild_id", JInt 1)].

(** ** More of the two modules *)

(** *** config.py: JsonConfigDB.load_db *)

(** [load_db].  [children] stands for what [self.path.iterdir()] yields:
    the stem of each name found in the directory, in the order of the
    listing. *)
Definition load_db (self : nat) (children : list string) : M world unit :=
  d <- get_db self ;;
  put_db self (mkJsonConfigDB (db_path d) [] (db_template d)
                              (unique_template d)) ;;
  for_each children (λ cid,
    t <- JsonConfigDB.get_template self (CStr cid) ;;
    p <- JsonConfigDB.cfg_loc self cid ;;
    c <- JsonConfig.new p t false ;;
    d <- get_db self ;;
    put_db self (mkJsonConfigDB (db_path d) (dict_set cid c (db d))
                                (db_template d) (unique_template d))).

(** *** wrapper.py: CoreWrapper.join_guilds_offline *)

(** [join_guilds_offline].  [guilds] stands for what
    [self.fetch_guilds()] yields. *)
Definition join_guilds_offline (guilds : list Guild) : M CoreWrapper unit :=
  for_each guilds (λ guild,
    b <- gets id ;;
    _ <- lift (JsonConfigDB.get_config (config_db b) (CInt (guild_id guild))) ;;
    _ <- lift (JsonConfigDB.get_config (job_db b) (CInt (guild_id guild))) ;;
    ret tt) ;;
  b <- gets id ;;
  lift (JsonConfigDB.write_db (config_db b)) ;;
  lift (JsonConfigDB.write_db (job_db b)).

(** ** Vocabulary of the further properties *)

(** The file of document [i] holds what the document holds in memory, and
    the document remembers that it wrote it now. *)
Definition synced (i : nat) (w : world) : Prop :=
  ∃ c j, cfgs w !! i = Some c ∧
         file_json w (path c) = Some j ∧ doc_json w i = Some j ∧
         last_readwrite_date c = Some (clock w).

(** [s = doc.sub(k); s.set(a, v)], and the view. *)
Definition sub_then_set (doc : nat) (k a : string) (v : value)
    : M world cfgref :=
  s <- SubconfigMixin.sub (RJson doc) k ;;
  ConfigMixin.set s a v ;;
  ret s.

(** No JSON object, at any depth, has two members with the same name. *)
Fixpoint unique_keys (j : json) : bool :=
  match j with
  | JObj items =>
      bool_decide (NoDup items.*1) && forallb (λ kj, unique_keys kj.2) items
  | _ => true
  end.

(** Every dict of the heap has one entry per key, as Python dicts do. *)
Definition dicts_ok (h : list (pydict value)) : Prop :=
  Forall (λ d : pydict value, NoDup d.*1) h.

(** A template [t] asks for nothing that [keys] lacks. *)
Definition template_covered (t : value) (h : list (pydict value))
    (keys : list string) : Prop :=
  match t with
  | VNone => True
  | VDict a => ∃ tm, h !! a = Some tm ∧ ∀ k, k ∈ dict_keys tm → k ∈ keys
  | _ => False
  end.

(** The template of a document asks for nothing that [keys] lacks. *)
Definition template_within (c : JsonConfig) (w : world) (keys : list string)
    : Prop :=
  template_covered (template c) (heap w) keys.

(** [w'] has the stores of [w] and the documents of [w]; only document
    [self] may have changed, and it is still at its path. *)
Definition touches_only (self : nat) (w w' : world) : Prop :=
  dbs w' = dbs w ∧ length (cfgs w') = length (cfgs w) ∧
  (∀ i, i ≠ self → cfgs w' !! i = cfgs w !! i) ∧
  (∀ c, cfgs w !! self = Some c →
        ∃ c', cfgs w' !! self = Some c' ∧ path c' = path c).

(** An id whose [str] holds no path separator: for such an id [cfg_loc]
    names the file that the code opens. *)
Definition plain_id (cid : cid_t) : Prop :=
  is_substring "/" (str cid) = false.

(** Store [dbi] has document [c] under [k]. *)
Definition has_doc (w : world) (dbi : nat) (k : string) (c : nat) : Prop :=
  ∃ d, dbs w !! dbi = Some d ∧ dict_get k (db d) = Some c.

(** Document [c] exists and its file holds a JSON text. *)
Definition on_disk (w : world) (c : nat) : Prop :=
  ∃ cc, cfgs w !! c = Some cc ∧ is_Some (file_json w (path cc)).

(** ** More concrete stores *)

(** A document whose dict holds itself. *)
Definition cyclic_world : world :=
  mkWorld [ [("self", VDict 0)] ]
          [mkJsonConfig 0 "cfg/3.json" VNone false None] [] [] ∅ 2%Z.

(** A document about to be loaded: its file holds
    [{"a": 1, "jobs": {"9": "old"}}] and its template is [{"a": 0}]. *)
Definition stored_doc : JsonConfig :=
  mkJsonConfig 1 "cfg/4.json" (VDict 0) false None.

Definition stored_json : list (string * json) :=
  [("a", JInt 1); ("jobs", JObj [("9", JStr "old")])].

Definition stored_world : world :=
  mkWorld [ [("a", VInt 0)]; [] ] [stored_doc] [] []
          {["cfg/4.json" := mkFile (Text (JObj stored_json)) 3%Z]} 4%Z.

(** The document of the first examples, after somebody else has written
    [{"a": 9}] to its file at time 6. *)
Definition edited_world : world :=
  external_edit "cfg/1.json" (mkFile (Text (JObj [("a", JInt 9)])) 6%Z)
                example_world.

(** A store with a template per id, as CoreWrapper builds its common
    store, and no document yet. *)
Definition common_world : world :=
  mkWorld [ [("_monky", VDict 1)]; [("last_schedule_id", VInt 0)] ] [] []
          [mkJsonConfigDB "commoncfg" [] (VDict 0) true] ∅ 0%Z.

(** The bot as its constructor leaves it in an empty directory: the
    guild store (0), the common store (1) with the document of "_monky",
    and the job store (2). *)
Definition startup_world : world :=
  mkWorld
    [ [("prefix", VStr "!")];
      [("_monky", VDict 2)];
      [("last_schedule_id", VInt 0)];
      [("jobs", VDict 4); ("cron", VDict 5)]; []; [];
      [];
      [("last_schedule_id", VInt 0)] ]
    [ mkJsonConfig 7 "commoncfg/_monky.json" (VDict 2) false (Some 0%Z) ]
    []
    [ mkJsonConfigDB "guildcfg" [] (VDict 0) false;
      mkJsonConfigDB "commoncfg" [("_monky", 0)] (VDict 1) true;
      mkJsonConfigDB "jobdb" [] (VDict 3) false ]
    {["commoncfg/_monky.json" :=
        mkFile (Text (JObj [("last_schedule_id", JInt 0)])) 0%Z]}
    1%Z.

(** A registry with no class. *)
Definition empty_registry : GuildStateDB :=
  mkGuildStateDB ∅ ∅ [] (λ z, Some (mkGuild z)).

Definition startup_bot : CoreWrapper :=
  mkCoreWrapper startup_world 0 1 2 empty_registry 0 false
                (λ z, Some (mkGuild z)) [] [].

(** A bot that is in no guild. *)
Definition lonely_bot : CoreWrapper :=
  mkCoreWrapper example_bot_world 0 0 0 example_gs_db 0 false
                (λ _, None) [] [].

Definition job_5 : Header :=
  mkHeader 5 1 [("id", JInt 5); ("guild_id", JInt 1)].

(** * Properties *)

(** ** The monad *)

Arguments write_of : simpl never.
Arguments clear_of : simpl never.
Arguments opts_of : simpl never.
Arguments JsonConfig.write : simpl never.
Arguments SubConfig.clear : simpl never.
Arguments SubconfigMixin.sub : simpl never.
Arguments getitem : simpl never.
Arguments setitem : simpl never.
Arguments delitem : simpl never.
Arguments contains : simpl never.
Arguments dict_copy : simpl never.
Arguments dump : simpl never.

Lemma bind_ok {S A B} (c : M S A) (k : A → M S B) s a s' :
  c s = (Ok a, s') → bind c k s = k a s'.
Proof. unfold bind. by intros ->. Qed.

Lemma bind_raise {S A B} (c : M S A) (k : A → M S B) s e s' :
  c s = (Raise e, s') → bind c k s = (Raise e, s').
Proof. unfold bind. by intros ->. Qed.

Lemma bind_ok_inv {S A B} (c : M S A) (k : A → M S B) s b s2 :
  bind c k s = (Ok b, s2) → ∃ a s1, c s = (Ok a, s1) ∧ k a s1 = (Ok b, s2).
Proof.
  unfold bind. destruct (c s) as [[a| |] s1]; [|done..].
  intros H. by exists a, s1.
Qed.

Lemma get_cfg_ok i c w : cfgs w !! i = Some c → get_cfg i w = (Ok c, w).
Proof. unfold get_cfg. by intros ->. Qed.

Lemma get_sub_ok i s w : subs w !! i = Some s → get_sub i w = (Ok s, w).
Proof. unfold get_sub. by intros ->. Qed.

Lemma get_db_ok i d w : dbs w !! i = Some d → get_db i w = (Ok d, w).
Proof. unfold get_db. by intros ->. Qed.

Lemma deref_ok l d w : heap w !! l = Some d → deref l w = (Ok d, w).
Proof. unfold deref. by intros ->. Qed.

(** ** JsonConfig.write *)

Lemma write_ok i c j w :
  cfgs w !! i = Some c →
  unmodified c w →
  dump (heap w) (VDict (opts c)) = Ok j →
  JsonConfig.write i w = (Ok tt, after_write i c j w).
Proof.
  intros Hc Hu Hj. unfold JsonConfig.write.
  rewrite (bind_ok _ _ _ _ _ (get_cfg_ok _ _ _ Hc)).
  unfold bind at 1. unfold gets at 1.
  assert (Hchk : (match fs w !! path c with
    | Some fl =>
        if check_date c then
          match last_readwrite_date c with
          | None => raise TypeError
          | Some t =>
              if (t <? f_mtime fl)%Z then raise ConfigException else ret tt
          end
        else ret tt
    | None => ret tt
    end : M world unit) w = (Ok tt, w)).
  { destruct (fs w !! path c) as [fl|] eqn:Hf; [|done].
    destruct (check_date c) eqn:Hcd; [|done].
    destruct (Hu Hcd fl Hf) as (t & -> & Hle).
    destruct (Z.ltb_spec t (f_mtime fl)); [lia|done]. }
  rewrite (bind_ok _ _ _ _ _ Hchk).
  unfold bind, gets, put_file, modify, lift_res, JsonConfig.update_last_date,
    get_cfg, put_cfg; simpl.
  rewrite Hj. unfold bind, gets, modify; simpl. rewrite Hc.
  unfold after_write, written, with_cfgs, with_fs; simpl.
  by rewrite insert_insert_eq.
Qed.

Lemma write_conflict i c f t w :
  cfgs w !! i = Some c →
  check_date c = true →
  fs w !! path c = Some f →
  last_readwrite_date c = Some t →
  (t < f_mtime f)%Z →
  JsonConfig.write i w = (Raise ConfigException, w).
Proof.
  intros Hc Hcd Hf Ht Hlt. unfold JsonConfig.write.
  rewrite (bind_ok _ _ _ _ _ (get_cfg_ok _ _ _ Hc)).
  unfold bind, gets; simpl. rewrite Hf, Hcd, Ht.
  by destruct (Z.ltb_spec t (f_mtime f)); [|lia].
Qed.

Lemma after_write_cfg i c j w :
  cfgs w !! i = Some c →
  cfgs (after_write i c j w) !! i = Some (written c (clock w)).
Proof.
  intros Hc. unfold after_write; simpl.
  apply list_lookup_insert_eq. by eapply lookup_lt_Some.
Qed.

Lemma after_write_file i c j w :
  fs (after_write i c j w) !! path c = Some (mkFile (Text j) (clock w)).
Proof. unfold after_write; simpl. apply lookup_insert_eq. Qed.

Lemma after_write_unmodified i c j w d :
  unmodified (written c (clock w)) (advance d (after_write i c j w)).
Proof.
  intros _ f. simpl. rewrite lookup_insert_eq. intros [= <-].
  exists (clock w). simpl. split; [done|lia].
Qed.

(** C3: with [check_date] on, a write and then a second write, with no
    outside modification in between, both succeed; if somebody else writes
    the file in between and its modification time is past the date of the
    first write, the second write raises ConfigException and changes
    nothing, the file included. *)
Theorem C3_check_date_sequential_writes i c j w d :
  cfgs w !! i = Some c →
  check_date c = true →
  unmodified c w →
  dump (heap w) (VDict (opts c)) = Ok j →
  let w1 := after_write i c j w in
  JsonConfig.write i w = (Ok tt, w1) ∧
  JsonConfig.write i (advance d w1)
    = (Ok tt, after_write i (written c (clock w)) j (advance d w1)) ∧
  ∀ f, (clock w < f_mtime f)%Z →
    let w' := external_edit (path c) f (advance d w1) in
    JsonConfig.write i w' = (Raise ConfigException, w') ∧
    fs w' !! path c = Some f.
Proof.
  intros Hc Hcd Hu Hj w1. split_and!.
  - by apply write_ok.
  - apply write_ok; [by apply after_write_cfg | apply after_write_unmodified | done].
  - intros f Hlt w'. split.
    + apply (write_conflict i (written c (clock w)) f (clock w)); try done.
      * by apply after_write_cfg.
      * apply lookup_insert_eq.
    + apply lookup_insert_eq.
Qed.

(** ** Dicts *)

Section dict.
Context {V : Type}.
Implicit Types (d : pydict V) (k : string) (v : V).

Lemma dict_get_set_eq k v d : dict_get k (dict_set k v d) = Some v.
Proof.
  induction d as [|[k' v'] r IH]; simpl.
  - by rewrite decide_True.
  - destruct (decide (k = k')) as [->|Hne]; simpl.
    + by rewrite decide_True.
    + by rewrite decide_False.
Qed.

Lemma dict_get_set_ne k k' v d :
  k ≠ k' → dict_get k' (dict_set k v d) = dict_get k' d.
Proof.
  intros Hne. induction d as [|[k0 v0] r IH]; simpl.
  - by rewrite decide_False.
  - destruct (decide (k = k0)) as [->|Hne0]; simpl.
    + by rewrite !decide_False.
    + destruct (decide (k' = k0)); [done|apply IH].
Qed.

Lemma dict_get_del_eq k d : dict_get k (dict_del k d) = None.
Proof.
  induction d as [|[k' v'] r IH]; simpl; [done|].
  destruct (decide (k = k')) as [->|Hne]; simpl; [done|].
  by rewrite decide_False.
Qed.

Lemma dict_get_del_ne k k' d :
  k ≠ k' → dict_get k' (dict_del k d) = dict_get k' d.
Proof.
  intros Hne. induction d as [|[k0 v0] r IH]; simpl; [done|].
  destruct (decide (k = k0)) as [->|Hne0]; simpl.
  - by rewrite decide_False.
  - destruct (decide (k' = k0)); [done|apply IH].
Qed.

Lemma dict_mem_true k d : dict_mem k d = true ↔ is_Some (dict_get k d).
Proof.
  unfold dict_mem. destruct (dict_get k d); split; try done.
Qed.

Lemma dict_mem_false k d : dict_mem k d = false ↔ dict_get k d = None.
Proof. unfold dict_mem. by destruct (dict_get k d). Qed.

Lemma dict_get_keys k d : is_Some (dict_get k d) ↔ k ∈ dict_keys d.
Proof.
  unfold dict_keys. induction d as [|[k' v'] r IH]; simpl.
  - split; [by intros [? ?]|by intros ?%elem_of_nil].
  - rewrite elem_of_cons. destruct (decide (k = k')) as [->|Hne].
    + split; [by left|by eexists].
    + rewrite IH. split; [by right|]. by intros [?|?].
Qed.

(** A dict that does not hold [k] gets it as its last entry. *)
Lemma dict_set_new k v d :
  dict_get k d = None → dict_set k v d = d ++ [(k, v)].
Proof.
  induction d as [|[k' v'] r IH]; simpl; [done|].
  destruct (decide (k = k')); [done|]. intros H. by rewrite IH.
Qed.
End dict.

(** ** Primitive operations on a known store *)

Lemma opts_of_json i c w :
  cfgs w !! i = Some c → opts_of (RJson i) w = (Ok (VDict (opts c)), w).
Proof. intros H. unfold opts_of. by rewrite (bind_ok _ _ _ _ _ (get_cfg_ok _ _ _ H)). Qed.

Lemma opts_of_sub i s w :
  subs w !! i = Some s → opts_of (RSub i) w = (Ok (sc_opts s), w).
Proof. intros H. unfold opts_of. by rewrite (bind_ok _ _ _ _ _ (get_sub_ok _ _ _ H)). Qed.

Lemma getitem_ok l d k v w :
  heap w !! l = Some d → dict_get k d = Some v →
  getitem (VDict l) k w = (Ok v, w).
Proof.
  intros Hl Hk. unfold getitem.
  rewrite (bind_ok _ _ _ _ _ (deref_ok _ _ _ Hl)). by rewrite Hk.
Qed.

Lemma getitem_missing l d k w :
  heap w !! l = Some d → dict_get k d = None →
  getitem (VDict l) k w = (Raise KeyError, w).
Proof.
  intros Hl Hk. unfold getitem.
  rewrite (bind_ok _ _ _ _ _ (deref_ok _ _ _ Hl)). by rewrite Hk.
Qed.

Lemma setitem_ok l d k v w :
  heap w !! l = Some d →
  setitem (VDict l) k v w = (Ok tt, with_heap (<[l := dict_set k v d]> (heap w)) w).
Proof.
  intros Hl. unfold setitem.
  by rewrite (bind_ok _ _ _ _ _ (deref_ok _ _ _ Hl)).
Qed.

Lemma delitem_ok l d k w :
  heap w !! l = Some d → is_Some (dict_get k d) →
  delitem (VDict l) k w = (Ok tt, with_heap (<[l := dict_del k d]> (heap w)) w).
Proof.
  intros Hl Hk%dict_mem_true. unfold delitem.
  rewrite (bind_ok _ _ _ _ _ (deref_ok _ _ _ Hl)). by rewrite Hk.
Qed.

Lemma delitem_missing l d k w :
  heap w !! l = Some d → dict_get k d = None →
  delitem (VDict l) k w = (Raise KeyError, w).
Proof.
  intros Hl Hk%dict_mem_false. unfold delitem.
  rewrite (bind_ok _ _ _ _ _ (deref_ok _ _ _ Hl)). by rewrite Hk.
Qed.

Lemma contains_ok l d k w :
  heap w !! l = Some d →
  contains (VDict l) k w = (Ok (dict_mem k d), w).
Proof.
  intros Hl. unfold contains.
  by rewrite (bind_ok _ _ _ _ _ (deref_ok _ _ _ Hl)).
Qed.

Lemma dict_copy_ok l d w :
  heap w !! l = Some d →
  dict_copy (VDict l) w = (Ok (length (heap w)), with_heap (heap w ++ [d]) w).
Proof.
  intros Hl. unfold dict_copy.
  by rewrite (bind_ok _ _ _ _ _ (deref_ok _ _ _ Hl)).
Qed.

Lemma sub_ok self o k v w :
  opts_of self w = (Ok o, w) →
  getitem o k w = (Ok v, w) →
  SubconfigMixin.sub self k w
    = (Ok (RSub (length (subs w))),
       with_subs (subs w ++ [mkSubConfig self v k false]) w).
Proof.
  intros Ho Hg. unfold SubconfigMixin.sub.
  rewrite (bind_ok _ _ _ _ _ Ho), (bind_ok _ _ _ _ _ Hg). done.
Qed.

(** A SubConfig directly under a JsonConfig writes through it. *)
Lemma write_of_sub i s c w :
  subs w !! i = Some s → parent s = RJson c →
  write_of (RSub i) w = JsonConfig.write c w.
Proof.
  intros Hs Hp. unfold write_of. simpl.
  rewrite (bind_ok _ _ _ _ _ (get_sub_ok _ _ _ Hs)). by rewrite Hp.
Qed.

(** ** ConfigMixin.delete on a missing key *)

Lemma delete_missing self l d k w :
  opts_of self w = (Ok (VDict l), w) →
  heap w !! l = Some d →
  dict_get k d = None →
  ConfigMixin.delete self k false w = (Raise KeyError, w) ∧
  ConfigMixin.delete self k true w = (Ok tt, w).
Proof.
  intros Ho Hl Hk. unfold ConfigMixin.delete. split.
  - unfold bind at 1. unfold ret at 1.
    rewrite (bind_ok _ _ _ _ _ Ho).
    by rewrite (bind_raise _ _ _ _ _ (delitem_missing _ _ _ _ Hl Hk)).
  - rewrite (bind_ok _ (λ skip : bool, if skip then _ else _) w true w); [done|].
    rewrite (bind_ok _ _ _ _ _ Ho).
    rewrite (bind_ok _ _ _ _ _ (contains_ok _ _ _ _ Hl)).
    apply dict_mem_false in Hk. by rewrite Hk.
Qed.

(** ** json.dump *)

Lemma dump_scalar n h ms v : scalar v → ∃ j, dump_val n h ms v = Ok j.
Proof. destruct v, n; simpl; intros Hs; try done; by eexists. Qed.

Lemma dump_items_ok f d js :
  dump_items f d = Ok js ↔
  Forall2 (λ kv kj, kv.1 = kj.1 ∧ f kv.2 = Ok kj.2) d js.
Proof.
  revert js. induction d as [|[k v] r IH]; intros js; simpl.
  - split.
    + intros [= <-]. constructor.
    + by intros ->%Forall2_nil_inv_l.
  - split.
    + destruct (f v) as [j| |] eqn:Hv; simpl; [|done..].
      destruct (dump_items f r) as [js'| |] eqn:Hr; simpl; [|done..].
      intros [= <-]. constructor; [done|]. by apply IH.
    + intros (kj & js' & [Hk Hv] & Hr & ->)%Forall2_cons_inv_l.
      simpl in *. rewrite Hv; simpl. apply IH in Hr. rewrite Hr; simpl.
      destruct kj as [k' j]; simpl in *. by subst.
Qed.

Lemma dump_items_all_ok f d :
  (∃ js, dump_items f d = Ok js) ↔ Forall (λ kv, ∃ j, f kv.2 = Ok j) d.
Proof.
  induction d as [|[k v] r IH]; simpl.
  - split; [constructor|by eexists].
  - rewrite Forall_cons, <-IH. simpl. split.
    + intros [js H]. destruct (f v) as [j| |]; simpl in H; [|done..].
      destruct (dump_items f r) as [js'| |]; simpl in H; [|done..].
      split; by eexists.
    + intros [[j ->] [js' ->]]. simpl. by eexists.
Qed.

(** The entry of a key in the dumped object is the dump of its value. *)
Lemma dump_items_get f d js k v :
  dump_items f d = Ok js → dict_get k d = Some v →
  ∃ j, f v = Ok j ∧ dict_get k js = Some j.
Proof.
  revert js. induction d as [|[k' v'] r IH]; intros js; simpl; [done|].
  destruct (f v') as [j'| |] eqn:Hv; simpl; [|done..].
  destruct (dump_items f r) as [js'| |] eqn:Hr; simpl; [|done..].
  intros [= <-]. simpl. destruct (decide (k = k')) as [->|Hne].
  - intros [= <-]. by exists j'.
  - by apply IH.
Qed.

Lemma dump_items_get_None f d js k :
  dump_items f d = Ok js → dict_get k d = None → dict_get k js = None.
Proof.
  revert js. induction d as [|[k' v'] r IH]; intros js; simpl.
  - by intros [= <-].
  - destruct (f v') as [j'| |] eqn:Hv; simpl; [|done..].
    destruct (dump_items f r) as [js'| |] eqn:Hr; simpl; [|done..].
    intros [= <-]. simpl. destruct (decide (k = k')); [done|]. by apply IH.
Qed.

Lemma dump_val_dict_inv n h ms l j :
  dump_val n h ms (VDict l) = Ok j →
  ∃ n' d js, n = S n' ∧ (l ∉ ms) ∧ h !! l = Some d ∧
    dump_items (dump_val n' h (l :: ms)) d = Ok js ∧ j = JObj js.
Proof.
  destruct n as [|n']; simpl; [done|].
  destruct (decide (l ∈ ms)); [done|].
  destruct (h !! l) as [d|]; [|done].
  destruct (dump_items _ d) as [js| |] eqn:Hd; simpl; [|done..].
  intros [= <-]. by exists n', d, js.
Qed.

Lemma dump_val_dict n h ms l d js :
  l ∉ ms → h !! l = Some d →
  dump_items (dump_val n h (l :: ms)) d = Ok js →
  dump_val (S n) h ms (VDict l) = Ok (JObj js).
Proof.
  intros Hl Hd Hjs. simpl. rewrite decide_False by done. by rewrite Hd, Hjs.
Qed.

(** More fuel does not change a result. *)
Lemma dump_val_mono n n' h ms v j :
  n ≤ n' → dump_val n h ms v = Ok j → dump_val n' h ms v = Ok j.
Proof.
  revert n' ms v j. induction n as [|n IH]; intros n' ms v j Hle.
  - destruct v; simpl; try done; by destruct n'.
  - destruct v as [| | | |l]; try by destruct n'.
    intros (n0 & d & js & [= <-] & Hl & Hd & Hjs & ->)%dump_val_dict_inv.
    destruct n' as [|n']; [lia|]. apply dump_val_dict with d; [done..|].
    apply dump_items_ok. apply dump_items_ok in Hjs.
    eapply Forall2_impl; [exact Hjs|]. intros [k v] [k' j] [? Hv]; simpl in *.
    split; [done|]. apply IH; [lia|done].
Qed.

(** A dict that holds itself is not serialisable. *)
Lemma dump_self_cycle h l d k j :
  h !! l = Some d → dict_get k d = Some (VDict l) →
  dump h (VDict l) ≠ Ok j.
Proof.
  intros Hd Hk. unfold dump.
  intros (n' & d' & js & [= <-] & Hl & Hd' & Hjs & ->)%dump_val_dict_inv.
  rewrite Hd in Hd'. injection Hd' as <-.
  destruct (dump_items_get _ _ _ _ _ Hjs Hk) as (j & Hj & _).
  apply dump_val_dict_inv in Hj as (? & ? & ? & _ & Hin & _).
  apply Hin. by left.
Qed.

(** *** Serialisable values stay serialisable *)

Section sim.
Variables (h h' : list (pydict value)) (δ : nat).

Hypothesis Hsim : ∀ l d, h !! l = Some d →
  ∃ d', h' !! l = Some d' ∧
    Forall (λ kv, kv.2 ∈ d.*2 ∨ fresh_ok h h' δ kv.2) d'.

Lemma dump_sim n ms v :
  (∀ m, m ∈ ms → m < length h) →
  (∃ j, dump_val n h ms v = Ok j) →
  ∃ j, dump_val (δ + n) h' ms v = Ok j.
Proof.
  revert ms v. induction n as [|n IH]; intros ms v Hms [j Hj].
  - destruct v; by apply dump_scalar.
  - destruct v as [| | | |l]; try (by apply dump_scalar).
    apply dump_val_dict_inv in Hj
      as (n0 & d & js & [= <-] & Hl & Hd & Hjs & ->).
    destruct (Hsim l d Hd) as (d' & Hd' & Hall).
    assert (Hms' : ∀ m, m ∈ l :: ms → m < length h).
    { intros m [->|Hm]%elem_of_cons; [by eapply lookup_lt_Some|by apply Hms]. }
    assert (Hold : Forall (λ kv, ∃ j, dump_val n h (l :: ms) kv.2 = Ok j) d).
    { apply dump_items_all_ok. by exists js. }
    assert (∃ js', dump_items (dump_val (δ + n) h' (l :: ms)) d' = Ok js')
      as [js' Hjs'].
    { apply dump_items_all_ok. eapply Forall_impl; [exact Hall|].
      intros [k v] [Hin|Hf]; simpl in *.
      - apply IH; [done|].
        apply list_elem_of_fmap in Hin as ([k0 v0] & -> & Hin).
        rewrite Forall_forall in Hold. apply (Hold _ Hin).
      - apply Hf, Hms'. }
    exists (JObj js'). replace (δ + S n) with (S (δ + n)) by lia.
    by apply dump_val_dict with d'.
Qed.
End sim.

Lemma Forall_dict_set {V} (P : string * V → Prop) k v (d : pydict V) :
  Forall P d → P (k, v) → Forall P (dict_set k v d).
Proof.
  intros Hd Hkv. induction Hd as [|[k' v'] r Hx Hr IH]; simpl.
  - by constructor.
  - destruct (decide (k = k')); constructor; done.
Qed.

Lemma Forall_dict_del {V} (P : string * V → Prop) k (d : pydict V) :
  Forall P d → Forall P (dict_del k d).
Proof.
  intros Hd. induction Hd as [|[k' v'] r Hx Hr IH]; simpl; [done|].
  destruct (decide (k = k')); [done|]. by constructor.
Qed.

Lemma Forall_own_values (d : pydict value) (Q : value → Prop) :
  Forall (λ kv, kv.2 ∈ d.*2 ∨ Q kv.2) d.
Proof.
  apply Forall_forall. intros [k v] Hin. left.
  apply list_elem_of_fmap. by exists (k, v).
Qed.

Lemma fresh_ok_scalar h h' δ v : scalar v → fresh_ok h h' δ v.
Proof. intros Hs n ms _. by apply dump_scalar. Qed.

(** Replacing the entries of one dict by entries it already had, or by
    scalars, keeps every value serialisable. *)
Lemma serialisable_store h l d d' v :
  h !! l = Some d →
  Forall (λ kv, kv.2 ∈ d.*2 ∨ scalar kv.2) d' →
  serialisable h v → serialisable (<[l := d']> h) v.
Proof.
  intros Hl Hd' [j Hj]. unfold serialisable, dump. rewrite length_insert.
  apply (dump_sim h (<[l := d']> h) 0); [|by intros ? ?%elem_of_nil|by exists j].
  intros l0 d0 Hl0. destruct (decide (l0 = l)) as [->|Hne].
  - exists d'. split.
    + apply list_lookup_insert_eq. by eapply lookup_lt_Some.
    + rewrite Hl in Hl0. injection Hl0 as <-.
      eapply Forall_impl; [exact Hd'|]. intros kv [?|?]; [by left|right].
      by apply fresh_ok_scalar.
  - exists d0. split; [by rewrite list_lookup_insert_ne|apply Forall_own_values].
Qed.

Lemma serialisable_set_scalar h l d k s v :
  h !! l = Some d → scalar s →
  serialisable h v → serialisable (<[l := dict_set k s d]> h) v.
Proof.
  intros Hl Hs. apply serialisable_store with d; [done|].
  apply Forall_dict_set; [apply Forall_own_values|by right].
Qed.

Lemma serialisable_del h l d k v :
  h !! l = Some d →
  serialisable h v → serialisable (<[l := dict_del k d]> h) v.
Proof.
  intros Hl. apply serialisable_store with d; [done|].
  apply Forall_dict_del, Forall_own_values.
Qed.

(** [SubConfig.clear]'s effect on the heap: a new empty dict, stored under
    [k] in the dict at [r]. *)
Lemma serialisable_clear h r root k v :
  h !! r = Some root →
  serialisable h v →
  serialisable (<[r := dict_set k (VDict (length h)) root]> (h ++ [[]])) v.
Proof.
  intros Hr [j Hj]. unfold serialisable, dump.
  rewrite length_insert.
  replace (S (length (h ++ [[]]))) with (1 + S (length h))
    by (rewrite length_app; simpl; lia).
  apply (dump_sim h); [|by intros ? ?%elem_of_nil|by exists j].
  intros l0 d0 Hl0.
  assert (Hlt : l0 < length h) by by eapply lookup_lt_Some.
  destruct (decide (l0 = r)) as [->|Hne].
  - exists (dict_set k (VDict (length h)) root). split.
    + apply list_lookup_insert_eq. rewrite length_app. lia.
    + rewrite Hr in Hl0. injection Hl0 as <-.
      apply Forall_dict_set; [apply Forall_own_values|]. right. simpl.
      intros n ms Hms. exists (JObj []). apply dump_val_dict with [].
      * intros Hin%Hms. lia.
      * rewrite list_lookup_insert_ne by lia.
        by rewrite lookup_app_r, Nat.sub_diag.
      * done.
  - exists d0. split; [|apply Forall_own_values].
    rewrite list_lookup_insert_ne by done. by apply lookup_app_l_Some.
Qed.

Lemma serialisable_alloc h d v :
  serialisable h v → serialisable (h ++ [d]) v.
Proof.
  intros [j Hj]. exists j. unfold dump in *.
  assert (∀ n ms v j, dump_val n h ms v = Ok j →
                      dump_val n (h ++ [d]) ms v = Ok j) as Hext.
  { clear. induction n as [|n IH]; intros ms v j.
    - by destruct v.
    - destruct v as [| | | |l]; try done.
      intros (n0 & d0 & js & [= <-] & Hl & Hd & Hjs & ->)%dump_val_dict_inv.
      apply dump_val_dict with d0; [done|by apply lookup_app_l_Some|].
      apply dump_items_ok. apply dump_items_ok in Hjs.
      eapply Forall2_impl; [exact Hjs|]. intros [??] [??] [? ?]; simpl in *.
      split; [done|]. by apply IH. }
  apply Hext. eapply dump_val_mono; [|exact Hj]. rewrite length_app. lia.
Qed.

(** The entry of [k] in a dumped document. *)
Lemma dump_root_get h r root k v j :
  dump h (VDict r) = Ok j → h !! r = Some root → dict_get k root = Some v →
  ∃ js jv, j = JObj js ∧ dict_get k js = Some jv ∧
           dump_val (length h) h [r] v = Ok jv.
Proof.
  unfold dump.
  intros (n' & d & js & [= <-] & _ & Hd & Hjs & ->)%dump_val_dict_inv Hr Hk.
  rewrite Hr in Hd. injection Hd as <-.
  destruct (dump_items_get _ _ _ _ _ Hjs Hk) as (jv & Hjv & Hget).
  by exists js, jv.
Qed.

(** *** The fuel of [dump] is enough *)

Lemma dump_items_ext f g d :
  Forall (λ kv, f kv.2 = g kv.2) d → dump_items f d = dump_items g d.
Proof.
  induction 1 as [|[k v] r Hv _ IH]; simpl; [done|].
  simpl in Hv. by rewrite Hv, IH.
Qed.

Lemma markers_bounded (h : list (pydict value)) (ms : list nat) :
  NoDup ms → (∀ m, m ∈ ms → m < length h) → length ms ≤ length h.
Proof.
  intros Hnd Hb.
  transitivity (length (seq 0 (length h))); [|by rewrite length_seq].
  apply submseteq_length, NoDup_submseteq; [done|].
  intros m Hm%Hb. apply elem_of_seq. lia.
Qed.

(** Once the fuel exceeds the number of dicts that are not yet entered,
    more fuel changes nothing: the encoder stops on a marker first. *)
Lemma dump_val_fuel_enough h n n' ms v :
  NoDup ms → (∀ m, m ∈ ms → m < length h) →
  length h < n + length ms → n ≤ n' →
  dump_val n' h ms v = dump_val n h ms v.
Proof.
  revert n' ms v. induction n as [|n IH]; intros n' ms v Hnd Hb Hlen Hle.
  - pose proof (markers_bounded h ms Hnd Hb). lia.
  - destruct n' as [|n']; [lia|].
    destruct v as [| | | |l]; try done. simpl.
    destruct (decide (l ∈ ms)) as [|Hl]; [done|].
    destruct (h !! l) as [d|] eqn:Hd; [|done].
    f_equal. apply dump_items_ext, Forall_forall. intros [k x] _. simpl.
    apply IH.
    + by constructor.
    + intros m [->|Hm]%elem_of_cons; [by eapply lookup_lt_Some|by apply Hb].
    + simpl. lia.
    + lia.
Qed.

Lemma dump_fuel_enough h n v :
  S (length h) ≤ n → dump_val n h [] v = dump h v.
Proof.
  intros Hn. unfold dump. apply dump_val_fuel_enough; try done.
  - constructor.
  - by intros m ?%elem_of_nil.
  - simpl. lia.
Qed.

(** ** get_and_clear *)

Lemma unmodified_ext c c' w w' :
  check_date c' = check_date c → path c' = path c →
  last_readwrite_date c' = last_readwrite_date c →
  fs w' = fs w →
  unmodified c w → unmodified c' w'.
Proof.
  unfold unmodified. intros -> -> -> ->. done.
Qed.

Lemma dump_empty h l :
  h !! l = Some [] → dump h (VDict l) = Ok (JObj []).
Proof.
  intros Hl. unfold dump. apply dump_val_dict with []; [|done..].
  by intros ?%elem_of_nil.
Qed.

Lemma get_and_clear_json i c m w :
  cfgs w !! i = Some c →
  heap w !! opts c = Some m →
  unmodified c w →
  let a := length (heap w) in
  let c' := mkJsonConfig (S a) (path c) (template c) (check_date c)
                         (last_readwrite_date c) in
  ConfigMixin.get_and_clear (RJson i) w
  = (Ok (VDict a),
     after_write i c' (JObj [])
       (with_cfgs (<[i := c']> (cfgs w)) (with_heap (heap w ++ [m; []]) w))).
Proof.
  intros Hc Hm Hu a c'. unfold ConfigMixin.get_and_clear.
  rewrite (bind_ok _ _ _ _ _ (opts_of_json _ _ _ Hc)).
  rewrite (bind_ok _ _ _ _ _ (dict_copy_ok _ _ _ Hm)).
  unfold clear_of, JsonConfig.clear, JsonConfig.set_opts.
  unfold bind at 1. unfold bind at 1. unfold alloc at 1. simpl.
  unfold bind at 1. unfold get_cfg at 1. simpl. rewrite Hc.
  unfold put_cfg, modify. simpl.
  rewrite length_app. simpl. rewrite Nat.add_1_r. fold a.
  rewrite <-(assoc_L (++)). simpl.
  erewrite bind_ok; [done|].
  apply write_ok.
  - simpl. apply list_lookup_insert_eq. by eapply lookup_lt_Some.
  - by eapply unmodified_ext; [..|exact Hu].
  - simpl. apply dump_empty. subst a.
    rewrite (lookup_app_r _ _ (S (length (heap w)))) by lia.
    by replace (S (length (heap w)) - length (heap w)) with 1 by lia.
Qed.

(** [self.opts] looks at the configuration objects only. *)
Lemma opts_of_ext r o w w' :
  cfgs w' = cfgs w → subs w' = subs w →
  opts_of r w = (Ok o, w) → opts_of r w' = (Ok o, w').
Proof.
  intros Hc Hs. destruct r as [i|i]; unfold opts_of, bind, get_cfg, get_sub, ret.
  - rewrite Hc. destruct (cfgs w !! i); by intros [= <-].
  - rewrite Hs. destruct (subs w !! i); by intros [= <-].
Qed.

(** [SubConfig.clear]: the new dict goes into the parent's dict, and the
    view is re-bound to it. *)
Lemma sub_clear_ok n s lp dp w :
  subs w !! n = Some s →
  opts_of (parent s) w = (Ok (VDict lp), w) → heap w !! lp = Some dp →
  let e := length (heap w) in
  SubConfig.clear n w
  = (Ok tt,
     with_subs (<[n := mkSubConfig (parent s) (VDict e) (name s) (invalid s)]>
                  (subs w))
       (with_heap (<[lp := dict_set (name s) (VDict e) dp]>
                     (heap w ++ [[]])) w)).
Proof.
  intros Hs Hp Hr e. unfold SubConfig.clear.
  rewrite (bind_ok _ _ _ _ _ (get_sub_ok _ _ _ Hs)).
  rewrite (bind_ok _ _ _ _ _
    (eq_refl : alloc [] w = (Ok e, with_heap (heap w ++ [[]]) w))).
  set (w1 := with_heap (heap w ++ [[]]) w).
  rewrite (bind_ok _ _ _ _ _ (opts_of_ext _ _ w w1 eq_refl eq_refl Hp)).
  assert (Hr1 : heap w1 !! lp = Some dp) by by apply lookup_app_l_Some.
  rewrite (bind_ok _ _ _ _ _ (setitem_ok _ _ _ _ _ Hr1)).
  set (w2 := with_heap _ w1).
  rewrite (bind_ok _ _ _ _ _ (opts_of_ext _ _ w w2 eq_refl eq_refl Hp)).
  assert (Hr2 : heap w2 !! lp = Some (dict_set (name s) (VDict e) dp)).
  { simpl. apply list_lookup_insert_eq. rewrite length_app.
    apply lookup_lt_Some in Hr. lia. }
  rewrite (bind_ok _ _ _ _ _
             (getitem_ok _ _ _ _ _ Hr2 (dict_get_set_eq _ _ _))).
  done.
Qed.

(** A view writes through the JsonConfig at the end of its parent chain. *)
Lemma sub_write_root fuel n i w :
  root_of fuel (subs w) (RSub n) = Some i →
  SubConfig.write fuel n w = JsonConfig.write i w.
Proof.
  revert n. induction fuel as [|f IH]; intros n; simpl; [done|].
  intros (s & Hs & Hroot)%bind_Some.
  rewrite (bind_ok _ _ _ _ _ (get_sub_ok _ _ _ Hs)).
  destruct (parent s) as [i'|j].
  - destruct f; simpl in Hroot; by injection Hroot as ->.
  - by apply IH.
Qed.

Lemma root_of_parents fuel ss ss' r :
  parent <$> ss' = parent <$> ss → root_of fuel ss' r = root_of fuel ss r.
Proof.
  intros Hp. revert r. induction fuel as [|f IH]; intros [i|n]; simpl; try done.
  assert (Hn : parent <$> ss' !! n = parent <$> ss !! n).
  { by rewrite <-!list_lookup_fmap, Hp. }
  destruct (ss' !! n) as [s'|], (ss !! n) as [s|]; simpl in *; try done.
  injection Hn as ->. apply IH.
Qed.

Lemma get_and_clear_sub n s i c l m lp dp w :
  subs w !! n = Some s → sc_opts s = VDict l → heap w !! l = Some m →
  opts_of (parent s) w = (Ok (VDict lp), w) → heap w !! lp = Some dp →
  root_of (S (length (subs w))) (subs w) (RSub n) = Some i →
  cfgs w !! i = Some c →
  unmodified c w →
  serialisable (heap w) (VDict (opts c)) →
  let a := length (heap w) in
  let h' := <[lp := dict_set (name s) (VDict (S a)) dp]>
              (heap w ++ [m; []]) in
  ∃ j,
    dump h' (VDict (opts c)) = Ok j ∧
    ConfigMixin.get_and_clear (RSub n) w
    = (Ok (VDict a),
       after_write i c j
         (with_subs (<[n := mkSubConfig (parent s) (VDict (S a)) (name s)
                                        (invalid s)]> (subs w))
            (with_heap h' w))).
Proof.
  intros Hs Ho Hm Hp Hdp Hroot Hc Hu Hser a h'.
  assert (Hlpa : lp < a) by by eapply lookup_lt_Some.
  assert (serialisable h' (VDict (opts c))) as [j Hj].
  { subst h'. replace (heap w ++ [m; []]) with ((heap w ++ [m]) ++ [[]])
      by by rewrite <-(assoc_L (++)).
    replace (S a) with (length (heap w ++ [m]))
      by (rewrite length_app; simpl; lia).
    apply serialisable_clear; [by apply lookup_app_l_Some|].
    by apply serialisable_alloc. }
  exists j. split; [done|].
  unfold ConfigMixin.get_and_clear.
  rewrite (bind_ok _ _ _ _ _ (opts_of_sub _ _ _ Hs)). rewrite Ho.
  rewrite (bind_ok _ _ _ _ _ (dict_copy_ok _ _ _ Hm)). fold a.
  set (w1 := with_heap (heap w ++ [m]) w).
  assert (Hdp1 : heap w1 !! lp = Some dp) by by apply lookup_app_l_Some.
  unfold clear_of.
  rewrite (bind_ok _ _ _ _ _
             (sub_clear_ok n s lp dp w1 Hs
                (opts_of_ext _ _ w w1 eq_refl eq_refl Hp) Hdp1)).
  simpl. rewrite length_app; simpl. rewrite Nat.add_1_r. fold a.
  rewrite <-(assoc_L (++)); simpl. fold h'.
  set (w2 := with_subs _ _).
  erewrite bind_ok; [done|].
  unfold write_of.
  rewrite (sub_write_root _ n i w2).
  - apply write_ok; [done| |done].
    by eapply unmodified_ext; [..|exact Hu].
  - simpl subs. rewrite length_insert.
    rewrite <-Hroot. apply root_of_parents.
    rewrite list_fmap_insert. simpl. apply list_insert_id.
    by rewrite list_lookup_fmap, Hs.
Qed.

(** C6: [get_and_clear] returns a new dict with the entries [opts] had;
    afterwards [opts] is empty and the document is written out with the
    empty mapping in place: the file of a JsonConfig holds {}, and the
    file of the JsonConfig that a SubConfig belongs to holds the document
    as it now is, with {} under the key of a view taken from the document
    itself. *)
Theorem C6_get_and_clear_snapshot :
  (∀ i c m w,
     cfgs w !! i = Some c → heap w !! opts c = Some m → unmodified c w →
     ∃ a w',
       ConfigMixin.get_and_clear (RJson i) w = (Ok (VDict a), w') ∧
       heap w !! a = None ∧ heap w' !! a = Some m ∧
       doc_opts w' i = Some [] ∧
       file_json w' (path c) = Some (JObj [])) ∧
  (∀ n s i c l m lp dp w,
     subs w !! n = Some s → sc_opts s = VDict l → heap w !! l = Some m →
     opts_of (parent s) w = (Ok (VDict lp), w) → heap w !! lp = Some dp →
     root_of (S (length (subs w))) (subs w) (RSub n) = Some i →
     cfgs w !! i = Some c →
     unmodified c w → serialisable (heap w) (VDict (opts c)) →
     ∃ a w',
       ConfigMixin.get_and_clear (RSub n) w = (Ok (VDict a), w') ∧
       heap w !! a = None ∧ heap w' !! a = Some m ∧
       view_opts w' n = Some [] ∧
       (∃ dp' e, heap w' !! lp = Some dp' ∧
                 dict_get (name s) dp' = Some (VDict e) ∧
                 heap w' !! e = Some []) ∧
       (∃ j, file_json w' (path c) = Some j ∧ doc_json w' i = Some j ∧
             (parent s = RJson i →
              ∃ js, j = JObj js ∧ dict_get (name s) js = Some (JObj [])))).
Proof.
  split.
  - intros i c m w Hc Hm Hu. eexists _, _. split.
    { exact (get_and_clear_json i c m w Hc Hm Hu). }
    assert (Hi : i < length (cfgs w)) by by eapply lookup_lt_Some.
    split_and!.
    + by apply lookup_ge_None.
    + simpl. by rewrite lookup_app_r, Nat.sub_diag.
    + unfold doc_opts, after_write; simpl.
      rewrite !list_lookup_insert_eq by (by rewrite ?length_insert). simpl.
      rewrite lookup_app_r by lia.
      by replace (S (length (heap w)) - length (heap w)) with 1 by lia.
    + unfold file_json, after_write; simpl. by rewrite lookup_insert_eq.
  - intros n s i c l m lp dp w Hs Ho Hm Hp Hdp Hroot Hc Hu Hser.
    destruct (get_and_clear_sub n s i c l m lp dp w Hs Ho Hm Hp Hdp Hroot
                Hc Hu Hser) as (j & Hj & Hrun).
    assert (Hi : i < length (cfgs w)) by by eapply lookup_lt_Some.
    assert (Hn : n < length (subs w)) by by eapply lookup_lt_Some.
    assert (Hlpa : lp < length (heap w)) by by eapply lookup_lt_Some.
    set (a := length (heap w)) in *.
    set (h' := <[lp := dict_set (name s) (VDict (S a)) dp]>
                 (heap w ++ [m; []])) in *.
    assert (Hlp' : h' !! lp = Some (dict_set (name s) (VDict (S a)) dp)).
    { subst h'. apply list_lookup_insert_eq. rewrite length_app. simpl. lia. }
    assert (He : h' !! S a = Some []).
    { subst h'. rewrite list_lookup_insert_ne by lia.
      rewrite lookup_app_r by (fold a; lia). fold a.
      by replace (S a - a) with 1 by lia. }
    eexists _, _. split; [exact Hrun|]. split_and!.
    + by apply lookup_ge_None.
    + simpl. fold h'. subst h'. rewrite list_lookup_insert_ne by lia.
      by rewrite lookup_app_r, Nat.sub_diag.
    + unfold view_opts, after_write; simpl.
      by rewrite list_lookup_insert_eq by done.
    + eexists _, (S a). split_and!; [exact Hlp'|apply dict_get_set_eq|exact He].
    + exists j. split_and!.
      * unfold file_json, after_write; simpl. by rewrite lookup_insert_eq.
      * unfold doc_json, after_write; simpl.
        rewrite list_lookup_insert_eq by done. simpl. fold h'. by rewrite Hj.
      * intros Hpi. rewrite Hpi in Hp.
        rewrite (opts_of_json _ _ _ Hc) in Hp. injection Hp as <-.
        destruct (dump_root_get _ _ _ (name s) _ _ Hj Hlp'
                    (dict_get_set_eq _ _ _)) as (js & jv & -> & Hget & Hjv).
        exists js. split; [done|]. rewrite Hget. f_equal.
        apply dump_val_dict_inv in Hjv
          as (? & d & js' & _ & _ & Hd & Hjs' & ->).
        rewrite He in Hd. injection Hd as <-. simpl in Hjs'.
        by injection Hjs' as <-.
Qed.

(** ** Views: set, clear, set *)

(** [set] through a view directly under a JsonConfig. *)
Lemma set_sub_ok n s i c l d k v j w :
  subs w !! n = Some s → parent s = RJson i → sc_opts s = VDict l →
  heap w !! l = Some d →
  cfgs w !! i = Some c → unmodified c w →
  dump (<[l := dict_set k v d]> (heap w)) (VDict (opts c)) = Ok j →
  ConfigMixin.set (RSub n) k v w
  = (Ok tt, after_write i c j (with_heap (<[l := dict_set k v d]> (heap w)) w)).
Proof.
  intros Hs Hp Ho Hl Hc Hu Hj. unfold ConfigMixin.set.
  rewrite (bind_ok _ _ _ _ _ (opts_of_sub _ _ _ Hs)). rewrite Ho.
  rewrite (bind_ok _ _ _ _ _ (setitem_ok _ _ _ _ _ Hl)).
  set (w1 := with_heap _ w).
  assert (Hs1 : subs w1 !! n = Some s) by done.
  rewrite (write_of_sub _ _ i _ Hs1 Hp).
  by apply write_ok.
Qed.

Lemma serialisable_no_self_cycle h r root k l :
  serialisable h (VDict r) → h !! r = Some root →
  dict_get k root = Some (VDict l) → l ≠ r.
Proof.
  intros [j Hj] Hr Hk ->. by eapply dump_self_cycle.
Qed.

Lemma unmodified_after_write i c j w :
  unmodified (written c (clock w)) (after_write i c j w).
Proof.
  intros _ f. simpl. rewrite lookup_insert_eq. intros [= <-].
  exists (clock w). simpl. split; [done|lia].
Qed.

(** C4: on a document that holds a dict under "jobs", the sequence
    [sub = doc.sub("jobs"); sub.set("1","x"); sub.clear();
    sub.set("2","y")] runs to its end.  [clear] has put a dict that did not
    exist before under "jobs" and has re-bound the view to it: the
    document, the view and the file hold exactly {"2": "y"} under "jobs",
    in that new dict, and the old dict, which nothing refers to any more,
    still holds "1" and has not received "2". *)
Theorem C4_set_clear_set_aliasing i c root l d w :
  cfgs w !! i = Some c → heap w !! opts c = Some root →
  dict_get "jobs" root = Some (VDict l) → heap w !! l = Some d →
  unmodified c w → serialisable (heap w) (VDict (opts c)) →
  let n := length (subs w) in
  let e := length (heap w) in
  ∃ w',
    set_clear_set i w = (Ok (RSub n), w') ∧
    heap w !! e = None ∧ e ≠ l ∧
    doc_opts w' i = Some (dict_set "jobs" (VDict e) root) ∧
    (∃ root', doc_opts w' i = Some root' ∧
              dict_get "jobs" root' = Some (VDict e)) ∧
    heap w' !! e = Some [("2", VStr "y")] ∧
    subs w' !! n = Some (mkSubConfig (RJson i) (VDict e) "jobs" false) ∧
    view_opts w' n = Some [("2", VStr "y")] ∧
    heap w' !! l = Some (dict_set "1" (VStr "x") d) ∧
    (∃ js, file_json w' (path c) = Some (JObj js) ∧
           dict_get "jobs" js = Some (JObj [("2", JStr "y")])).
Proof.
  intros Hc Hr Hjobs Hl Hu Hser n e.
  set (r := opts c) in *.
  assert (Hlr : l ≠ r) by by eapply serialisable_no_self_cycle.
  assert (Hrlt : r < length (heap w)) by by eapply lookup_lt_Some.
  assert (Hllt : l < length (heap w)) by by eapply lookup_lt_Some.
  assert (Hilt : i < length (cfgs w)) by by eapply lookup_lt_Some.
  set (s0 := mkSubConfig (RJson i) (VDict l) "jobs" false).
  (* sub = doc.sub("jobs") *)
  set (w1 := with_subs (subs w ++ [s0]) w).
  assert (Hs1 : subs w1 !! n = Some s0).
  { simpl. by rewrite lookup_app_r, Nat.sub_diag. }
  (* sub.set("1", "x") *)
  set (h2 := <[l := dict_set "1" (VStr "x") d]> (heap w)).
  assert (serialisable h2 (VDict r)) as [j2 Hj2].
  { by apply serialisable_set_scalar. }
  set (w2 := after_write i c j2 (with_heap h2 w1)).
  assert (Hr2 : heap w2 !! r = Some root).
  { simpl. subst h2. by rewrite list_lookup_insert_ne. }
  assert (Hc2 : cfgs w2 !! i = Some (written c (clock w))).
  { simpl. by apply list_lookup_insert_eq. }
  assert (Hs2 : subs w2 !! n = Some s0) by (simpl; exact Hs1).
  (* sub.clear() *)
  set (s3 := mkSubConfig (RJson i) (VDict e) "jobs" false).
  set (h3 := <[r := dict_set "jobs" (VDict e) root]> (h2 ++ [[]])).
  set (w3 := with_subs (<[n := s3]> (subs w2)) (with_heap h3 w2)).
  assert (Hs3 : subs w3 !! n = Some s3).
  { simpl. apply list_lookup_insert_eq. rewrite length_app. simpl. lia. }
  assert (Hlen2 : length h2 = e) by (subst h2; by rewrite length_insert).
  assert (He3 : h3 !! e = Some []).
  { subst h3. rewrite list_lookup_insert_ne by lia.
    rewrite lookup_app_r by lia. by rewrite Hlen2, Nat.sub_diag. }
  (* sub.set("2", "y") *)
  set (h4 := <[e := dict_set "2" (VStr "y") []]> h3).
  assert (serialisable h4 (VDict r)) as [j4 Hj4].
  { apply serialisable_set_scalar; [done..|].
    subst h3. rewrite <-Hlen2.
    apply serialisable_clear; [done|by exists j2]. }
  set (w4 := after_write i (written c (clock w)) j4 (with_heap h4 w3)).
  assert (Hlen3 : length h3 = S e).
  { subst h3. rewrite length_insert, length_app, Hlen2. simpl. lia. }
  assert (Hr4 : h4 !! r = Some (dict_set "jobs" (VDict e) root)).
  { subst h4. rewrite list_lookup_insert_ne by lia.
    subst h3. apply list_lookup_insert_eq. rewrite length_app, Hlen2.
    simpl. lia. }
  assert (He4 : h4 !! e = Some [("2", VStr "y")]).
  { subst h4. apply list_lookup_insert_eq. lia. }
  assert (Hdoc4 : doc_opts w4 i = Some (dict_set "jobs" (VDict e) root)).
  { unfold doc_opts. simpl. rewrite list_lookup_insert_eq; [done|].
    by rewrite length_insert. }
  exists w4. split_and!.
  - unfold set_clear_set.
    rewrite (bind_ok _ _ _ _ _
               (sub_ok _ _ _ _ _ (opts_of_json _ _ _ Hc)
                  (getitem_ok _ _ _ _ _ Hr Hjobs))).
    fold n s0 w1.
    rewrite (bind_ok _ _ _ _ _
               (set_sub_ok n s0 i c l d _ _ j2 w1 Hs1 eq_refl eq_refl Hl Hc Hu Hj2)).
    fold w2. unfold clear_of.
    rewrite (bind_ok _ _ _ _ _
               (sub_clear_ok n s0 r root w2 Hs2
                  (opts_of_json i _ w2 Hc2) Hr2)).
    simpl name. simpl parent. simpl invalid.
    replace (length (heap w2)) with e by done.
    change (with_subs _ _) with w3.
    erewrite bind_ok; [done|].
    apply (set_sub_ok n s3 i (written c (clock w)) e []); try done.
    by eapply unmodified_ext;
      [..|apply (unmodified_after_write i c j2 (with_heap h2 w1))].
  - by apply lookup_ge_None.
  - unfold e. lia.
  - exact Hdoc4.
  - exists (dict_set "jobs" (VDict e) root).
    split; [exact Hdoc4|apply dict_get_set_eq].
  - exact He4.
  - exact Hs3.
  - unfold view_opts. simpl. rewrite list_lookup_insert_eq; [done|].
    rewrite length_app. simpl. lia.
  - simpl. subst h4. rewrite list_lookup_insert_ne by (unfold e; lia).
    subst h3. rewrite list_lookup_insert_ne by done.
    rewrite lookup_app_l by (rewrite Hlen2; unfold e; lia).
    subst h2. by apply list_lookup_insert_eq.
  - destruct (dump_root_get _ _ _ "jobs" _ _ Hj4 Hr4 (dict_get_set_eq _ _ _))
      as (js & jv & -> & Hget & Hjv).
    exists js. split.
    + unfold file_json. simpl. by rewrite lookup_insert_eq.
    + rewrite Hget. f_equal.
      apply dump_val_dict_inv in Hjv as (? & d' & js' & _ & _ & Hd' & Hjs' & ->).
      rewrite He4 in Hd'. injection Hd' as <-.
      destruct x; simpl in Hjs'; by injection Hjs' as <-.
Qed.

(** ** What a write changes, whatever its outcome *)

Lemma same_objects_refl w : same_objects w w.
Proof. done. Qed.

Lemma same_objects_trans w1 w2 w3 :
  same_objects w1 w2 → same_objects w2 w3 → same_objects w1 w3.
Proof.
  intros (?&?&?&?&?) (?&?&?&?&?). unfold same_objects. split_and!; congruence.
Qed.

Lemma same_objects_cfg w w' i c :
  same_objects w w' → cfgs w !! i = Some c →
  ∃ c', cfgs w' !! i = Some c' ∧ cfg_shape c' = cfg_shape c.
Proof.
  intros (_&_&_&_&Hs) Hc.
  assert (H : (cfg_shape <$> cfgs w') !! i = Some (cfg_shape c)).
  { rewrite Hs, list_lookup_fmap, Hc. done. }
  rewrite list_lookup_fmap in H.
  destruct (cfgs w' !! i) as [c'|]; [|done]. simpl in H.
  exists c'. split; [done|congruence].
Qed.

Lemma same_objects_put_file p f w : same_objects w (with_fs (<[p := f]> (fs w)) w).
Proof. done. Qed.

Lemma same_objects_after_write i c j w :
  cfgs w !! i = Some c → same_objects w (after_write i c j w).
Proof.
  intros Hc. unfold same_objects, after_write. simpl. split_and!; try done.
  rewrite list_fmap_insert. apply list_insert_id.
  by rewrite list_lookup_fmap, Hc.
Qed.

Lemma write_inv i w r w' :
  JsonConfig.write i w = (r, w') →
  same_objects w w' ∧
  (r = Ok tt →
   ∃ c j, cfgs w !! i = Some c ∧ dump (heap w) (VDict (opts c)) = Ok j ∧
          w' = after_write i c j w).
Proof.
  unfold JsonConfig.write, bind at 1, get_cfg at 1.
  destruct (cfgs w !! i) as [c|] eqn:Hc; [|by intros [= <- <-]].
  unfold bind at 1, gets at 1. unfold bind at 1.
  set (chk := match fs w !! path c with Some _ => _ | None => _ end).
  assert (Hchk : ∃ rc, chk w = (rc, w)).
  { subst chk. destruct (fs w !! path c); [|by eexists].
    destruct (check_date c); [|by eexists].
    destruct (last_readwrite_date c); [|by eexists].
    destruct (_ <? _)%Z; by eexists. }
  destruct Hchk as [rc ->].
  destruct rc as [[]| |]; [|by intros [= <- <-]..].
  unfold bind, gets, put_file, modify, lift_res; simpl.
  destruct (dump (heap w) (VDict (opts c))) as [j| |] eqn:Hj;
    [|by intros [= <- <-]..].
  unfold JsonConfig.update_last_date, bind, get_cfg, gets, put_cfg, modify; simpl.
  rewrite Hc. intros [= <- <-].
  assert (Heq : with_cfgs
    (<[i:=mkJsonConfig (opts c) (path c) (template c) (check_date c)
                       (Some (clock w))]> (cfgs w))
    (with_fs (<[path c:=mkFile (Text j) (clock w)]>
                (<[path c:=mkFile Partial (clock w)]> (fs w)))
       (with_fs (<[path c:=mkFile Partial (clock w)]> (fs w)) w))
    = after_write i c j w).
  { unfold after_write, written, with_cfgs, with_fs; simpl.
    by rewrite insert_insert_eq. }
  rewrite Heq. split; [by apply same_objects_after_write|].
  intros _. by exists c, j.
Qed.

(** ** Two views of one key *)


(** ** json.load *)

Lemma json_nested_ind (P : json → Prop) :
  P JNull → (∀ b, P (JBool b)) → (∀ z, P (JInt z)) → (∀ s, P (JStr s)) →
  (∀ items, Forall (λ kj, P kj.2) items → P (JObj items)) →
  ∀ j, P j.
Proof.
  intros Hn Hb Hz Hs Ho. fix IH 1.
  intros [|b|z|s|items]; [exact Hn|apply Hb|apply Hz|apply Hs|].
  apply Ho. induction items as [|[k j] r IHr]; constructor; [apply IH|exact IHr].
Qed.

Lemma load_pairs_extends ld items d h :
  Forall (λ kj, ∀ h, ∃ ext, (ld kj.2 h).2 = h ++ ext) items →
  ∃ ext, (load_pairs ld items d h).2 = h ++ ext.
Proof.
  intros Hall. revert d h.
  induction Hall as [|[k j] r Hj Hr IH]; intros d h; simpl.
  - exists []. by rewrite app_nil_r.
  - destruct (Hj h) as [e1 He1]. simpl in He1.
    destruct (ld j h) as [v h1]. simpl in He1.
    destruct (IH (dict_set k v d) h1) as [e2 He2].
    exists (e1 ++ e2). by rewrite He2, He1, (assoc_L (++)).
Qed.

Lemma json_load_extends j h : ∃ ext, (json_load j h).2 = h ++ ext.
Proof.
  revert h. induction j as [|b|z|s|items IH] using json_nested_ind; intros h;
    try (exists []; simpl; by rewrite app_nil_r).
  simpl. destruct (load_pairs_extends json_load items [] h IH) as [ext He].
  destruct (load_pairs json_load items [] h) as [d h1]. simpl in *.
  exists (ext ++ [d]). by rewrite He, (assoc_L (++)).
Qed.

Lemma dict_set_keys {V} k k' (v : V) (d : pydict V) :
  is_Some (dict_get k' (dict_set k v d)) ↔ k' = k ∨ is_Some (dict_get k' d).
Proof.
  destruct (decide (k = k')) as [->|Hne].
  - rewrite dict_get_set_eq. split; [by left|by eexists].
  - rewrite dict_get_set_ne by done. split; [by right|]. by intros [->|?].
Qed.

(** The keys of the decoded dict are those of the object in the file. *)
Lemma load_pairs_keys ld items d h k :
  is_Some (dict_get k (load_pairs ld items d h).1) ↔
  is_Some (dict_get k d) ∨ k ∈ items.*1.
Proof.
  revert d h. induction items as [|[k0 j] r IH]; intros d h; simpl.
  - split; [by left|]. by intros [?|?%elem_of_nil].
  - destruct (ld j h) as [v h1]. rewrite IH, dict_set_keys, elem_of_cons.
    simpl. tauto.
Qed.

(** What [json.load] makes of an object. *)
Lemma loaded_obj items h :
  ∃ d0 hp,
    json_load (JObj items) h = (VDict (length hp), hp ++ [d0]) ∧
    loaded (JObj items) h = (Some d0, hp ++ [d0]) ∧
    (∃ ext, hp = h ++ ext) ∧
    (∀ k, is_Some (dict_get k d0) ↔ k ∈ items.*1).
Proof.
  unfold loaded. simpl.
  pose proof (load_pairs_extends json_load items [] h) as He.
  pose proof (load_pairs_keys json_load items [] h) as Hk.
  destruct (load_pairs json_load items [] h) as [d0 hp]. simpl in *.
  exists d0, hp. split_and!.
  - done.
  - by rewrite lookup_app_r, Nat.sub_diag.
  - apply He. apply Forall_forall. intros [??] _ ?. apply json_load_extends.
  - intros k. rewrite Hk. split; [|by right]. by intros [[? [=]]|?].
Qed.

(** ** JsonConfig.load *)

(** The loop of [load]: keys the document holds keep their value, keys it
    lacks get the template's. *)
Lemma backfill_spec self c t tm hp items dcur adds w :
  cfgs w !! self = Some c → opts c = length hp → template c = VDict t →
  hp !! t = Some tm → heap w = hp ++ [dcur] →
  (∀ k, k ∈ items.*1 → is_Some (dict_get k tm)) →
  ∃ d' adds',
    JsonConfig.backfill self items adds w
      = (Ok adds', with_heap (hp ++ [d']) w) ∧
    (∀ k v, dict_get k dcur = Some v → dict_get k d' = Some v) ∧
    (∀ k, k ∈ items.*1 → is_Some (dict_get k d')) ∧
    (∀ k, is_Some (dict_get k d') →
          is_Some (dict_get k dcur) ∨ k ∈ items.*1).
Proof.
  intros Hc Ho Ht Htm. revert dcur adds w Hc.
  induction items as [|[key x] r IH]; intros dcur adds w Hc Hh Hkeys; simpl.
  - exists dcur, adds. split_and!; try done.
    + unfold ret. f_equal. destruct w; simpl in *. by subst.
    + by intros k ?%elem_of_nil.
    + by left.
  - rewrite (bind_ok _ _ _ _ _ (get_cfg_ok _ _ _ Hc)).
    assert (Hl : heap w !! opts c = Some dcur).
    { by rewrite Hh, Ho, lookup_app_r, Nat.sub_diag. }
    rewrite (bind_ok _ _ _ _ _ (contains_ok _ _ _ _ Hl)).
    destruct (dict_mem key dcur) eqn:Hmem.
    + destruct (IH dcur adds w Hc Hh) as (d' & adds' & Hrun & Hkeep & Hall & Hdom).
      { intros k Hk. apply Hkeys. simpl. by right. }
      exists d', adds'. split_and!; [done..| |].
      * intros k [->|Hk]%elem_of_cons; [|by apply Hall].
        apply dict_mem_true in Hmem as [v Hv]. exists v. by apply Hkeep.
      * intros k Hk. destruct (Hdom k Hk); [by left|right]. simpl. by right.
    + destruct (Hkeys key) as [tv Htv]; [simpl; by left|].
      assert (Htw : heap w !! t = Some tm).
      { rewrite Hh. by apply lookup_app_l_Some. }
      rewrite Ht.
      rewrite (bind_ok _ _ _ _ _ (getitem_ok _ _ _ _ _ Htw Htv)).
      rewrite (bind_ok _ _ _ _ _ (setitem_ok _ _ key tv _ Hl)).
      set (w1 := with_heap _ w).
      assert (Hh1 : heap w1 = hp ++ [dict_set key tv dcur]).
      { simpl. rewrite Hh, Ho.
        by rewrite insert_app_r_alt, Nat.sub_diag by lia. }
      destruct (IH (dict_set key tv dcur) true w1 Hc Hh1)
        as (d' & adds' & Hrun & Hkeep & Hall & Hdom).
      { intros k Hk. apply Hkeys. simpl. by right. }
      exists d', adds'. split_and!.
      * rewrite Hrun. done.
      * intros k v Hv. apply Hkeep. rewrite dict_get_set_ne; [done|].
        intros ->. apply dict_mem_false in Hmem. congruence.
      * intros k [->|Hk]%elem_of_cons; [|by apply Hall].
        exists tv. apply Hkeep, dict_get_set_eq.
      * intros k Hk. destruct (Hdom k Hk) as [Hd|]; [|right; simpl; by right].
        apply dict_set_keys in Hd as [->|]; [right; simpl; by left|by left].
Qed.

Lemma doc_opts_same w w' i c d :
  same_objects w w' → cfgs w !! i = Some c → heap w !! opts c = Some d →
  doc_opts w' i = Some d.
Proof.
  intros Hsame Hc Hd.
  destruct (same_objects_cfg _ _ _ _ Hsame Hc) as (c' & Hc' & Hsh).
  destruct Hsame as (Hh & _). unfold doc_opts. rewrite Hc'. simpl.
  injection Hsh as -> _ _ _. by rewrite Hh.
Qed.

(** C5: after [load] on an existing file that holds a JSON object, the
    document holds every key of the file with the value decoded from the
    file, and every key of the template; the dicts decoded from the file
    are untouched, and nothing else is added. *)
Theorem C5_load_backfills_missing_keys i c fl items w r w' :
  cfgs w !! i = Some c →
  fs w !! path c = Some fl → f_content fl = Text (JObj items) →
  (∀ t, template c = VDict t → is_Some (heap w !! t)) →
  JsonConfig.load i w = (r, w') →
  ∃ d0 ha d,
    loaded (JObj items) (heap w) = (Some d0, ha) ∧
    heap w' = ha ++ [d] ∧
    doc_opts w' i = Some d ∧
    (∀ k, k ∈ items.*1 →
          ∃ v, dict_get k d0 = Some v ∧ dict_get k d = Some v) ∧
    (∀ tm k, dict_at w (template c) = Some tm →
             k ∈ dict_keys tm → k ∈ dict_keys d) ∧
    (∀ k, k ∈ dict_keys d →
          k ∈ items.*1 ∨
          ∃ tm, dict_at w (template c) = Some tm ∧ k ∈ dict_keys tm).
Proof.
  intros Hc Hf Hcont Htpl Hrun.
  destruct (loaded_obj items (heap w)) as (d0 & hp & Hload & Hloaded & [ext ->] & Hkeys).
  set (ha := (heap w ++ ext) ++ [d0]) in *.
  set (l := length ha).
  set (c4 := mkJsonConfig l (path c) (template c) (check_date c) (Some (clock w))).
  set (w4 := with_cfgs (<[i := c4]> (cfgs w)) (with_heap (ha ++ [d0]) w)).
  assert (Hilt : i < length (cfgs w)) by by eapply lookup_lt_Some.
  assert (Hc4 : cfgs w4 !! i = Some c4) by by apply list_lookup_insert_eq.
  assert (Hl4 : heap w4 !! l = Some d0).
  { simpl. by rewrite lookup_app_r, Nat.sub_diag. }
  (* up to the template loop *)
  assert (Hpre : JsonConfig.load i w
    = (match template c with
       | VNone => ret tt
       | t => items <- items_of t ;;
              additions <- JsonConfig.backfill i items false ;;
              if additions then JsonConfig.write i else ret tt
       end) w4).
  { unfold JsonConfig.load.
    rewrite (bind_ok _ _ _ _ _ (get_cfg_ok _ _ _ Hc)).
    unfold bind at 1, gets at 1. rewrite Hf, Hcont.
    unfold bind at 1. rewrite Hload. fold ha.
    set (w1 := with_heap ha w).
    assert (Ha1 : heap w1 !! length (heap w ++ ext) = Some d0).
    { simpl. subst ha. by rewrite lookup_app_r, Nat.sub_diag. }
    rewrite (bind_ok _ _ _ _ _ (dict_copy_ok _ _ _ Ha1)).
    change (length (heap w1)) with l.
    unfold JsonConfig.set_opts, JsonConfig.update_last_date.
    unfold bind at 1. unfold bind at 1, get_cfg at 1. simpl cfgs. rewrite Hc.
    unfold put_cfg, modify. unfold bind at 1. unfold bind at 1, get_cfg at 1.
    simpl cfgs. rewrite list_lookup_insert_eq by done.
    unfold bind at 1, gets at 1. simpl.
    rewrite list_insert_insert_eq. done. }
  rewrite Hpre in Hrun. clear Hpre.
  (* the state from which properties of the final state follow *)
  assert (Hfin : ∀ d w5, heap w5 = ha ++ [d] → cfgs w5 !! i = Some c4 →
    same_objects w5 w' →
    (∀ k v, dict_get k d0 = Some v → dict_get k d = Some v) →
    (∀ tm k, dict_at w (template c) = Some tm →
             k ∈ dict_keys tm → k ∈ dict_keys d) →
    (∀ k, is_Some (dict_get k d) →
          is_Some (dict_get k d0) ∨
          ∃ tm, dict_at w (template c) = Some tm ∧ k ∈ dict_keys tm) →
    ∃ d0 ha d,
      loaded (JObj items) (heap w) = (Some d0, ha) ∧
      heap w' = ha ++ [d] ∧
      doc_opts w' i = Some d ∧
      (∀ k, k ∈ items.*1 →
            ∃ v, dict_get k d0 = Some v ∧ dict_get k d = Some v) ∧
      (∀ tm k, dict_at w (template c) = Some tm →
               k ∈ dict_keys tm → k ∈ dict_keys d) ∧
      (∀ k, k ∈ dict_keys d →
            k ∈ items.*1 ∨
            ∃ tm, dict_at w (template c) = Some tm ∧ k ∈ dict_keys tm)).
  { intros d w5 Hh5 Hc5 Hsame Hkeep Htm Hdom. exists d0, ha, d. split_and!.
    - done.
    - destruct Hsame as (-> & _). done.
    - apply (doc_opts_same w5 w' i c4); [done..|].
      rewrite Hh5. simpl. by rewrite lookup_app_r, Nat.sub_diag.
    - intros k [v Hv]%Hkeys. exists v. split; [done|by apply Hkeep].
    - done.
    - intros k Hk%dict_get_keys.
      destruct (Hdom k Hk) as [?%Hkeys|?]; [by left|by right]. }
  assert (Hplain : ∀ e, (r, w') = (e, w4) → ¬ (∃ t, template c = VDict t) →
    ∃ d0 ha d,
      loaded (JObj items) (heap w) = (Some d0, ha) ∧
      heap w' = ha ++ [d] ∧
      doc_opts w' i = Some d ∧
      (∀ k, k ∈ items.*1 →
            ∃ v, dict_get k d0 = Some v ∧ dict_get k d = Some v) ∧
      (∀ tm k, dict_at w (template c) = Some tm →
               k ∈ dict_keys tm → k ∈ dict_keys d) ∧
      (∀ k, k ∈ dict_keys d →
            k ∈ items.*1 ∨
            ∃ tm, dict_at w (template c) = Some tm ∧ k ∈ dict_keys tm)).
  { intros e [= -> ->] Hnd. apply (Hfin d0 w4); try done.
    - intros tm k Hat. destruct (template c); try done. destruct Hnd. by eexists.
    - intros k ?. by left. }
  destruct (template c) as [| | | |t] eqn:Ht;
    try (by eapply Hplain; [symmetry; exact Hrun|intros [? [=]]]).
  clear Hplain.
  destruct (Htpl t eq_refl) as [tm Htm].
  assert (Htm4 : heap w4 !! t = Some tm).
  { simpl. subst ha. rewrite <-!(assoc_L (++)). by apply lookup_app_l_Some. }
  unfold items_of in Hrun.
  rewrite (bind_ok _ _ _ _ _ (deref_ok _ _ _ Htm4)) in Hrun.
  destruct (backfill_spec i c4 t tm ha tm d0 false w4) as
    (d & adds & Hbf & Hkeep & Hall & Hdom); try done.
  { subst ha. rewrite <-!(assoc_L (++)). by apply lookup_app_l_Some. }
  { intros k Hk. by apply dict_get_keys. }
  rewrite (bind_ok _ _ _ _ _ Hbf) in Hrun.
  set (w5 := with_heap (ha ++ [d]) w4) in *.
  assert (Hsame : same_objects w5 w').
  { destruct adds.
    - by destruct (write_inv _ _ _ _ Hrun).
    - injection Hrun as <- <-. done. }
  apply (Hfin d w5); try done.
  - intros tm' k [= Htm']. rewrite Htm in Htm'. injection Htm' as <-.
    intros Hk. apply dict_get_keys, Hall, Hk.
  - intros k Hk. destruct (Hdom k Hk); [by left|right]. by exists tm.
Qed.

(** ** str(int) *)

(** A decimal numeral starts with a digit or with a minus sign. *)
Lemma pretty_N_go_head x s :
  (0 < x)%N → ∃ c s', pretty_N_go x s = String (pretty_N_char c) s'.
Proof.
  revert s. induction (N.lt_wf_0 x) as [x _ IH]; intros s Hx.
  rewrite pretty_N_go_step by done.
  destruct (N.eq_0_gt_0_cases (x `div` 10)) as [->|Hd].
  - rewrite pretty_N_go_0. by eexists _, _.
  - apply IH; [|done]. by apply N.div_lt.
Qed.

Lemma pretty_Z_head (z : Z) :
  ∃ a s, pretty z = String a s ∧ (a = "-"%char ∨ ∃ c, a = pretty_N_char c).
Proof.
  destruct z as [|p|p]; unfold pretty, pretty_Z.
  - exists "0"%char, "". split; [done|]. right. by exists 0%N.
  - unfold pretty, pretty_positive, pretty, pretty_N.
    rewrite decide_False by done.
    destruct (pretty_N_go_head (N.pos p) "") as (c & s' & ->); [lia|].
    exists (pretty_N_char c), s'. split; [done|]. right. by exists c.
  - exists "-"%char, (pretty p). split; [done|by left].
Qed.

Lemma pretty_Z_not_word (z : Z) (a : ascii) (s : string) :
  a ≠ "-"%char → (∀ c, a ≠ pretty_N_char c) → pretty z ≠ String a s.
Proof.
  intros Hd Hc Heq. destruct (pretty_Z_head z) as (a' & s' & Hz & Ha).
  rewrite Hz in Heq. injection Heq as -> _.
  destruct Ha as [?|[c ?]]; [done|by eapply Hc].
Qed.

Lemma pretty_N_char_not_letter c (a : ascii) :
  (a = "j" ∨ a = "l" ∨ a = "c")%char → a ≠ pretty_N_char c.
Proof.
  unfold pretty_N_char. intros [Ha|[Ha|Ha]]; subst a; by repeat case_match.
Qed.

Lemma str_int_not_jobs z : str (CInt z) ≠ "jobs".
Proof.
  apply pretty_Z_not_word; [done|].
  intros c. apply pretty_N_char_not_letter. by left.
Qed.

Lemma str_int_not_counter z : str (CInt z) ≠ "last_schedule_id".
Proof.
  apply pretty_Z_not_word; [done|].
  intros c. apply pretty_N_char_not_letter. right. by left.
Qed.

(** ** Inversion of the primitive operations *)

Lemma lift_inv {A} (c : M world A) b r b' :
  lift c b = (r, b') → ∃ w', c (core_world b) = (r, w') ∧ b' = with_world w' b.
Proof.
  unfold lift. destruct (c (core_world b)) as [r0 w']. intros [= <- <-].
  by exists w'.
Qed.

Lemma lift_run {A} (c : M world A) b r w' :
  c (core_world b) = (r, w') → lift c b = (r, with_world w' b).
Proof. unfold lift. by intros ->. Qed.

Lemma with_world_id b : with_world (core_world b) b = b.
Proof. by destruct b. Qed.

Lemma opts_of_json_inv i w o w' :
  opts_of (RJson i) w = (Ok o, w') →
  w' = w ∧ ∃ c, cfgs w !! i = Some c ∧ o = VDict (opts c).
Proof.
  unfold opts_of, bind, get_cfg, ret.
  destruct (cfgs w !! i) as [c|]; [|done]. intros [= <- <-]. eauto.
Qed.

Lemma getitem_inv o k w v w' :
  getitem o k w = (Ok v, w') →
  w' = w ∧ ∃ l d, o = VDict l ∧ heap w !! l = Some d ∧ dict_get k d = Some v.
Proof.
  unfold getitem. destruct o as [| | | |l]; try done.
  unfold bind, deref. destruct (heap w !! l) as [d|] eqn:Hl; [|done].
  destruct (dict_get k d) as [v'|] eqn:Hk; [|done].
  intros [= <- <-]. split; [done|]. by exists l, d.
Qed.

Lemma contains_state o k w r w' : contains o k w = (r, w') → w' = w.
Proof.
  unfold contains, raise, ret. destruct o as [| | |s|l]; try by intros [= _ <-].
  unfold bind, deref. destruct (heap w !! l); by intros [= _ <-].
Qed.

Lemma contains_heap o k w w' r :
  heap w' = heap w → contains o k w = (r, w) → contains o k w' = (r, w').
Proof.
  intros Hh. unfold contains, raise, ret.
  destruct o as [| | |s|l]; try by intros [= <-].
  unfold bind, deref. rewrite Hh. destruct (heap w !! l); by intros [= <-].
Qed.

Lemma sub_inv self k w s w' :
  SubconfigMixin.sub self k w = (Ok s, w') →
  ∃ o v, opts_of self w = (Ok o, w) ∧ getitem o k w = (Ok v, w) ∧
         s = RSub (length (subs w)) ∧
         w' = with_subs (subs w ++ [mkSubConfig self v k false]) w.
Proof.
  unfold SubconfigMixin.sub.
  intros (o & w1 & Ho & H)%bind_ok_inv.
  assert (w1 = w) as ->.
  { destruct self; unfold opts_of, bind, get_cfg, get_sub, ret in Ho.
    - destruct (cfgs w !! i); by injection Ho.
    - destruct (subs w !! i); by injection Ho. }
  apply bind_ok_inv in H as (v & w2 & Hv & H).
  destruct (getitem_inv _ _ _ _ _ Hv) as [-> _].
  injection H as <- <-. by exists o, v.
Qed.

(** ** JsonConfigDB.get_config *)

Lemma get_config_inv self cid w c w' :
  JsonConfigDB.get_config self cid w = (Ok c, w') →
  ∃ d, dbs w' !! self = Some d ∧ dict_get (str cid) (db d) = Some c.
Proof.
  unfold JsonConfigDB.get_config.
  intros (d0 & w0 & _ & H)%bind_ok_inv.
  apply bind_ok_inv in H as ([] & w1 & _ & H).
  apply bind_ok_inv in H as (d & w2 & Hd & H).
  unfold get_db in Hd. destruct (dbs w1 !! self) as [d'|] eqn:Hd'; [|done].
  injection Hd as <- <-.
  destruct (dict_get (str cid) (db d')) as [c'|] eqn:Hc; [|done].
  injection H as <- <-. by exists d'.
Qed.

Lemma get_config_present self cid w d c :
  dbs w !! self = Some d → dict_get (str cid) (db d) = Some c →
  JsonConfigDB.get_config self cid w = (Ok c, w).
Proof.
  intros Hd Hc. unfold JsonConfigDB.get_config.
  rewrite (bind_ok _ _ _ _ _ (get_db_ok _ _ _ Hd)).
  unfold dict_mem. rewrite Hc.
  unfold bind at 1, ret at 1.
  rewrite (bind_ok _ _ _ _ _ (get_db_ok _ _ _ Hd)). by rewrite Hc.
Qed.

(** ** The bridge: get_jobcfg_for_header *)

Lemma get_jobcfg_inv h b cfg b' :
  CoreWrapper.get_jobcfg_for_header h b = (Ok cfg, b') →
  ∃ guild w' d,
    get_guild b (header_guild_id h) = Some guild ∧
    b' = with_world w' b ∧
    dbs w' !! job_db b = Some d ∧
    dict_get (str (CInt (guild_id guild))) (db d) = Some cfg.
Proof.
  unfold CoreWrapper.get_jobcfg_for_header, bind at 1, gets at 1. simpl.
  destruct (get_guild b (header_guild_id h)) as [guild|] eqn:Hgu; [|done].
  intros (w' & Hg & ->)%lift_inv.
  apply get_config_inv in Hg as (d & Hd & Hc). by exists guild, w', d.
Qed.

Lemma get_jobcfg_present h b guild d cfg :
  get_guild b (header_guild_id h) = Some guild →
  dbs (core_world b) !! job_db b = Some d →
  dict_get (str (CInt (guild_id guild))) (db d) = Some cfg →
  CoreWrapper.get_jobcfg_for_header h b = (Ok cfg, b).
Proof.
  intros Hg Hd Hc.
  unfold CoreWrapper.get_jobcfg_for_header, bind at 1, gets at 1. simpl.
  rewrite Hg.
  rewrite (lift_run _ _ _ _ (get_config_present _ _ _ _ _ Hd Hc)).
  by rewrite with_world_id.
Qed.

(** ** Deleting through a view *)

Lemma delete_ignore_absent self v k w :
  opts_of self w = (Ok v, w) → contains v k w = (Ok false, w) →
  ConfigMixin.delete self k true w = (Ok tt, w).
Proof.
  intros Ho Hc. unfold ConfigMixin.delete.
  rewrite (bind_ok _ (λ skip : bool, if skip then _ else _) w true w); [done|].
  rewrite (bind_ok _ _ _ _ _ Ho), (bind_ok _ _ _ _ _ Hc). done.
Qed.

Lemma delete_ignore_inv n s cfg k w w' :
  subs w !! n = Some s → parent s = RJson cfg →
  ConfigMixin.delete (RSub n) k true w = (Ok tt, w') →
  (contains (sc_opts s) k w = (Ok false, w) ∧ w' = w) ∨
  (∃ l d, sc_opts s = VDict l ∧ heap w !! l = Some d ∧
          is_Some (dict_get k d) ∧
          JsonConfig.write cfg
            (with_heap (<[l := dict_del k d]> (heap w)) w) = (Ok tt, w')).
Proof.
  intros Hs Hp. unfold ConfigMixin.delete.
  intros (skip & w1 & Hskip & H)%bind_ok_inv.
  rewrite (bind_ok _ _ _ _ _ (opts_of_sub _ _ _ Hs)) in Hskip.
  apply bind_ok_inv in Hskip as (present & w2 & Hcont & Hret).
  pose proof (contains_state _ _ _ _ _ Hcont) as ->.
  injection Hret as <- <-.
  destruct present; simpl in H.
  - right. rewrite (bind_ok _ _ _ _ _ (opts_of_sub _ _ _ Hs)) in H.
    apply bind_ok_inv in H as ([] & w3 & Hdel & Hw).
    unfold delitem in Hdel. destruct (sc_opts s) as [| | | |l]; try done.
    unfold bind, deref in Hdel.
    destruct (heap w !! l) as [d|] eqn:Hl; [|done].
    destruct (dict_mem k d) eqn:Hmem; [|done].
    injection Hdel as <-.
    exists l, d. split_and!; [done..|by apply dict_mem_true|].
    by rewrite (write_of_sub n s cfg) in Hw.
  - left. by injection H as <-.
Qed.

(** The handler on a store where the job is not recorded: nothing changes
    but for the view object that [sub] made. *)
Lemma cfg_job_delete_absent h b guild d cfg c root v :
  get_guild b (header_guild_id h) = Some guild →
  dbs (core_world b) !! job_db b = Some d →
  dict_get (str (CInt (guild_id guild))) (db d) = Some cfg →
  cfgs (core_world b) !! cfg = Some c →
  heap (core_world b) !! opts c = Some root →
  dict_get "jobs" root = Some v →
  contains v (str (CInt (header_id h))) (core_world b)
    = (Ok false, core_world b) →
  CoreWrapper.cfg_job_delete h b
  = (Ok tt,
     with_world
       (with_subs (subs (core_world b) ++ [mkSubConfig (RJson cfg) v "jobs" false])
          (core_world b)) b).
Proof.
  intros Hg Hd Hcfg Hc Hr Hj Habs. unfold CoreWrapper.cfg_job_delete.
  rewrite (bind_ok _ _ _ _ _ (get_jobcfg_present _ _ _ _ _ Hg Hd Hcfg)).
  rewrite (bind_ok _ _ _ _ _
    (lift_run _ _ _ _
       (sub_ok _ _ _ _ _ (opts_of_json _ _ _ Hc)
          (getitem_ok _ _ _ _ _ Hr Hj)))).
  set (w1 := with_subs _ (core_world b)).
  assert (Hs : subs w1 !! length (subs (core_world b))
               = Some (mkSubConfig (RJson cfg) v "jobs" false)).
  { simpl. by rewrite lookup_app_r, Nat.sub_diag. }
  erewrite (lift_run _ (with_world w1 b)); [done|].
  apply delete_ignore_absent with v.
  - by rewrite (opts_of_sub _ _ _ Hs).
  - by apply (contains_heap _ _ (core_world b)).
Qed.

(** C9: deleting a key that a document or a view does not hold raises
    KeyError and changes nothing, unless [ignore_keyerror] is set, in which
    case it returns and changes nothing.  So a second delivery of job-stop
    or job-cancel for the same job changes nothing in the dicts, the
    documents, the files or the bot (it only makes the view object that
    [sub] returns), whereas the schedule-deleted handler raises KeyError
    for a schedule that is not recorded. *)
Theorem C9_delete_missing_key :
  (∀ self l d k w,
     opts_of self w = (Ok (VDict l), w) → heap w !! l = Some d →
     dict_get k d = None →
     ConfigMixin.delete self k false w = (Raise KeyError, w) ∧
     ConfigMixin.delete self k true w = (Ok tt, w)) ∧
  (∀ h b b1,
     CoreWrapper.cfg_job_delete h b = (Ok tt, b1) →
     ∃ s, CoreWrapper.cfg_job_delete h b1
          = (Ok tt,
             with_world (with_subs (subs (core_world b1) ++ [s])
                                   (core_world b1)) b1)) ∧
  (∀ h b guild d cfg c root l dc,
     get_guild b (header_guild_id h) = Some guild →
     dbs (core_world b) !! job_db b = Some d →
     dict_get (str (CInt (guild_id guild))) (db d) = Some cfg →
     cfgs (core_world b) !! cfg = Some c →
     heap (core_world b) !! opts c = Some root →
     dict_get "cron" root = Some (VDict l) →
     heap (core_world b) !! l = Some dc →
     dict_get (str (CInt (header_id h))) dc = None →
     ∃ s, CoreWrapper.cfg_sched_delete h b
          = (Raise KeyError,
             with_world (with_subs (subs (core_world b) ++ [s])
                                   (core_world b)) b)).
Proof.
  split_and!.
  - intros. by eapply delete_missing.
  - intros h b b1 Hrun. unfold CoreWrapper.cfg_job_delete in Hrun.
    apply bind_ok_inv in Hrun as (cfg & ba & Hcfg & Hrun).
    apply get_jobcfg_inv in Hcfg as (guild & wa & d & Hg & -> & Hd & Hdc).
    apply bind_ok_inv in Hrun as (s & bb & Hsub & Hdel).
    apply lift_inv in Hsub as (wb & Hsub & ->). simpl in Hsub.
    apply sub_inv in Hsub as (o & v & Ho & Hv & -> & ->).
    apply opts_of_json_inv in Ho as (_ & c & Hc & ->).
    apply getitem_inv in Hv as (_ & l0 & root & [= <-] & Hr & Hj).
    apply lift_inv in Hdel as (w1 & Hdel & ->). simpl in Hdel.
    set (s0 := mkSubConfig (RJson cfg) v "jobs" false) in *.
    set (wb := with_subs (subs wa ++ [s0]) wa) in *.
    assert (Hs : subs wb !! length (subs wa) = Some s0).
    { simpl. by rewrite lookup_app_r, Nat.sub_diag. }
    set (key := str (CInt (header_id h))) in *.
    destruct (delete_ignore_inv _ _ cfg _ _ _ Hs eq_refl Hdel)
      as [[Habs ->]|(l & dl & Hvl & Hl & Hin & Hw)].
    + eexists.
      apply (cfg_job_delete_absent h _ guild d cfg c root v); try done.
    + simpl in Hvl. subst v.
      set (wc := with_heap (<[l := dict_del key dl]> (heap wb)) wb) in *.
      destruct (write_inv _ _ _ _ Hw) as [Hsame _].
      assert (Hcc : cfgs wc !! cfg = Some c) by done.
      destruct (same_objects_cfg _ _ _ _ Hsame Hcc) as (c1 & Hc1 & Hsh).
      destruct Hsame as (Hheap & Hsubs & Hdbs & _ & _).
      injection Hsh as Hopts _ _ _.
      assert (Hl' : heap wa !! l = Some dl) by exact Hl.
      assert (Hllt : l < length (heap wa)) by by eapply lookup_lt_Some.
      assert (∃ root1, heap w1 !! opts c1 = Some root1 ∧
                       dict_get "jobs" root1 = Some (VDict l))
        as (root1 & Hr1 & Hj1).
      { rewrite Hheap, Hopts. simpl.
        destruct (decide (l = opts c)) as [->|Hne].
        - exists (dict_del key dl). split.
          + by apply list_lookup_insert_eq.
          + assert (dl = root) as -> by congruence.
            rewrite dict_get_del_ne; [done|]. apply str_int_not_jobs.
        - exists root. split; [|done]. by rewrite list_lookup_insert_ne. }
      eexists.
      apply (cfg_job_delete_absent h _ guild d cfg c1 root1 (VDict l));
        try done.
      * simpl. by rewrite Hdbs.
      * simpl.
        assert (Hl1 : heap w1 !! l = Some (dict_del key dl)).
        { rewrite Hheap. simpl. by apply list_lookup_insert_eq. }
        rewrite (contains_ok _ _ _ _ Hl1).
        unfold dict_mem. by rewrite dict_get_del_eq.
  - intros h b guild d cfg c root l dc Hg Hd Hcfg Hc Hr Hcron Hl Habs.
    eexists. unfold CoreWrapper.cfg_sched_delete.
    rewrite (bind_ok _ _ _ _ _ (get_jobcfg_present _ _ _ _ _ Hg Hd Hcfg)).
    rewrite (bind_ok _ _ _ _ _
      (lift_run _ _ _ _
         (sub_ok _ _ _ _ _ (opts_of_json _ _ _ Hc)
            (getitem_ok _ _ _ _ _ Hr Hcron)))).
    set (w1 := with_subs _ (core_world b)).
    assert (Hs : subs w1 !! length (subs (core_world b))
                 = Some (mkSubConfig (RJson cfg) (VDict l) "cron" false)).
    { simpl. by rewrite lookup_app_r, Nat.sub_diag. }
    erewrite (lift_run _ (with_world w1 b)); [done|].
    assert (Hl1 : heap w1 !! l = Some dc) by exact Hl.
    apply (proj1 (delete_missing _ l dc _ w1 (opts_of_sub _ _ _ Hs) Hl1 Habs)).
Qed.

(** ** Resumption *)

Lemma on_ready_resumed b :
  jobs_resumed b = true → CoreWrapper.on_ready b = (Ok tt, b).
Proof.
  intros Hr. unfold CoreWrapper.on_ready, bind at 1, gets at 1. simpl.
  by rewrite Hr.
Qed.

Lemma on_ready_ok_resumed b b1 :
  CoreWrapper.on_ready b = (Ok tt, b1) → jobs_resumed b1 = true.
Proof.
  unfold CoreWrapper.on_ready, bind at 1, gets at 1. simpl.
  destruct (jobs_resumed b) eqn:Hr; simpl.
  - by intros [= <-].
  - intros (? & b2 & _ & H)%bind_ok_inv.
    apply bind_ok_inv in H as (? & b3 & _ & H).
    by injection H as <-.
Qed.

Lemma ready_signals_resumed n b :
  jobs_resumed b = true → ready_signals n b = (Ok tt, b).
Proof.
  intros Hr. unfold ready_signals. induction n as [|n IH]; [done|].
  simpl. by rewrite (bind_ok _ _ _ _ _ (on_ready_resumed b Hr)).
Qed.

(** C8: once the ready handler has run to its end, the flag is set and any
    number of further ready signals leave the bot as it is: no job is
    submitted, no schedule created, no document touched. *)
Theorem C8_resumption_runs_once b b1 n :
  CoreWrapper.on_ready b = (Ok tt, b1) →
  jobs_resumed b1 = true ∧
  CoreWrapper.on_ready b1 = (Ok tt, b1) ∧
  ready_signals n b1 = (Ok tt, b1) ∧
  queue_submitted (ready_signals n b1).2 = queue_submitted b1 ∧
  cron_created (ready_signals n b1).2 = cron_created b1.
Proof.
  intros Hr%on_ready_ok_resumed. split_and!; [done|by apply on_ready_resumed|..];
    by rewrite ready_signals_resumed.
Qed.

(** ** The last schedule id *)

Tactic Notation "bind_inv" hyp(H) "as" simple_intropattern(a)
    simple_intropattern(w) simple_intropattern(Hs) :=
  apply bind_ok_inv in H as (a & w & Hs & H).

Section keeps.
Variables (m o : nat) (v : value).

Lemma keeps_valid w : keeps m o v w → o < length (heap w).
Proof. intros [_ (d & Hd & _)]. by eapply lookup_lt_Some. Qed.

Lemma keeps_valid_cfg w : keeps m o v w → m < length (cfgs w).
Proof. intros [(c & Hc & _) _]. by eapply lookup_lt_Some. Qed.

Lemma keeps_ext w w' :
  heap w' = heap w → cfgs w' = cfgs w → keeps m o v w → keeps m o v w'.
Proof. unfold keeps. by intros -> ->. Qed.

Lemma keeps_same_objects w w' :
  same_objects w w' → keeps m o v w → keeps m o v w'.
Proof.
  intros Hsame [(c & Hc & Ho) Hd].
  destruct (same_objects_cfg _ _ _ _ Hsame Hc) as (c' & Hc' & Hsh).
  destruct Hsame as (Hh & _). split.
  - exists c'. split; [done|]. injection Hsh as -> _ _ _. done.
  - by rewrite Hh.
Qed.

Lemma keeps_alloc w ext :
  keeps m o v w → keeps m o v (with_heap (heap w ++ ext) w).
Proof.
  intros [Hc (d & Hd & Hk)]. split; [done|]. exists d. split; [|done].
  by apply lookup_app_l_Some.
Qed.

Lemma keeps_store w l d' :
  l ≠ o ∨ dict_get "last_schedule_id" d' = Some v →
  keeps m o v w → keeps m o v (with_heap (<[l := d']> (heap w)) w).
Proof.
  intros Hl [Hc (d & Hd & Hk)]. split; [done|]. simpl.
  destruct (decide (l = o)) as [->|Hne].
  - destruct Hl as [?|Hl]; [done|]. exists d'. split; [|done].
    apply list_lookup_insert_eq. by eapply lookup_lt_Some.
  - exists d. by rewrite list_lookup_insert_ne.
Qed.

Lemma keeps_put_cfg w i c' :
  i ≠ m ∨ opts c' = o →
  keeps m o v w → keeps m o v (with_cfgs (<[i := c']> (cfgs w)) w).
Proof.
  intros Hi [(c & Hc & Ho) Hd]. split; [|done]. simpl.
  destruct (decide (i = m)) as [->|Hne].
  - destruct Hi as [?|Hi]; [done|]. exists c'. split; [|done].
    apply list_lookup_insert_eq. by eapply lookup_lt_Some.
  - exists c. by rewrite list_lookup_insert_ne.
Qed.

Lemma keeps_new_cfg w c' :
  keeps m o v w → keeps m o v (with_cfgs (cfgs w ++ [c']) w).
Proof.
  intros [(c & Hc & Ho) Hd]. split; [|done]. exists c. split; [|done].
  by apply lookup_app_l_Some.
Qed.

(** *** Operations *)

Lemma write_keeps i w r w' :
  JsonConfig.write i w = (r, w') → keeps m o v w → keeps m o v w'.
Proof. intros [Hsame _]%write_inv. by apply keeps_same_objects. Qed.

Lemma sub_write_keeps fuel j w r w' :
  SubConfig.write fuel j w = (r, w') → keeps m o v w → keeps m o v w'.
Proof.
  revert j. induction fuel as [|n IH]; intros j; simpl.
  - by intros [= _ <-].
  - unfold bind, get_sub. destruct (subs w !! j) as [s|]; [|by intros [= _ <-]].
    destruct (parent s) as [i|j']; [apply write_keeps|apply IH].
Qed.

Lemma write_of_keeps self w r w' :
  write_of self w = (r, w') → keeps m o v w → keeps m o v w'.
Proof.
  destruct self as [i|j]; unfold write_of;
    [apply write_keeps|apply sub_write_keeps].
Qed.

Lemma setitem_keeps ob k x w w' :
  setitem ob k x w = (Ok tt, w') →
  k ≠ "last_schedule_id" ∨ ob ≠ VDict o →
  keeps m o v w → keeps m o v w'.
Proof.
  unfold setitem. destruct ob as [| | | |l]; try done.
  unfold bind, deref. destruct (heap w !! l) as [d|] eqn:Hl; [|done].
  intros [= <-] Hk Hkeeps. apply keeps_store; [|done].
  destruct (decide (l = o)) as [->|]; [|by left]. right.
  destruct Hk as [Hk|]; [|done].
  destruct Hkeeps as [_ (d' & Hd' & Hv)].
  assert (d' = d) as -> by congruence.
  by rewrite dict_get_set_ne.
Qed.

Lemma dict_copy_keeps ob w l w' :
  dict_copy ob w = (Ok l, w') →
  keeps m o v w → keeps m o v w' ∧ l = length (heap w).
Proof.
  unfold dict_copy. destruct ob as [| | |s|l0]; try done.
  - destruct s; [|done]. intros [= <- <-] ?. split; [|done].
    by apply keeps_alloc.
  - unfold bind, deref. destruct (heap w !! l0); [|done].
    intros [= <- <-] ?. split; [|done]. by apply keeps_alloc.
Qed.

Lemma json_load_keeps j w :
  keeps m o v w → keeps m o v (with_heap (json_load j (heap w)).2 w).
Proof.
  intros H. destruct (json_load_extends j (heap w)) as [ext ->].
  by apply keeps_alloc.
Qed.

Lemma set_opts_inv self l w w' :
  JsonConfig.set_opts self l w = (Ok tt, w') →
  ∃ c, cfgs w !! self = Some c ∧
       w' = with_cfgs
              (<[self := mkJsonConfig l (path c) (template c) (check_date c)
                                      (last_readwrite_date c)]> (cfgs w)) w.
Proof.
  unfold JsonConfig.set_opts, bind, get_cfg, put_cfg, modify.
  destruct (cfgs w !! self) as [c|]; [|done]. intros [= <-]. by exists c.
Qed.

Lemma update_last_date_inv self w w' :
  JsonConfig.update_last_date self w = (Ok tt, w') →
  ∃ c, cfgs w !! self = Some c ∧
       w' = with_cfgs (<[self := written c (clock w)]> (cfgs w)) w.
Proof.
  unfold JsonConfig.update_last_date, bind, get_cfg, gets, put_cfg, modify.
  destruct (cfgs w !! self) as [c|]; [|done]. intros [= <-]. by exists c.
Qed.

Lemma backfill_keeps self items adds w r w' :
  JsonConfig.backfill self items adds w = (Ok r, w') →
  (∃ cs, cfgs w !! self = Some cs ∧ opts cs ≠ o) →
  keeps m o v w → keeps m o v w' ∧ cfgs w' = cfgs w.
Proof.
  revert adds w. induction items as [|[key x] rest IH]; intros adds w; simpl.
  - by intros [= _ <-].
  - intros H (cs & Hcs & Hne) Hk.
    rewrite (bind_ok _ _ _ _ _ (get_cfg_ok _ _ _ Hcs)) in H.
    bind_inv H as present w0 Hcont.
    pose proof (contains_state _ _ _ _ _ Hcont) as ->.
    destruct present.
    + apply IH in H; [done|by exists cs|done].
    + bind_inv H as tv w0 Hget. apply getitem_inv in Hget as (-> & _).
      bind_inv H as [] w1 Hset.
      assert (keeps m o v w1) as Hk1.
      { eapply setitem_keeps; [done| |done]. right. congruence. }
      assert (cfgs w1 = cfgs w) as Hc1.
      { unfold setitem, bind, deref in Hset.
        destruct (heap w !! opts cs); [|done]. by injection Hset as <-. }
      apply IH in H; [|rewrite Hc1; by exists cs|done].
      destruct H as [? ->]. done.
Qed.

Lemma set_opts_keeps self l w w' :
  JsonConfig.set_opts self l w = (Ok tt, w') → self ≠ m →
  keeps m o v w →
  keeps m o v w' ∧ heap w' = heap w ∧
  ∃ cs, cfgs w' !! self = Some cs ∧ opts cs = l.
Proof.
  intros (c & Hc & ->)%set_opts_inv Hne Hk. split_and!.
  - apply keeps_put_cfg; [by left|done].
  - done.
  - eexists. split.
    + simpl. apply list_lookup_insert_eq. by eapply lookup_lt_Some.
    + done.
Qed.

Lemma update_last_date_keeps self w w' :
  JsonConfig.update_last_date self w = (Ok tt, w') →
  keeps m o v w →
  keeps m o v w' ∧ heap w' = heap w ∧
  ∀ cs, cfgs w !! self = Some cs →
        ∃ cs', cfgs w' !! self = Some cs' ∧ opts cs' = opts cs.
Proof.
  intros (c & Hc & ->)%update_last_date_inv Hk. split_and!.
  - apply keeps_put_cfg; [|done].
    destruct (decide (self = m)) as [->|]; [right|by left].
    destruct Hk as [(c' & Hc' & Ho) _]. simpl. congruence.
  - done.
  - intros cs Hcs. exists (written c (clock w)). split.
    + simpl. apply list_lookup_insert_eq. by eapply lookup_lt_Some.
    + simpl. congruence.
Qed.

Lemma load_keeps self w w' :
  JsonConfig.load self w = (Ok tt, w') → self ≠ m →
  keeps m o v w → keeps m o v w'.
Proof.
  unfold JsonConfig.load. intros H Hne Hk.
  bind_inv H as c w0 Hc. unfold get_cfg in Hc.
  destruct (cfgs w !! self) as [c0|]; [|done]. injection Hc as <- <-.
  unfold bind at 1, gets at 1 in H.
  destruct (fs w !! path c0) as [fl|]; [|done].
  destruct (f_content fl) as [j|]; [|done].
  bind_inv H as v0 w1 Hload.
  assert (w1 = with_heap (json_load j (heap w)).2 w) as ->.
  { destruct (json_load j (heap w)). by injection Hload as _ <-. }
  pose proof (json_load_keeps j w Hk) as Hk1. clear Hload.
  bind_inv H as l w2 Hcopy.
  destruct (dict_copy_keeps _ _ _ _ Hcopy Hk1) as [Hk2 Hl].
  bind_inv H as [] w3 Hset.
  destruct (set_opts_keeps _ _ _ _ Hset Hne Hk2) as (Hk3 & Hh3 & cs & Hcs & Hol).
  bind_inv H as [] w4 Hdate.
  destruct (update_last_date_keeps _ _ _ Hdate Hk3) as (Hk4 & Hh4 & Hcs4).
  destruct (Hcs4 cs Hcs) as (cs' & Hcs' & Ho').
  assert (Hfresh : opts cs' ≠ o).
  { rewrite Ho', Hol, Hl. apply keeps_valid in Hk1. lia. }
  assert (Hrest : ∀ t,
    (items <- items_of t ;;
     additions <- JsonConfig.backfill self items false ;;
     if additions then JsonConfig.write self else ret tt) w4 = (Ok tt, w') →
    keeps m o v w').
  { intros t Ht. bind_inv Ht as items w5 Hitems.
    assert (w5 = w4) as ->.
    { unfold items_of in Hitems. destruct t; try done.
      unfold deref in Hitems. destruct (heap w4 !! l0); by injection Hitems. }
    bind_inv Ht as adds w6 Hbf.
    apply backfill_keeps in Hbf as [Hk6 _]; [|by exists cs'|done].
    destruct adds; [by eapply write_keeps|by injection Ht as <-]. }
  destruct (template c0); try (by apply Hrest in H).
  by injection H as <-.
Qed.

Lemma create_keeps self w w' :
  JsonConfig.create self w = (Ok tt, w') → self ≠ m →
  keeps m o v w → keeps m o v w'.
Proof.
  unfold JsonConfig.create. intros H Hne Hk.
  bind_inv H as c w0 Hc. unfold get_cfg in Hc.
  destruct (cfgs w !! self) as [c0|]; [|done]. injection Hc as <- <-.
  bind_inv H as [] w1 Hseed.
  assert (keeps m o v w1) as Hk1.
  { destruct (template c0); try (by injection Hseed as <-);
      bind_inv Hseed as l' w2 Hcopy;
      destruct (dict_copy_keeps _ _ _ _ Hcopy Hk) as [Hk2 _];
      by destruct (set_opts_keeps _ _ _ _ Hseed Hne Hk2). }
  by eapply write_keeps.
Qed.

Lemma new_keeps p t cd w self w' :
  JsonConfig.new p t cd w = (Ok self, w') →
  keeps m o v w → keeps m o v w'.
Proof.
  unfold JsonConfig.new. intros H Hk.
  bind_inv H as l w1 Hl. injection Hl as <- <-.
  bind_inv H as i w2 Hi. injection Hi as <- <-.
  bind_inv H as [] w3 Hinit. injection H as <- <-.
  assert (Hne : length (cfgs w) ≠ m) by (apply keeps_valid_cfg in Hk; lia).
  assert (Hk2 : keeps m o v
    (with_cfgs (cfgs w ++ [mkJsonConfig (length (heap w)) p t cd None])
       (with_heap (heap w ++ [[]]) w))).
  { by apply (keeps_new_cfg (with_heap _ w)), keeps_alloc. }
  unfold JsonConfig.init in Hinit.
  bind_inv Hinit as c w4 Hc. unfold get_cfg in Hc.
  destruct (_ !! _) as [c0|] in Hc; [|done]. injection Hc as <- <-.
  unfold bind at 1, gets at 1 in Hinit.
  destruct (_ !! _) in Hinit; [by eapply load_keeps|by eapply create_keeps].
Qed.

Lemma get_template_keeps self cid w t w' :
  JsonConfigDB.get_template self cid w = (Ok t, w') →
  keeps m o v w → keeps m o v w'.
Proof.
  unfold JsonConfigDB.get_template. intros H Hk.
  bind_inv H as d w0 Hd. unfold get_db in Hd.
  destruct (dbs w !! self); [|done]. injection Hd as <- <-.
  destruct (unique_template _); [|by injection H as _ <-].
  bind_inv H as present w1 Hcont.
  pose proof (contains_state _ _ _ _ _ Hcont) as ->.
  destruct present.
  - by apply getitem_inv in H as (-> & _).
  - bind_inv H as l w2 Hl. injection Hl as <- <-. injection H as _ <-.
    by apply keeps_alloc.
Qed.

Lemma get_config_keeps self cid w c w' :
  JsonConfigDB.get_config self cid w = (Ok c, w') →
  keeps m o v w → keeps m o v w'.
Proof.
  unfold JsonConfigDB.get_config. intros H Hk.
  bind_inv H as d w0 Hd. unfold get_db in Hd.
  destruct (dbs w !! self); [|done]. injection Hd as <- <-.
  bind_inv H as [] w1 Hcreate.
  assert (keeps m o v w1) as Hk1.
  { destruct (dict_mem _ _); [by injection Hcreate as <-|].
    unfold JsonConfigDB.create_config in Hcreate.
    bind_inv Hcreate as t w2 Ht.
    apply get_template_keeps in Ht; [|done].
    bind_inv Hcreate as p w3 Hp.
    assert (w3 = w2) as ->.
    { unfold JsonConfigDB.cfg_loc, bind, get_db in Hp.
      destruct (dbs w2 !! self); by injection Hp. }
    bind_inv Hcreate as c' w4 Hnew. apply new_keeps in Hnew; [|done].
    bind_inv Hcreate as d' w5 Hd'. unfold get_db in Hd'.
    destruct (dbs w4 !! self); [|done]. injection Hd' as <- <-.
    by injection Hcreate as <-. }
  bind_inv H as d' w2 Hd'. unfold get_db in Hd'.
  destruct (dbs w1 !! self); [|done]. injection Hd' as <- <-.
  destruct (dict_get _ _); [|done]. by injection H as _ <-.
Qed.

Lemma sub_keeps self k w s w' :
  SubconfigMixin.sub self k w = (Ok s, w') →
  keeps m o v w → keeps m o v w'.
Proof. intros (?&?&_&_&_&->)%sub_inv ?. done. Qed.

Lemma as_dict_keeps h w d w' :
  as_dict h w = (Ok d, w') → keeps m o v w → keeps m o v w'.
Proof.
  unfold as_dict. intros H Hk.
  assert (w' = with_heap (json_load (JObj (record h)) (heap w)).2 w) as ->.
  { destruct (json_load _ _). by injection H as _ <-. }
  by apply json_load_keeps.
Qed.

Lemma opts_of_state self w r w' : opts_of self w = (r, w') → w' = w.
Proof.
  destruct self; unfold opts_of, bind, get_cfg, get_sub, ret.
  - destruct (cfgs w !! i); by intros [= _ <-].
  - destruct (subs w !! i); by intros [= _ <-].
Qed.

Lemma set_keeps self k x w w' :
  ConfigMixin.set self k x w = (Ok tt, w') → k ≠ "last_schedule_id" →
  keeps m o v w → keeps m o v w'.
Proof.
  unfold ConfigMixin.set. intros H Hne Hk.
  bind_inv H as ob w0 Ho. apply opts_of_state in Ho as ->.
  bind_inv H as [] w1 Hset.
  eapply write_of_keeps; [done|]. eapply setitem_keeps; [done|by left|done].
Qed.
End keeps.

Lemma py_max_int z n w : py_max (VInt z) n w = (Ok (VInt (Z.max z n)), w).
Proof.
  unfold py_max, ret. destruct (Z.ltb_spec z n).
  - by rewrite Z.max_r by lia.
  - by rewrite Z.max_l by lia.
Qed.

(** The counter update that ends [_cfg_sched_create]. *)
Lemma counter_update_ok m o z n w w' :
  keeps m o (VInt z) w →
  ConfigMixin.get_and_set (RJson m) "last_schedule_id"
    (λ val, py_max val n) w = (Ok tt, w') →
  keeps m o (VInt (Z.max z n)) w' ∧
  ∃ c, cfgs w' !! m = Some c ∧
       ∃ js, file_json w' (path c) = Some (JObj js) ∧
             dict_get "last_schedule_id" js = Some (JInt (Z.max z n)).
Proof.
  intros [(c & Hc & Ho) (d & Hd & Hz)]. subst o.
  unfold ConfigMixin.get_and_set.
  rewrite (bind_ok _ _ _ _ _ (opts_of_json _ _ _ Hc)).
  rewrite (bind_ok _ _ _ _ _ (getitem_ok _ _ _ _ _ Hd Hz)).
  rewrite (bind_ok _ _ _ _ _ (py_max_int z n w)).
  rewrite (bind_ok _ _ _ _ _ (opts_of_json _ _ _ Hc)).
  rewrite (bind_ok _ _ _ _ _ (setitem_ok _ _ _ _ _ Hd)).
  set (d1 := dict_set _ _ d). set (w1 := with_heap _ w).
  unfold write_of. intros Hw.
  destruct (write_inv _ _ _ _ Hw) as [Hsame Hok].
  destruct (Hok eq_refl) as (c1 & j & Hc1 & Hj & ->).
  assert (c1 = c) as -> by (simpl in Hc1; congruence).
  assert (Hd1 : heap w1 !! opts c = Some d1).
  { simpl. apply list_lookup_insert_eq. by eapply lookup_lt_Some. }
  assert (Hi : m < length (cfgs w)) by by eapply lookup_lt_Some.
  split.
  - split.
    + exists (written c (clock w)). split; [|done].
      simpl. by apply list_lookup_insert_eq.
    + exists d1. split; [done|]. apply dict_get_set_eq.
  - exists (written c (clock w)). split.
    + simpl. by apply list_lookup_insert_eq.
    + destruct (dump_root_get _ _ _ "last_schedule_id" _ _ Hj Hd1
                  (dict_get_set_eq _ _ _)) as (js & jv & -> & Hget & Hjv).
      exists js. split.
      * unfold file_json. simpl. by rewrite lookup_insert_eq.
      * rewrite Hget. f_equal. destruct (length (heap w1)); by injection Hjv.
Qed.

Lemma cfg_sched_create_counter h b b' o z :
  keeps (monkycfg b) o (VInt z) (core_world b) →
  CoreWrapper.cfg_sched_create h b = (Ok tt, b') →
  monkycfg b' = monkycfg b ∧
  keeps (monkycfg b) o (VInt (Z.max z (header_id h))) (core_world b') ∧
  durable_counter b' = Some (JInt (Z.max z (header_id h))).
Proof.
  intros Hk H. unfold CoreWrapper.cfg_sched_create in H.
  bind_inv H as cfg b1 Hcfg.
  assert (monkycfg b1 = monkycfg b ∧ keeps (monkycfg b) o (VInt z) (core_world b1))
    as [Hm1 Hk1].
  { unfold CoreWrapper.get_jobcfg_for_header, bind at 1, gets at 1 in Hcfg.
    simpl in Hcfg. destruct (get_guild b _); [|done].
    apply lift_inv in Hcfg as (w1 & Hg & ->). split; [done|].
    by eapply get_config_keeps. }
  bind_inv H as s b2 Hsub. apply lift_inv in Hsub as (w2 & Hsub & ->).
  apply sub_keeps with (m := monkycfg b) (o := o) (v := VInt z) in Hsub;
    [|done].
  bind_inv H as d b3 Hd. apply lift_inv in Hd as (w3 & Hd & ->).
  apply as_dict_keeps with (m := monkycfg b) (o := o) (v := VInt z) in Hd;
    [|done].
  bind_inv H as [] b4 Hset. apply lift_inv in Hset as (w4 & Hset & ->).
  apply set_keeps with (m := monkycfg b) (o := o) (v := VInt z) in Hset;
    [|apply str_int_not_counter|done].
  bind_inv H as b5 b6 Hid. injection Hid as <- <-.
  apply lift_inv in H as (w5 & Hupd & ->). simpl in Hupd.
  rewrite Hm1 in Hupd.
  destruct (counter_update_ok _ _ _ _ _ _ Hset Hupd)
    as (Hk5 & c & Hc & js & Hfile & Hget).
  split_and!; [done..|].
  unfold durable_counter. simpl. rewrite Hm1, Hc. simpl.
  rewrite Hfile. simpl. done.
Qed.

Lemma fold_max_le (l : list Z) (z0 : Z) : (z0 ≤ fold_left Z.max l z0)%Z.
Proof.
  revert z0. induction l as [|x l IH]; intros z0; simpl; [lia|].
  specialize (IH (Z.max z0 x)). lia.
Qed.

Lemma fold_max_ub (l : list Z) (z0 x : Z) :
  x ∈ l → (x ≤ fold_left Z.max l z0)%Z.
Proof.
  revert z0. induction l as [|y l IH]; intros z0; [by intros ?%elem_of_nil|].
  intros [->|Hin]%elem_of_cons; simpl.
  - pose proof (fold_max_le l (Z.max z0 y)). lia.
  - by apply IH.
Qed.

Lemma fold_max_attained (l : list Z) (z0 : Z) :
  fold_left Z.max l z0 = z0 ∨ fold_left Z.max l z0 ∈ l.
Proof.
  revert z0. induction l as [|y l IH]; intros z0; simpl; [by left|].
  destruct (IH (Z.max z0 y)) as [->|Hin].
  - destruct (Z.max_spec z0 y) as [[_ ->]|[_ ->]]; [right; by left|by left].
  - right. by right.
Qed.

Lemma fold_max_perm (l l' : list Z) (z0 : Z) :
  l ≡ₚ l' → fold_left Z.max l z0 = fold_left Z.max l' z0.
Proof.
  intros Hp. revert z0.
  induction Hp as [|x l l' _ IH|x y l|l1 l2 l3 _ IH1 _ IH2]; intros z0; simpl.
  - done.
  - apply IH.
  - f_equal. lia.
  - by rewrite IH1.
Qed.

Lemma counter_keeps b z :
  counter b = Some (VInt z) ↔
  ∃ o, keeps (monkycfg b) o (VInt z) (core_world b).
Proof.
  unfold counter, doc_opts, keeps. split.
  - intros (d & (c & Hc & Hd)%bind_Some & Hz)%bind_Some.
    exists (opts c). split; [by exists c|by exists d].
  - intros (o & (c & Hc & <-) & (d & Hd & Hz)).
    apply bind_Some. exists d. split; [|done].
    apply bind_Some. by exists c.
Qed.

Lemma schedules_created_counter hs b b' o z0 :
  keeps (monkycfg b) o (VInt z0) (core_world b) →
  schedules_created hs b = (Ok tt, b') →
  monkycfg b' = monkycfg b ∧
  keeps (monkycfg b) o (VInt (fold_left Z.max (header_id <$> hs) z0))
        (core_world b') ∧
  (hs ≠ [] →
   durable_counter b'
   = Some (JInt (fold_left Z.max (header_id <$> hs) z0))).
Proof.
  unfold schedules_created. revert b z0.
  induction hs as [|h r IH]; intros b z0 Hk; simpl.
  - by intros [= <-].
  - intros H. bind_inv H as [] b1 Hh.
    destruct (cfg_sched_create_counter _ _ _ _ _ Hk Hh) as (Hm & Hk1 & Hdur).
    rewrite <-Hm in Hk1.
    destruct (IH _ _ Hk1 H) as (Hm' & Hk' & Hdur').
    rewrite Hm in Hm', Hk'. split_and!; [done..|]. intros _.
    destruct r as [|h' r']; [|by apply Hdur'].
    simpl in H. by injection H as <-.
Qed.

(** C7: after any run of schedule-created signals that the handler takes
    to its end, the counter, in memory and in the file, is the maximum of
    its old value and the ids of the run: never below its old value, never
    below an id of the run, equal to one of them, and the same whatever
    the order of the run.  From 0, the ids 3 then 1 leave it at 3. *)
Theorem C7_last_schedule_id_is_max hs b b' z0 :
  counter b = Some (VInt z0) →
  schedules_created hs b = (Ok tt, b') →
  let ids := header_id <$> hs in
  let z := fold_left Z.max ids z0 in
  counter b' = Some (VInt z) ∧
  (hs ≠ [] → durable_counter b' = Some (JInt z)) ∧
  (z0 ≤ z)%Z ∧
  (∀ x, x ∈ ids → (x ≤ z)%Z) ∧
  (z = z0 ∨ z ∈ ids) ∧
  (∀ ids', ids' ≡ₚ ids → fold_left Z.max ids' z0 = z) ∧
  fold_left Z.max [3; 1]%Z 0%Z = 3%Z.
Proof.
  intros [o Hk]%counter_keeps Hrun ids z.
  destruct (schedules_created_counter _ _ _ _ _ Hk Hrun) as (Hm & Hk' & Hdur).
  split_and!.
  - apply counter_keeps. exists o. by rewrite Hm.
  - done.
  - apply fold_max_le.
  - intros x. apply fold_max_ub.
  - apply fold_max_attained.
  - intros ids' Hp. by apply fold_max_perm.
  - done.
Qed.

(** ** GuildStateDB *)

Lemma delete_loop_hit gid (values : list (gmap Z nat)) (s : GuildStateDB) :
  (∃ states, states ∈ values ∧ is_Some (states !! gid)) →
  GuildStateDB.delete_loop gid values s = (Raise TypeError, s).
Proof.
  induction values as [|st r IH]; intros (states & Hin & Hsome).
  - by apply elem_of_nil in Hin.
  - simpl. destruct (decide (is_Some (st !! gid))) as [|Hno]; [done|].
    apply IH. exists states. split; [|done].
    apply elem_of_cons in Hin as [->|]; [contradiction|done].
Qed.

Lemma delete_loop_miss gid (values : list (gmap Z nat)) (s : GuildStateDB) :
  (∀ states, states ∈ values → states !! gid = None) →
  GuildStateDB.delete_loop gid values s = (Ok tt, s).
Proof.
  induction values as [|st r IH]; intros Hall; [done|].
  simpl. destruct (decide (is_Some (st !! gid))) as [[x Hx]|_].
  - rewrite (Hall st) in Hx; [done|]. apply elem_of_cons; by left.
  - apply IH. intros states Hin. apply Hall. apply elem_of_cons; by right.
Qed.

Lemma get_guild_and_id_state e (s : GuildStateDB) r s' :
  GuildStateDB.get_guild_and_id e s = (r, s') → s' = s.
Proof.
  destruct e as [| | |[g|]|]; cbv [GuildStateDB.get_guild_and_id bind gets ret raise];
    intros [= _ <-]; done.
Qed.

Lemma get_guild_and_id_frame e (s s' : GuildStateDB) r :
  bot_get_guild s' = bot_get_guild s →
  GuildStateDB.get_guild_and_id e s = (r, s) →
  GuildStateDB.get_guild_and_id e s' = (r, s').
Proof.
  intros Hb. destruct e as [| | |[g|]|];
    cbv [GuildStateDB.get_guild_and_id bind gets ret raise]; simpl;
    try rewrite Hb; by intros [= <-].
Qed.

(** What a successful [get] leaves behind: the entity resolves to an id, the
    type is registered, and the instance is cached under that id. *)
Lemma get_ok_inv t e (s s1 : GuildStateDB) i :
  GuildStateDB.get t e s = (Ok i, s1) →
  ∃ g gid t' states,
    GuildStateDB.get_guild_and_id e s1 = (Ok (g, gid), s1) ∧
    types s1 !! qualname t = Some t' ∧
    statedb s1 !! qualname t = Some states ∧
    states !! gid = Some i.
Proof.
  unfold GuildStateDB.get, bind.
  destruct (GuildStateDB.get_guild_and_id e s) as [[[g gid]| |] s0] eqn:Hg; try done.
  pose proof (get_guild_and_id_state _ _ _ _ Hg) as ->.
  unfold GuildStateDB.get_of_type, GuildStateDB.check_typekey, GuildStateDB.typekey,
    bind, gets, ret, raise, modify; simpl.
  destruct (types s !! qualname t) as [t'|] eqn:Ht; simpl; [|done].
  rewrite Ht.
  destruct (statedb s !! qualname t) as [states|] eqn:Hs; simpl; [|done].
  destruct (states !! gid) as [j|] eqn:Hj.
  - intros [= <- <-]. by exists g, gid, t', states.
  - intros [= <- <-]. exists g, gid, t', (<[gid := length (objects s)]> states).
    simpl. split_and!.
    + by apply (get_guild_and_id_frame e s).
    + done.
    + by rewrite lookup_insert_eq.
    + by rewrite lookup_insert_eq.
Qed.

Lemma get_cached t e (s : GuildStateDB) g gid t' states i :
  GuildStateDB.get_guild_and_id e s = (Ok (g, gid), s) →
  types s !! qualname t = Some t' →
  statedb s !! qualname t = Some states →
  states !! gid = Some i →
  GuildStateDB.get t e s = (Ok i, s).
Proof.
  intros Hg Ht Hs Hi.
  unfold GuildStateDB.get, bind. rewrite Hg.
  unfold GuildStateDB.get_of_type, GuildStateDB.check_typekey, GuildStateDB.typekey,
    bind, gets, ret, raise; simpl.
  rewrite Ht; simpl. rewrite Ht, Hs; simpl. by rewrite Hi.
Qed.

Lemma delete_cached e (s : GuildStateDB) g gid k states i :
  GuildStateDB.get_guild_and_id e s = (Ok (g, gid), s) →
  statedb s !! k = Some states →
  states !! gid = Some i →
  GuildStateDB.delete e s = (Raise TypeError, s).
Proof.
  intros Hg Hs Hi.
  unfold GuildStateDB.delete, bind. rewrite Hg. unfold gets; simpl.
  apply delete_loop_hit. exists states. split; [|by eexists].
  apply list_elem_of_fmap. exists (k, states). split; [done|].
  by apply elem_of_map_to_list.
Qed.

(** C1 (the part the code breaks): once [get] has cached an instance,
    [delete] for the same entity raises TypeError and removes nothing, so
    the next [get] returns the old instance and constructs none. *)
Theorem C1_delete_keeps_cached_instance t e (s s1 : GuildStateDB) i :
  GuildStateDB.get t e s = (Ok i, s1) →
  GuildStateDB.get t e s1 = (Ok i, s1) ∧
  GuildStateDB.delete e s1 = (Raise TypeError, s1).
Proof.
  intros (g & gid & t' & states & Hg & Ht & Hs & Hi)%get_ok_inv.
  split; [by eapply get_cached | by eapply delete_cached].
Qed.

(** ** Documents of one store *)

(** C2 (as the code behaves): the documents that one store creates share
    the dicts nested in the store's template.  After the documents of
    guilds 1 and 2 are created, recording job "7" through the "jobs" view
    of the first makes the job appear in the second. *)
Theorem C2_template_dicts_shared :
  let r1 := two_guilds jobdb_world in
  let r2 := submit_in_first (0, 1) r1.2 in
  r1.1 = Ok (0, 1) ∧
  doc_json r1.2 1 = Some (JObj [("jobs", JObj []); ("cron", JObj [])]) ∧
  r2.1 = Ok tt ∧
  doc_json r2.2 1
  = Some (JObj [("jobs", JObj [("7", JStr "x")]); ("cron", JObj [])]).
Proof. vm_compute. done. Qed.

(** ** The properties on concrete stores *)

Lemma example_unmodified : unmodified example_doc example_world.
Proof.
  intros _ f Hf. unfold example_world, example_doc in Hf. simpl in Hf.
  apply lookup_singleton_Some in Hf as [_ <-].
  exists 5%Z. split; [done|simpl; lia].
Qed.

Lemma example_serialisable :
  serialisable (heap example_world) (VDict (opts example_doc)).
Proof. eexists. vm_compute. reflexivity. Qed.

Lemma C1_delete_keeps_cached_instance_witness :
  let s1 := (GuildStateDB.get example_state_type (EntInt 7) example_gs_db).2 in
  GuildStateDB.get example_state_type (EntInt 7) s1 = (Ok 0, s1) ∧
  GuildStateDB.delete (EntInt 7) s1 = (Raise TypeError, s1).
Proof.
  intros s1.
  apply (C1_delete_keeps_cached_instance example_state_type (EntInt 7)
           example_gs_db s1 0).
  vm_compute. reflexivity.
Defined.

Lemma C3_check_date_sequential_writes_witness :
  ∃ w1 w2,
    JsonConfig.write 0 example_world = (Ok tt, w1) ∧
    JsonConfig.write 0 (advance 10 w1) = (Ok tt, w2) ∧
    let w' := external_edit "cfg/1.json" (mkFile (Text JNull) 8%Z)
                (advance 10 w1) in
    JsonConfig.write 0 w' = (Raise ConfigException, w').
Proof.
  destruct example_serialisable as [j Hj].
  destruct (C3_check_date_sequential_writes 0 example_doc j example_world 10
              eq_refl eq_refl example_unmodified Hj) as (H1 & H2 & H3).
  eexists _, _. split_and!; [exact H1|exact H2|].
  apply (H3 (mkFile (Text JNull) 8%Z)). simpl. lia.
Defined.

Lemma C4_set_clear_set_aliasing_witness :
  ∃ w',
    set_clear_set 0 example_world = (Ok (RSub 1), w') ∧
    heap example_world !! 2 = None ∧
    doc_opts w' 0 = Some [("jobs", VDict 2); ("a", VInt 1)] ∧
    heap w' !! 2 = Some [("2", VStr "y")] ∧
    subs w' !! 1 = Some (mkSubConfig (RJson 0) (VDict 2) "jobs" false) ∧
    view_opts w' 1 = Some [("2", VStr "y")] ∧
    heap w' !! 1 = Some [("9", VStr "old"); ("1", VStr "x")] ∧
    ∃ js, file_json w' "cfg/1.json" = Some (JObj js) ∧
          dict_get "jobs" js = Some (JObj [("2", JStr "y")]).
Proof.
  destruct (C4_set_clear_set_aliasing 0 example_doc
              [("jobs", VDict 1); ("a", VInt 1)] 1 [("9", VStr "old")]
              example_world eq_refl eq_refl eq_refl eq_refl
              example_unmodified example_serialisable)
    as (w' & Hrun & Hfresh & _ & Hdoc & _ & He & Hsub & Hview & Hold & Hfile).
  exists w'.
  split_and!; [exact Hrun|exact Hfresh|exact Hdoc|exact He|exact Hsub|
               exact Hview|exact Hold|exact Hfile].
Defined.

Lemma C5_load_backfills_missing_keys_witness :
  ∃ d, doc_opts (JsonConfig.load 0 loading_world).2 0 = Some d ∧
       dict_get "a" d = Some (VInt 1) ∧ "b" ∈ dict_keys d.
Proof.
  destruct (JsonConfig.load 0 loading_world) as [r w'] eqn:Hrun.
  destruct (C5_load_backfills_missing_keys 0 loading_doc
              (mkFile (Text (JObj [("a", JInt 1)])) 3%Z) [("a", JInt 1)]
              loading_world r w' eq_refl eq_refl eq_refl)
    as (d0 & ha & d & Hload & _ & Hd & Hfile & Htpl & _); [| exact Hrun |].
  { intros t [= <-]. by eexists. }
  exists d. split; [exact Hd|]. split.
  - destruct (Hfile "a") as (v & Hv0 & Hv); [by left|].
    vm_compute in Hload. injection Hload as <- _.
    vm_compute in Hv0. by injection Hv0 as <-.
  - apply (Htpl [("a", VInt 0); ("b", VInt 2)]); [done|].
    right. by left.
Defined.

Lemma C6_get_and_clear_snapshot_witness :
  (∃ a w', ConfigMixin.get_and_clear (RJson 0) example_world
           = (Ok (VDict a), w') ∧
           heap w' !! a = Some [("jobs", VDict 1); ("a", VInt 1)] ∧
           doc_opts w' 0 = Some [] ∧
           file_json w' "cfg/1.json" = Some (JObj [])) ∧
  (∃ a w' js, ConfigMixin.get_and_clear (RSub 0) example_world
              = (Ok (VDict a), w') ∧
              heap w' !! a = Some [("9", VStr "old")] ∧
              view_opts w' 0 = Some [] ∧
              file_json w' "cfg/1.json" = Some (JObj js) ∧
              dict_get "jobs" js = Some (JObj [])).
Proof.
  destruct C6_get_and_clear_snapshot as [Hdoc Hsub]. split.
  - destruct (Hdoc 0 example_doc [("jobs", VDict 1); ("a", VInt 1)]
                example_world eq_refl eq_refl example_unmodified)
      as (a & w' & Hrun & _ & Ha & Hopts & Hfile).
    by exists a, w'.
  - destruct (Hsub 0 example_view 0 example_doc 1 [("9", VStr "old")] 0
                [("jobs", VDict 1); ("a", VInt 1)] example_world
                eq_refl eq_refl eq_refl eq_refl eq_refl eq_refl eq_refl
                example_unmodified example_serialisable)
      as (a & w' & Hrun & _ & Ha & Hview & _ & (j & Hfile & _ & Hjs)).
    destruct (Hjs eq_refl) as (js & -> & Hget).
    by exists a, w', js.
Defined.

Lemma C7_last_schedule_id_is_max_witness :
  let b' := (schedules_created [schedule_3; schedule_1] example_bot).2 in
  counter b' = Some (VInt 3) ∧ durable_counter b' = Some (JInt 3).
Proof.
  intros b'.
  assert (Hrun : schedules_created [schedule_3; schedule_1] example_bot
                 = (Ok tt, b')) by (vm_compute; reflexivity).
  destruct (C7_last_schedule_id_is_max [schedule_3; schedule_1] example_bot
              b' 0 eq_refl Hrun) as (Hc & Hd & _).
  split; [exact Hc|]. by apply Hd.
Defined.

Lemma C8_resumption_runs_once_witness :
  let b1 := (CoreWrapper.on_ready example_bot).2 in
  length (queue_submitted b1) = 1 ∧ length (cron_created b1) = 1 ∧
  ready_signals 3 b1 = (Ok tt, b1).
Proof.
  intros b1.
  assert (Hrun : CoreWrapper.on_ready example_bot = (Ok tt, b1))
    by (vm_compute; reflexivity).
  destruct (C8_resumption_runs_once example_bot b1 3 Hrun)
    as (_ & _ & H3 & _).
  split_and!; [vm_compute; reflexivity..|exact H3].
Defined.

Lemma C9_delete_missing_key_witness :
  (ConfigMixin.delete (RSub 0) "5" false example_world
   = (Raise KeyError, example_world) ∧
   ConfigMixin.delete (RSub 0) "5" true example_world
   = (Ok tt, example_world)) ∧
  (let b1 := (CoreWrapper.cfg_job_delete job_4 example_bot).2 in
   ∃ s, CoreWrapper.cfg_job_delete job_4 b1
        = (Ok tt,
           with_world (with_subs (subs (core_world b1) ++ [s])
                                 (core_world b1)) b1)) ∧
  (∃ s, CoreWrapper.cfg_sched_delete schedule_3 example_bot
        = (Raise KeyError,
           with_world (with_subs (subs (core_world example_bot) ++ [s])
                                 (core_world example_bot)) example_bot)).
Proof.
  destruct C9_delete_missing_key as (Ha & Hb & Hc). split; [|split].
  - by apply (Ha (RSub 0) 1 [("9", VStr "old")] "5" example_world).
  - intros b1. apply (Hb job_4 example_bot b1). vm_compute. reflexivity.
  - by apply (Hc schedule_3 example_bot (mkGuild 1)
                (mkJsonConfigDB "jobdb" [("1", 1)] (VDict 0) false) 1
                (mkJsonConfig 4 "jobdb/1.json" (VDict 0) false (Some 0%Z))
                [("jobs", VDict 5); ("cron", VDict 6)] 6 [("2", VDict 8)]).
Defined.


(** * Further properties of config.py *)

(** ** The encoder and the root dict of a document *)

(** A dict whose address is among the markers is never looked up. *)
Lemma dump_val_marked n h ms r d' v :
  r ∈ ms → dump_val n (<[r := d']> h) ms v = dump_val n h ms v.
Proof.
  revert ms v. induction n as [|n IH]; intros ms v Hr.
  - by destruct v.
  - destruct v as [| | | |l]; try done. simpl.
    destruct (decide (l ∈ ms)) as [|Hl]; [done|].
    assert (r ≠ l) by (by intros ->).
    rewrite list_lookup_insert_ne by done.
    destruct (h !! l) as [d|]; [|done].
    f_equal. apply dump_items_ext, Forall_forall. intros kv _.
    apply IH. by right.
Qed.

Lemma dump_root h r d :
  h !! r = Some d →
  dump h (VDict r)
  = res_bind (dump_items (dump_val (length h) h [r]) d) (λ js, Ok (JObj js)).
Proof.
  intros Hr. unfold dump. simpl.
  destruct (decide (r ∈ [])) as [Hin|_]; [by apply elem_of_nil in Hin|].
  by rewrite Hr.
Qed.

(** The JSON of a document whose root dict has just been replaced: the
    entries of the new root, encoded as they were before. *)
Lemma dump_store_root h r d d' :
  h !! r = Some d →
  dump (<[r := d']> h) (VDict r)
  = res_bind (dump_items (dump_val (length h) h [r]) d') (λ js, Ok (JObj js)).
Proof.
  intros Hr.
  assert (r < length h) by by eapply lookup_lt_Some.
  rewrite (dump_root _ r d') by by apply list_lookup_insert_eq.
  rewrite length_insert. f_equal.
  apply dump_items_ext, Forall_forall. intros kv _.
  apply dump_val_marked. by left.
Qed.

Lemma dump_items_set f k v (d : pydict value) js jv :
  dump_items f d = Ok js → f v = Ok jv →
  dump_items f (dict_set k v d) = Ok (dict_set k jv js).
Proof.
  revert js. induction d as [|[k' v'] d IH]; intros js Hd Hv; simpl in *.
  - injection Hd as <-. simpl. by rewrite Hv.
  - destruct (f v') as [j'| |] eqn:Hv'; try done. simpl in Hd.
    destruct (dump_items f d) as [js'| |] eqn:Hd'; try done.
    simpl in Hd. injection Hd as <-. simpl.
    destruct (decide (k = k')) as [->|Hne]; simpl.
    + by rewrite Hv, Hd'.
    + by rewrite Hv', (IH js') by done.
Qed.

Lemma dump_items_del f k (d : pydict value) js :
  dump_items f d = Ok js →
  dump_items f (dict_del k d) = Ok (dict_del k js).
Proof.
  revert js. induction d as [|[k' v'] d IH]; intros js Hd; simpl in *.
  - by injection Hd as <-.
  - destruct (f v') as [j'| |] eqn:Hv'; try done. simpl in Hd.
    destruct (dump_items f d) as [js'| |] eqn:Hd'; try done.
    simpl in Hd. injection Hd as <-. simpl.
    destruct (decide (k = k')) as [->|Hne]; simpl.
    + by apply IH.
    + by rewrite Hv', (IH js') by done.
Qed.

Lemma dump_scalar_any n h ms n' h' ms' v :
  scalar v → dump_val n h ms v = dump_val n' h' ms' v.
Proof. by destruct v, n, n'. Qed.

Lemma dump_root_inv h r d j :
  h !! r = Some d → dump h (VDict r) = Ok j →
  ∃ js, dump_items (dump_val (length h) h [r]) d = Ok js ∧ j = JObj js.
Proof.
  intros Hr. rewrite (dump_root _ _ _ Hr).
  destruct (dump_items _ d) as [js| |]; simpl; [|done..].
  intros [= <-]. by exists js.
Qed.

Lemma doc_opts_intro w i c d :
  cfgs w !! i = Some c → heap w !! opts c = Some d → doc_opts w i = Some d.
Proof. intros Hc Hd. unfold doc_opts. by rewrite Hc. Qed.

Lemma file_json_intro w p j t :
  fs w !! p = Some (mkFile (Text j) t) → file_json w p = Some j.
Proof. intros Hf. unfold file_json. by rewrite Hf. Qed.

Lemma lookup_snd {A} (l : list A) (x y : A) :
  (l ++ [x; y]) !! S (length l) = Some y.
Proof.
  rewrite lookup_app_r by lia.
  by replace (S (length l) - length l) with 1 by lia.
Qed.

(** ** set, get, delete on a document *)

Lemma set_json_ok i c d k v j w :
  cfgs w !! i = Some c → heap w !! opts c = Some d → unmodified c w →
  dump (<[opts c := dict_set k v d]> (heap w)) (VDict (opts c)) = Ok j →
  ConfigMixin.set (RJson i) k v w
  = (Ok tt,
     after_write i c j (with_heap (<[opts c := dict_set k v d]> (heap w)) w)).
Proof.
  intros Hc Hd Hu Hj. unfold ConfigMixin.set.
  rewrite (bind_ok _ _ _ _ _ (opts_of_json _ _ _ Hc)).
  rewrite (bind_ok _ _ _ _ _ (setitem_ok _ _ _ _ _ Hd)).
  unfold write_of. by apply write_ok.
Qed.

Lemma get_json i c d k w :
  cfgs w !! i = Some c → heap w !! opts c = Some d →
  ConfigMixin.get (RJson i) k w
  = (match dict_get k d with Some v => Ok v | None => Raise KeyError end, w).
Proof.
  intros Hc Hd. unfold ConfigMixin.get.
  rewrite (bind_ok _ _ _ _ _ (opts_of_json _ _ _ Hc)).
  destruct (dict_get k d) as [v|] eqn:Hk.
  - by eapply getitem_ok.
  - by eapply getitem_missing.
Qed.

Lemma contains_json i c d k w :
  cfgs w !! i = Some c → heap w !! opts c = Some d →
  ConfigMixin.contains (RJson i) k w = (Ok (dict_mem k d), w).
Proof.
  intros Hc Hd. unfold ConfigMixin.contains.
  rewrite (bind_ok _ _ _ _ _ (opts_of_json _ _ _ Hc)).
  by apply contains_ok.
Qed.

(** X1: [set] of a value that is [None], a bool, an int or a str, on a
    document that can be written: the call returns, [get] gives the value
    back, the other keys are as before, and the file holds the former JSON
    with the key set to the JSON of the value. *)
Theorem X1_set_then_get i c d k v js0 w :
  cfgs w !! i = Some c → heap w !! opts c = Some d → unmodified c w →
  dump (heap w) (VDict (opts c)) = Ok (JObj js0) → scalar v →
  ∃ w' jv,
    ConfigMixin.set (RJson i) k v w = (Ok tt, w') ∧
    ConfigMixin.get (RJson i) k w' = (Ok v, w') ∧
    ConfigMixin.contains (RJson i) k w' = (Ok true, w') ∧
    doc_opts w' i = Some (dict_set k v d) ∧
    (∀ k', k' ≠ k →
       ConfigMixin.get (RJson i) k' w'
       = ((ConfigMixin.get (RJson i) k' w).1, w')) ∧
    dump (heap w) v = Ok jv ∧
    file_json w' (path c) = Some (JObj (dict_set k jv js0)) ∧
    doc_json w' i = Some (JObj (dict_set k jv js0)).
Proof.
  intros Hc Hd Hu Hj Hv.
  destruct (dump_scalar (S (length (heap w))) (heap w) [] v Hv) as [jv Hjv].
  destruct (dump_root_inv _ _ _ _ Hd Hj) as (js & Hjs & [= <-]).
  set (h1 := <[opts c := dict_set k v d]> (heap w)).
  assert (Hi : i < length (cfgs w)) by by eapply lookup_lt_Some.
  assert (Hr : opts c < length (heap w)) by by eapply lookup_lt_Some.
  assert (Hj1 : dump h1 (VDict (opts c)) = Ok (JObj (dict_set k jv js0))).
  { unfold h1. rewrite (dump_store_root _ _ d) by done.
    erewrite dump_items_set; [done|exact Hjs|].
    rewrite <-Hjv. by apply dump_scalar_any. }
  set (w' := after_write i c (JObj (dict_set k jv js0)) (with_heap h1 w)).
  assert (Hc' : cfgs w' !! i = Some (written c (clock w))).
  { simpl. by apply list_lookup_insert_eq. }
  assert (Hd' : heap w' !! opts (written c (clock w))
                = Some (dict_set k v d)).
  { simpl. unfold h1. by apply list_lookup_insert_eq. }
  exists w', jv. split_and!.
  - by apply set_json_ok.
  - rewrite (get_json i _ _ k w' Hc' Hd'). by rewrite dict_get_set_eq.
  - rewrite (contains_json i _ _ k w' Hc' Hd').
    unfold dict_mem. by rewrite dict_get_set_eq.
  - unfold doc_opts. by rewrite Hc'.
  - intros k' Hne.
    rewrite (get_json i _ _ k' w' Hc' Hd'), (get_json i _ _ k' w Hc Hd).
    simpl. by rewrite dict_get_set_ne.
  - exact Hjv.
  - unfold file_json. simpl. by rewrite lookup_insert_eq.
  - unfold doc_json. rewrite Hc'. simpl.
    by rewrite Hj1.
Qed.

(** X2: [delete] of a key that is there: the key is gone from the document
    and from the file, and every other member of the file is kept. *)
Theorem X2_delete_present i c d k js0 ign w :
  cfgs w !! i = Some c → heap w !! opts c = Some d → unmodified c w →
  dump (heap w) (VDict (opts c)) = Ok (JObj js0) →
  is_Some (dict_get k d) →
  ∃ w',
    ConfigMixin.delete (RJson i) k ign w = (Ok tt, w') ∧
    ConfigMixin.get (RJson i) k w' = (Raise KeyError, w') ∧
    ConfigMixin.contains (RJson i) k w' = (Ok false, w') ∧
    doc_opts w' i = Some (dict_del k d) ∧
    file_json w' (path c) = Some (JObj (dict_del k js0)) ∧
    dict_get k (dict_del k js0) = None ∧
    (∀ k', k' ≠ k → dict_get k' (dict_del k js0) = dict_get k' js0).
Proof.
  intros Hc Hd Hu Hj Hk.
  destruct (dump_root_inv _ _ _ _ Hd Hj) as (js & Hjs & [= <-]).
  set (h1 := <[opts c := dict_del k d]> (heap w)).
  assert (Hi : i < length (cfgs w)) by by eapply lookup_lt_Some.
  assert (Hr : opts c < length (heap w)) by by eapply lookup_lt_Some.
  assert (Hj1 : dump h1 (VDict (opts c)) = Ok (JObj (dict_del k js0))).
  { unfold h1. rewrite (dump_store_root _ _ d) by done.
    by erewrite dump_items_del. }
  set (w' := after_write i c (JObj (dict_del k js0)) (with_heap h1 w)).
  assert (Hc' : cfgs w' !! i = Some (written c (clock w))).
  { simpl. by apply list_lookup_insert_eq. }
  assert (Hd' : heap w' !! opts (written c (clock w))
                = Some (dict_del k d)).
  { simpl. unfold h1. by apply list_lookup_insert_eq. }
  assert (Hrun : ConfigMixin.delete (RJson i) k ign w = (Ok tt, w')).
  { unfold ConfigMixin.delete.
    assert (Hskip : (if ign
                     then o <- opts_of (RJson i) ;;
                          present <- contains o k ;; ret (negb present)
                     else ret false) w = (Ok false, w)).
    { destruct ign; [|done].
      rewrite (bind_ok _ _ _ _ _ (opts_of_json _ _ _ Hc)).
      rewrite (bind_ok _ _ _ _ _ (contains_ok _ _ k _ Hd)).
      apply dict_mem_true in Hk. by rewrite Hk. }
    rewrite (bind_ok _ _ _ _ _ Hskip).
    rewrite (bind_ok _ _ _ _ _ (opts_of_json _ _ _ Hc)).
    rewrite (bind_ok _ _ _ _ _ (delitem_ok _ _ _ _ Hd Hk)).
    unfold write_of. by apply write_ok. }
  exists w'. split_and!.
  - exact Hrun.
  - rewrite (get_json i _ _ k w' Hc' Hd'). by rewrite dict_get_del_eq.
  - rewrite (contains_json i _ _ k w' Hc' Hd').
    unfold dict_mem. by rewrite dict_get_del_eq.
  - unfold doc_opts. by rewrite Hc'.
  - unfold file_json. simpl. by rewrite lookup_insert_eq.
  - apply dict_get_del_eq.
  - intros k' Hne. by apply dict_get_del_ne.
Qed.

(** X3: a key that is not there: [get], [get_and_set] and [sub] raise
    KeyError and [in] answers False; nothing is changed or written, and
    the function given to [get_and_set] is not called. *)
Theorem X3_missing_key self l d k f w :
  opts_of self w = (Ok (VDict l), w) → heap w !! l = Some d →
  dict_get k d = None →
  ConfigMixin.get self k w = (Raise KeyError, w) ∧
  ConfigMixin.get_and_set self k f w = (Raise KeyError, w) ∧
  SubconfigMixin.sub self k w = (Raise KeyError, w) ∧
  ConfigMixin.contains self k w = (Ok false, w).
Proof.
  intros Ho Hd Hk.
  pose proof (getitem_missing _ _ _ _ Hd Hk) as Hg.
  split_and!.
  - unfold ConfigMixin.get. by rewrite (bind_ok _ _ _ _ _ Ho).
  - unfold ConfigMixin.get_and_set. rewrite (bind_ok _ _ _ _ _ Ho).
    by rewrite (bind_raise _ _ _ _ _ Hg).
  - unfold SubconfigMixin.sub. rewrite (bind_ok _ _ _ _ _ Ho).
    by rewrite (bind_raise _ _ _ _ _ Hg).
  - unfold ConfigMixin.contains. rewrite (bind_ok _ _ _ _ _ Ho).
    rewrite (contains_ok _ _ k _ Hd).
    apply dict_mem_false in Hk. by rewrite Hk.
Qed.

(** X4: [get_and_set] with a function that computes its result from the old
    value is [set] with that result; when the function raises, nothing is
    changed or written. *)
Theorem X4_get_and_set_is_set self l d k old w :
  opts_of self w = (Ok (VDict l), w) → heap w !! l = Some d →
  dict_get k d = Some old →
  (∀ g, ConfigMixin.get_and_set self k (λ v, ret (g v)) w
        = ConfigMixin.set self k (g old) w) ∧
  (∀ e, ConfigMixin.get_and_set self k (λ _, raise e) w = (Raise e, w)).
Proof.
  intros Ho Hd Hk.
  pose proof (getitem_ok _ _ _ _ _ Hd Hk) as Hg.
  split.
  - intros g. unfold ConfigMixin.get_and_set, ConfigMixin.set.
    rewrite !(bind_ok _ _ _ _ _ Ho). rewrite (bind_ok _ _ _ _ _ Hg).
    assert (Hr : ret (S := world) (g old) w = (Ok (g old), w)) by done.
    rewrite (bind_ok _ _ _ _ _ Hr). by rewrite (bind_ok _ _ _ _ _ Ho).
  - intros e. unfold ConfigMixin.get_and_set.
    rewrite (bind_ok _ _ _ _ _ Ho). rewrite (bind_ok _ _ _ _ _ Hg).
    done.
Qed.

(** ** A write that fails *)

Lemma write_fails i c e w :
  cfgs w !! i = Some c → unmodified c w →
  dump (heap w) (VDict (opts c)) = Raise e →
  JsonConfig.write i w
  = (Raise e, with_fs (<[path c := mkFile Partial (clock w)]> (fs w)) w).
Proof.
  intros Hc Hu Hj. unfold JsonConfig.write.
  rewrite (bind_ok _ _ _ _ _ (get_cfg_ok _ _ _ Hc)).
  unfold bind at 1. unfold gets at 1.
  assert (Hchk :
    match fs w !! path c with
    | Some fl =>
        if check_date c
        then match last_readwrite_date c with
             | Some t =>
                 if (t <? f_mtime fl)%Z then raise ConfigException
                 else ret tt
             | None => raise TypeError
             end
        else ret tt
    | None => ret tt
    end w = (Ok tt, w)).
  { destruct (fs w !! path c) as [fl|] eqn:Hf; [|done].
    destruct (check_date c) eqn:Hcd; [|done].
    destruct (Hu Hcd fl Hf) as (t & -> & Ht).
    by rewrite (proj2 (Z.ltb_ge _ _) Ht). }
  rewrite (bind_ok _ _ _ _ _ Hchk).
  unfold bind, gets, put_file, modify, lift_res. simpl. by rewrite Hj.
Qed.

Lemma load_partial i c t w :
  cfgs w !! i = Some c → fs w !! path c = Some (mkFile Partial t) →
  JsonConfig.load i w = (Raise ValueError, w).
Proof.
  intros Hc Hf. unfold JsonConfig.load.
  rewrite (bind_ok _ _ _ _ _ (get_cfg_ok _ _ _ Hc)).
  unfold bind at 1. unfold gets at 1. by rewrite Hf.
Qed.

(** X5: [write] opens the file for writing before it encodes: when the
    encoder raises, the exception comes out of [write], the file is left
    with a truncated text, nothing else has changed, and a later [load]
    of the document raises ValueError. *)
Theorem X5_failed_write_truncates i c e w :
  cfgs w !! i = Some c → unmodified c w →
  dump (heap w) (VDict (opts c)) = Raise e →
  ∃ w',
    JsonConfig.write i w = (Raise e, w') ∧
    fs w' !! path c = Some (mkFile Partial (clock w)) ∧
    file_json w' (path c) = None ∧
    heap w' = heap w ∧ cfgs w' = cfgs w ∧
    JsonConfig.load i w' = (Raise ValueError, w').
Proof.
  intros Hc Hu Hj. eexists. split; [by apply write_fails|].
  set (w' := with_fs _ w).
  assert (Hf : fs w' !! path c = Some (mkFile Partial (clock w))).
  { simpl. by rewrite lookup_insert_eq. }
  split_and!; try done.
  - unfold file_json. by rewrite Hf.
  - by eapply load_partial.
Qed.

Lemma dump_items_set_raise f k v (d : pydict value) js e :
  dump_items f d = Ok js → f v = Raise e →
  dump_items f (dict_set k v d) = Raise e.
Proof.
  revert js. induction d as [|[k' v'] d IH]; intros js Hd Hv; simpl in *.
  - by rewrite Hv.
  - destruct (f v') as [j'| |] eqn:Hv'; try done. simpl in Hd.
    destruct (dump_items f d) as [js'| |] eqn:Hd'; try done.
    destruct (decide (k = k')) as [->|Hne]; simpl.
    + by rewrite Hv.
    + by rewrite Hv', (IH js') by done.
Qed.

(** X6: storing a document's own dict in the document: [set] changes the
    dict, then the write raises ValueError (circular reference); the key
    stays in memory, the file is left truncated and cannot be loaded. *)
Theorem X6_set_of_own_dict_raises i c d k w :
  cfgs w !! i = Some c → heap w !! opts c = Some d → unmodified c w →
  serialisable (heap w) (VDict (opts c)) →
  ∃ w',
    ConfigMixin.set (RJson i) k (VDict (opts c)) w = (Raise ValueError, w') ∧
    doc_opts w' i = Some (dict_set k (VDict (opts c)) d) ∧
    ConfigMixin.get (RJson i) k w' = (Ok (VDict (opts c)), w') ∧
    fs w' !! path c = Some (mkFile Partial (clock w)) ∧
    JsonConfig.load i w' = (Raise ValueError, w').
Proof.
  intros Hc Hd Hu [j Hj].
  destruct (dump_root_inv _ _ _ _ Hd Hj) as (js & Hjs & ->).
  set (r := opts c) in *.
  set (h1 := <[r := dict_set k (VDict r) d]> (heap w)).
  set (w1 := with_heap h1 w).
  assert (Hr : r < length (heap w)) by by eapply lookup_lt_Some.
  assert (Hj1 : dump (heap w1) (VDict (opts c)) = Raise ValueError).
  { simpl. fold r. unfold h1. rewrite (dump_store_root _ _ d) by done.
    erewrite dump_items_set_raise; [done|exact Hjs|].
    destruct (length (heap w)) as [|n]; [lia|]. simpl.
    by rewrite decide_True by by left. }
  assert (Hc1 : cfgs w1 !! i = Some c) by done.
  assert (Hu1 : unmodified c w1) by by eapply unmodified_ext; [..|exact Hu].
  pose proof (write_fails i c _ w1 Hc1 Hu1 Hj1) as Hw.
  set (w' := with_fs _ w1) in Hw.
  assert (Hf : fs w' !! path c = Some (mkFile Partial (clock w))).
  { simpl. by rewrite lookup_insert_eq. }
  assert (Hd' : heap w' !! opts c = Some (dict_set k (VDict r) d)).
  { simpl. fold r. unfold h1. by apply list_lookup_insert_eq. }
  assert (Hc' : cfgs w' !! i = Some c) by done.
  exists w'. split_and!.
  - unfold ConfigMixin.set.
    rewrite (bind_ok _ _ _ _ _ (opts_of_json _ _ _ Hc)).
    rewrite (bind_ok _ _ _ _ _ (setitem_ok _ _ _ _ _ Hd)).
    exact Hw.
  - unfold doc_opts. by rewrite Hc'.
  - rewrite (get_json i _ _ k w' Hc' Hd'). by rewrite dict_get_set_eq.
  - exact Hf.
  - by eapply load_partial.
Qed.

(** ** Views *)

(** X7: a view of an entry that is [None], a bool, an int or a str: [sub]
    makes it, and [set], [get], [delete] with [ignore_keyerror] off and
    [sub] on it raise TypeError before anything is changed or written. *)
Theorem X7_view_of_plain_value self l d k v w :
  opts_of self w = (Ok (VDict l), w) → heap w !! l = Some d →
  dict_get k d = Some v → scalar v →
  let n := length (subs w) in
  let w1 := with_subs (subs w ++ [mkSubConfig self v k false]) w in
  SubconfigMixin.sub self k w = (Ok (RSub n), w1) ∧
  ∀ a x,
    ConfigMixin.set (RSub n) a x w1 = (Raise TypeError, w1) ∧
    ConfigMixin.get (RSub n) a w1 = (Raise TypeError, w1) ∧
    ConfigMixin.delete (RSub n) a false w1 = (Raise TypeError, w1) ∧
    SubconfigMixin.sub (RSub n) a w1 = (Raise TypeError, w1).
Proof.
  intros Ho Hd Hk Hv n w1.
  split; [by eapply sub_ok, getitem_ok|].
  intros a x.
  assert (Hs : subs w1 !! n = Some (mkSubConfig self v k false)).
  { simpl. by rewrite lookup_app_r, Nat.sub_diag. }
  pose proof (opts_of_sub _ _ _ Hs) as Ho1. simpl in Ho1.
  unfold ConfigMixin.set, ConfigMixin.get, ConfigMixin.delete,
    SubconfigMixin.sub.
  assert (Hr : ret (S := world) false w1 = (Ok false, w1)) by done.
  rewrite (bind_ok _ _ _ _ _ Hr).
  rewrite !(bind_ok _ _ _ _ _ Ho1).
  by destruct v.
Qed.

Lemma setitem_frame o k v w r w' :
  setitem o k v w = (r, w') →
  subs w' = subs w ∧ cfgs w' = cfgs w ∧ fs w' = fs w ∧ clock w' = clock w ∧
  dbs w' = dbs w.
Proof.
  unfold setitem. destruct o as [| | | |l]; try by intros [= _ <-].
  unfold bind, deref, store, modify.
  destruct (heap w !! l); by intros [= _ <-].
Qed.


Lemma write_synced i w w' :
  JsonConfig.write i w = (Ok tt, w') → synced i w'.
Proof.
  intros Hw. apply write_inv in Hw as [_ Hw].
  destruct (Hw eq_refl) as (c & j & Hc & Hj & ->).
  assert (Hi : i < length (cfgs w)) by by eapply lookup_lt_Some.
  exists (written c (clock w)), j. split_and!.
  - simpl. by apply list_lookup_insert_eq.
  - unfold file_json. simpl. by rewrite lookup_insert_eq.
  - unfold doc_json. simpl. rewrite list_lookup_insert_eq by done.
    simpl. by rewrite Hj.
  - done.
Qed.



(** X9: [doc.sub(k).set(a, v)] for a [v] that is [None], a bool, an int or
    a str, where the document holds a dict under [k]: the call returns,
    the dict of the document holds [v] under [a], and so does the file,
    under [k] then [a]. *)
Theorem X9_sub_set_writes_through i c root k l d a v w :
  cfgs w !! i = Some c → heap w !! opts c = Some root →
  dict_get k root = Some (VDict l) → heap w !! l = Some d →
  unmodified c w → serialisable (heap w) (VDict (opts c)) → scalar v →
  ∃ w' js jd jv,
    sub_then_set i k a v w = (Ok (RSub (length (subs w))), w') ∧
    heap w' !! l = Some (dict_set a v d) ∧
    doc_opts w' i = Some root ∧
    view_opts w' (length (subs w)) = Some (dict_set a v d) ∧
    file_json w' (path c) = Some (JObj js) ∧
    dict_get k js = Some (JObj jd) ∧
    dump (heap w) v = Ok jv ∧ dict_get a jd = Some jv.
Proof.
  intros Hc Hr Hk Hl Hu Hser Hv.
  set (r := opts c) in *. set (n := length (subs w)).
  assert (Hlr : l ≠ r) by by eapply serialisable_no_self_cycle.
  assert (Hilt : i < length (cfgs w)) by by eapply lookup_lt_Some.
  assert (Hllt : l < length (heap w)) by by eapply lookup_lt_Some.
  set (s0 := mkSubConfig (RJson i) (VDict l) k false).
  set (w1 := with_subs (subs w ++ [s0]) w).
  assert (Hs1 : subs w1 !! n = Some s0).
  { simpl. by rewrite lookup_app_r, Nat.sub_diag. }
  set (h2 := <[l := dict_set a v d]> (heap w)).
  assert (serialisable h2 (VDict r)) as [j Hj].
  { by apply serialisable_set_scalar. }
  assert (Hr2 : h2 !! r = Some root).
  { unfold h2. by rewrite list_lookup_insert_ne. }
  assert (Hl2 : h2 !! l = Some (dict_set a v d)).
  { unfold h2. by apply list_lookup_insert_eq. }
  destruct (dump_root_get h2 r root k (VDict l) j Hj Hr2 Hk)
    as (js & jl & -> & Hkjs & Hjl).
  apply dump_val_dict_inv in Hjl as (n' & d' & jd & Hn' & _ & Hd' & Hjd & ->).
  rewrite Hl2 in Hd'. injection Hd' as <-.
  destruct (dump_items_get _ _ _ a v Hjd (dict_get_set_eq _ _ _))
    as (jv & Hjv & Hajd).
  set (w' := after_write i c (JObj js) (with_heap h2 w1)).
  exists w', js, jd, jv. split_and!.
  - unfold sub_then_set.
    rewrite (bind_ok _ _ _ _ _
               (sub_ok (RJson i) (VDict r) k (VDict l) w
                  (opts_of_json _ _ _ Hc) (getitem_ok _ _ _ _ _ Hr Hk))).
    fold n s0 w1.
    assert (Hc1 : cfgs w1 !! i = Some c) by done.
    assert (Hu1 : unmodified c w1) by by eapply unmodified_ext; [..|exact Hu].
    assert (Hl1 : heap w1 !! l = Some d) by done.
    by rewrite (bind_ok _ _ _ _ _
                  (set_sub_ok n s0 i c l d a v (JObj js) w1 Hs1 eq_refl eq_refl
                     Hl1 Hc1 Hu1 Hj)).
  - exact Hl2.
  - unfold doc_opts. simpl. rewrite list_lookup_insert_eq by done. exact Hr2.
  - unfold view_opts. simpl. fold n.
    change (subs w ++ [s0]) with (subs w1). rewrite Hs1. exact Hl2.
  - unfold file_json. simpl. by rewrite lookup_insert_eq.
  - exact Hkjs.
  - rewrite <-Hjv. by apply dump_scalar_any.
  - exact Hajd.
Qed.

(** ** Decoding and encoding *)

(** A successful encoding is not disturbed by dicts allocated later, nor
    by markers it never meets. *)
Lemma dump_val_frame n h ms v j ext ms' :
  dump_val n h ms v = Ok j →
  (∀ m, m ∈ ms' → m ∈ ms ∨ length h ≤ m) →
  dump_val n (h ++ ext) ms' v = Ok j.
Proof.
  revert ms ms' v j. induction n as [|n IH]; intros ms ms' v j Hj Hms.
  - by destruct v.
  - destruct v as [| | | |l]; try done.
    apply dump_val_dict_inv in Hj as (n' & d & js & [= <-] & Hl & Hd & Hjs & ->).
    assert (l < length h) by by eapply lookup_lt_Some.
    apply (dump_val_dict _ _ _ _ d).
    + intros [?|?]%Hms; [done|lia].
    + by rewrite lookup_app_l.
    + apply dump_items_ok. apply dump_items_ok in Hjs.
      eapply Forall2_impl; [exact Hjs|]. intros kv kj [? Hkv]. split; [done|].
      eapply IH; [exact Hkv|].
      intros m [->|Hm]%elem_of_cons; [left; by left|].
      destruct (Hms m Hm); [left; by right|by right].
Qed.

Lemma dump_any_fuel n h v j : dump_val n h [] v = Ok j → dump h v = Ok j.
Proof.
  intros Hj.
  rewrite <-(dump_fuel_enough h (n `max` S (length h))) by lia.
  eapply dump_val_mono; [|exact Hj]. lia.
Qed.

(** [dict(o)] encodes like [o]. *)
Lemma dump_copy h t tm j ext a :
  h !! t = Some tm → dump h (VDict t) = Ok j →
  (h ++ ext) !! a = Some tm → length h ≤ a →
  dump (h ++ ext) (VDict a) = Ok j.
Proof.
  intros Ht Hj Ha Hle.
  destruct (dump_root_inv _ _ _ _ Ht Hj) as (js & Hjs & ->).
  apply (dump_any_fuel (S (length h))).
  apply (dump_val_dict _ _ _ _ tm); [by intros ?%elem_of_nil|done|].
  apply dump_items_ok. apply dump_items_ok in Hjs.
  eapply Forall2_impl; [exact Hjs|]. intros kv kj [? Hkv]. split; [done|].
  eapply dump_val_frame; [exact Hkv|].
  intros m ->%list_elem_of_singleton. by right.
Qed.

Lemma unique_keys_obj items :
  unique_keys (JObj items) = true ↔
  NoDup items.*1 ∧ Forall (λ kj, unique_keys kj.2 = true) items.
Proof.
  simpl. rewrite andb_true_iff, bool_decide_eq_true, forallb_forall.
  rewrite Forall_forall. split; intros [? H]; (split; [done|]);
    intros x Hx; apply H; by apply list_elem_of_In.
Qed.

Lemma json_load_extends_from h items d :
  ∃ ext, (load_pairs json_load items d h).2 = h ++ ext.
Proof.
  apply load_pairs_extends, Forall_forall. intros kj _ h'.
  apply json_load_extends.
Qed.

(** What [load_pairs] builds from members with distinct names, none of
    them in the dict so far: one entry per member, in order, each value
    encoding back to its member. *)
Lemma load_pairs_dump items :
  Forall (λ kj, ∀ h, ∃ n, ∀ ext ms,
            (∀ m, m ∈ ms → m < length h ∨ length (json_load kj.2 h).2 ≤ m) →
            dump_val n ((json_load kj.2 h).2 ++ ext) ms (json_load kj.2 h).1
            = Ok kj.2) items →
  NoDup items.*1 →
  ∀ d0 h, (∀ k, k ∈ items.*1 → dict_get k d0 = None) →
  ∃ vs n,
    (load_pairs json_load items d0 h).1 = d0 ++ vs ∧
    length h ≤ length (load_pairs json_load items d0 h).2 ∧
    ∀ ext ms,
      (∀ m, m ∈ ms →
            m < length h ∨ length (load_pairs json_load items d0 h).2 ≤ m) →
      Forall2 (λ kv kj,
                 kv.1 = kj.1 ∧
                 dump_val n ((load_pairs json_load items d0 h).2 ++ ext) ms kv.2
                 = Ok kj.2) vs items.
Proof.
  induction 1 as [|[k jv] r Hjv _ IH]; intros Hnd d0 h Hfresh.
  - exists [], 0. simpl. rewrite app_nil_r. split_and!; [done..|].
    intros. constructor.
  - simpl in Hnd. apply NoDup_cons in Hnd as [Hk Hnd]. simpl in Hjv.
    destruct (Hjv h) as [n0 Hn0].
    destruct (json_load_extends jv h) as [e1 He1].
    simpl. destruct (json_load jv h) as [v h'] eqn:Hload. simpl in *.
    subst h'.
    assert (Hset : dict_set k v d0 = d0 ++ [(k, v)]).
    { apply dict_set_new, Hfresh. by left. }
    destruct (IH Hnd (dict_set k v d0) (h ++ e1)) as (vs & n1 & Hd & Hlen & Hvs).
    { intros k' Hk'. rewrite dict_get_set_ne by (by intros ->).
      apply Hfresh. by right. }
    set (res := load_pairs json_load r (dict_set k v d0) (h ++ e1)) in *.
    rewrite length_app in Hlen.
    exists ((k, v) :: vs), (n0 `max` n1). split_and!.
    + rewrite Hd, Hset. by rewrite <-(assoc_L (++)).
    + lia.
    + intros ext ms Hms. constructor.
      * split; [done|]. simpl.
        destruct (json_load_extends_from (h ++ e1) r (dict_set k v d0))
          as [e2 He2].
        fold res in He2. rewrite He2, <-(assoc_L (++)).
        eapply dump_val_mono; [|apply Hn0]; [lia|].
        intros m Hm. destruct (Hms m Hm) as [?|Hge]; [by left|right].
        rewrite He2, !length_app in Hge. rewrite length_app. lia.
      * eapply Forall2_impl; [apply (Hvs ext ms)|].
        -- intros m Hm. destruct (Hms m Hm) as [?|?]; [left|by right].
           rewrite length_app. lia.
        -- intros kv kj [? Hkv]. split; [done|].
           eapply dump_val_mono; [|exact Hkv]. lia.
Qed.

Lemma json_load_dump_framed j :
  unique_keys j = true →
  ∀ h, ∃ n, ∀ ext ms,
    (∀ m, m ∈ ms → m < length h ∨ length (json_load j h).2 ≤ m) →
    dump_val n ((json_load j h).2 ++ ext) ms (json_load j h).1 = Ok j.
Proof.
  induction j as [|b|z|s|items IH] using json_nested_ind; intros Hu h;
    try (exists 0; by intros).
  apply unique_keys_obj in Hu as [Hnd Hall].
  assert (HF : Forall (λ kj, ∀ h, ∃ n, ∀ ext ms,
            (∀ m, m ∈ ms → m < length h ∨ length (json_load kj.2 h).2 ≤ m) →
            dump_val n ((json_load kj.2 h).2 ++ ext) ms (json_load kj.2 h).1
            = Ok kj.2) items).
  { rewrite Forall_forall in IH, Hall. apply Forall_forall.
    intros kj Hkj. by apply IH, Hall. }
  destruct (load_pairs_dump items HF Hnd [] h) as (vs & n & Hd & Hlen & Hvs);
    [done|].
  simpl json_load.
  destruct (load_pairs json_load items [] h) as [d h1] eqn:E. simpl in *.
  subst d. exists (S n). intros ext ms Hms. rewrite length_app in Hms.
  simpl in Hms.
  apply (dump_val_dict _ _ _ _ vs).
  - intros Hin. destruct (Hms _ Hin); lia.
  - rewrite <-(assoc_L (++)). by rewrite lookup_app_r, Nat.sub_diag.
  - apply dump_items_ok. rewrite <-(assoc_L (++)). apply Hvs.
    intros m [->|Hm]%elem_of_cons; [right; lia|].
    destruct (Hms m Hm); [left|right]; lia.
Qed.

(** Decoding a JSON value of the model in which no object repeats a name,
    and encoding the result again, gives the value back. *)
Lemma json_load_dump j h :
  unique_keys j = true → dump (json_load j h).2 (json_load j h).1 = Ok j.
Proof.
  intros Hu. destruct (json_load_dump_framed j Hu h) as [n Hn].
  apply (dump_any_fuel n).
  rewrite <-(app_nil_r (json_load j h).2).
  apply Hn. by intros m ?%elem_of_nil.
Qed.

Lemma dump_items_keys f (d : pydict value) js :
  dump_items f d = Ok js → js.*1 = d.*1.
Proof.
  intros H%dump_items_ok. induction H as [|kv kj d js [Hk _] _ IH]; [done|].
  rewrite !fmap_cons. by rewrite Hk, IH.
Qed.

(** What the encoder writes never repeats a name inside an object. *)
Lemma dump_val_unique_keys n h ms v j :
  dicts_ok h → dump_val n h ms v = Ok j → unique_keys j = true.
Proof.
  intros Hok. revert ms v j. induction n as [|n IH]; intros ms v j Hj.
  - destruct v; try done; by injection Hj as <-.
  - destruct v as [| | | |l]; try (by injection Hj as <-).
    apply dump_val_dict_inv in Hj as (n' & d & js & [= <-] & _ & Hd & Hjs & ->).
    apply unique_keys_obj. split.
    + rewrite (dump_items_keys _ _ _ Hjs).
      unfold dicts_ok in Hok. rewrite Forall_lookup in Hok. by eapply Hok.
    + apply dump_items_ok in Hjs. clear Hd.
      induction Hjs as [|kv kj ? ? [_ Hkv] _ IH']; constructor; eauto.
Qed.

(** ** load *)

Lemma backfill_noop self c d items adds w :
  cfgs w !! self = Some c → heap w !! opts c = Some d →
  (∀ k, k ∈ items.*1 → is_Some (dict_get k d)) →
  JsonConfig.backfill self items adds w = (Ok adds, w).
Proof.
  intros Hc Hd. induction items as [|[k v] r IH]; intros Hall; [done|].
  simpl. rewrite (bind_ok _ _ _ _ _ (get_cfg_ok _ _ _ Hc)).
  rewrite (bind_ok _ _ _ _ _ (contains_ok _ _ k _ Hd)).
  assert (Hk : dict_mem k d = true).
  { apply dict_mem_true, Hall. by left. }
  rewrite Hk. apply IH. intros k' Hk'. apply Hall. by right.
Qed.

Lemma load_ok i c fl items w :
  cfgs w !! i = Some c →
  fs w !! path c = Some fl → f_content fl = Text (JObj items) →
  unique_keys (JObj items) = true → template_within c w items.*1 →
  ∃ w' c',
    JsonConfig.load i w = (Ok tt, w') ∧
    doc_json w' i = Some (JObj items) ∧
    fs w' = fs w ∧ clock w' = clock w ∧
    cfgs w' !! i = Some c' ∧ last_readwrite_date c' = Some (clock w) ∧
    path c' = path c ∧ template c' = template c ∧
    check_date c' = check_date c ∧ length (heap w) ≤ opts c'.
Proof.
  intros Hc Hf Hcont Hu Htpl.
  destruct (loaded_obj items (heap w))
    as (d0 & hp & Hload & _ & [ext ->] & Hkeys).
  pose proof (json_load_dump (JObj items) (heap w) Hu) as Hdump.
  rewrite Hload in Hdump. simpl fst in Hdump. simpl snd in Hdump.
  set (ha := (heap w ++ ext) ++ [d0]) in *.
  set (l := length ha).
  set (c4 := mkJsonConfig l (path c) (template c) (check_date c)
                          (Some (clock w))).
  set (w4 := with_cfgs (<[i := c4]> (cfgs w)) (with_heap (ha ++ [d0]) w)).
  assert (Hilt : i < length (cfgs w)) by by eapply lookup_lt_Some.
  assert (Hc4 : cfgs w4 !! i = Some c4) by by apply list_lookup_insert_eq.
  assert (Hl4 : heap w4 !! opts c4 = Some d0).
  { simpl. by rewrite lookup_app_r, Nat.sub_diag. }
  assert (Hpre : JsonConfig.load i w
    = (match template c with
       | VNone => ret tt
       | t => items <- items_of t ;;
              additions <- JsonConfig.backfill i items false ;;
              if additions then JsonConfig.write i else ret tt
       end) w4).
  { unfold JsonConfig.load.
    rewrite (bind_ok _ _ _ _ _ (get_cfg_ok _ _ _ Hc)).
    unfold bind at 1, gets at 1. rewrite Hf, Hcont.
    unfold bind at 1. rewrite Hload. fold ha.
    set (w1 := with_heap ha w).
    assert (Ha1 : heap w1 !! length (heap w ++ ext) = Some d0).
    { simpl. subst ha. by rewrite lookup_app_r, Nat.sub_diag. }
    rewrite (bind_ok _ _ _ _ _ (dict_copy_ok _ _ _ Ha1)).
    change (length (heap w1)) with l.
    unfold JsonConfig.set_opts, JsonConfig.update_last_date.
    unfold bind at 1. unfold bind at 1, get_cfg at 1. simpl cfgs. rewrite Hc.
    unfold put_cfg, modify. unfold bind at 1. unfold bind at 1, get_cfg at 1.
    simpl cfgs. rewrite list_lookup_insert_eq by done.
    unfold bind at 1, gets at 1. simpl.
    rewrite list_insert_insert_eq. done. }
  assert (Hdoc : doc_json w4 i = Some (JObj items)).
  { unfold doc_json. rewrite Hc4. simpl.
    rewrite (dump_copy ha (length (heap w ++ ext)) d0 (JObj items) [d0] l);
      [done| |done| |done].
    - unfold ha. by rewrite lookup_app_r, Nat.sub_diag.
    - by rewrite lookup_app_r, Nat.sub_diag. }
  assert (Hfresh : length (heap w) ≤ opts c4).
  { simpl. unfold l, ha. rewrite !length_app. lia. }
  exists w4, c4. rewrite Hpre.
  split_and!; try done.
  unfold template_within in Htpl.
  destruct (template c) as [| | | |t] eqn:Ht; try done.
  destruct Htpl as (tm & Htm & Hsub).
  assert (Ht4 : heap w4 !! t = Some tm).
  { simpl. unfold ha. rewrite <-!(assoc_L (++)). by apply lookup_app_l_Some. }
  unfold items_of. rewrite (bind_ok _ _ _ _ _ (deref_ok _ _ _ Ht4)).
  assert (Hall : ∀ k, k ∈ tm.*1 → is_Some (dict_get k d0)).
  { intros k Hk. apply Hkeys, Hsub. exact Hk. }
  by rewrite (bind_ok _ _ _ _ _ (backfill_noop i c4 d0 tm false w4 Hc4 Hl4 Hall)).
Qed.

(** X11: [load] on a file whose JSON object repeats no name and lacks no key
    of the template: the document then holds exactly what the file
    holds, in a dict of its own, and the file is not written. *)
Theorem X11_load_reads_file i c fl items w :
  cfgs w !! i = Some c →
  fs w !! path c = Some fl → f_content fl = Text (JObj items) →
  unique_keys (JObj items) = true → template_within c w items.*1 →
  ∃ w' c',
    JsonConfig.load i w = (Ok tt, w') ∧
    doc_json w' i = Some (JObj items) ∧
    fs w' = fs w ∧
    cfgs w' !! i = Some c' ∧ last_readwrite_date c' = Some (clock w) ∧
    length (heap w) ≤ opts c'.
Proof.
  intros Hc Hf Hcont Hu Htpl.
  destruct (load_ok i c fl items w Hc Hf Hcont Hu Htpl)
    as (w' & c' & ? & ? & ? & ? & ? & ? & ? & ? & ? & ?).
  by exists w', c'.
Qed.

(** X12: [write] then [load]: a document whose dicts hold one entry per key,
    and that has every key of its template, reads back what it wrote. *)
Theorem X12_write_then_load i c d j w :
  cfgs w !! i = Some c → heap w !! opts c = Some d → unmodified c w →
  dicts_ok (heap w) → dump (heap w) (VDict (opts c)) = Ok j →
  template_within c w (dict_keys d) →
  ∃ w1 w2,
    JsonConfig.write i w = (Ok tt, w1) ∧
    JsonConfig.load i w1 = (Ok tt, w2) ∧
    doc_json w2 i = Some j ∧ file_json w2 (path c) = Some j.
Proof.
  intros Hc Hd Hu Hok Hj Htpl.
  assert (Hi : i < length (cfgs w)) by by eapply lookup_lt_Some.
  pose proof (dump_val_unique_keys _ _ _ _ _ Hok Hj) as Huniq.
  destruct (dump_root_inv _ _ _ _ Hd Hj) as (js & Hjs & ->).
  set (w1 := after_write i c (JObj js) w).
  assert (Hc1 : cfgs w1 !! i = Some (written c (clock w))).
  { simpl. by apply list_lookup_insert_eq. }
  assert (Hf1 : fs w1 !! path (written c (clock w))
                = Some (mkFile (Text (JObj js)) (clock w))).
  { simpl. by rewrite lookup_insert_eq. }
  destruct (load_ok i _ _ js w1 Hc1 Hf1 eq_refl Huniq)
    as (w2 & c2 & Hload & Hdoc & Hfs & _).
  { rewrite (dump_items_keys _ _ _ Hjs). exact Htpl. }
  exists w1, w2. split_and!; [by apply write_ok|done..|].
  unfold file_json. rewrite Hfs. simpl. by rewrite lookup_insert_eq.
Qed.

(** ** create *)

Lemma new_unfold p t cd w :
  fs w !! p = None →
  JsonConfig.new p t cd w
  = (JsonConfig.create (length (cfgs w)) ;; ret (length (cfgs w)))
      (with_cfgs (cfgs w ++ [mkJsonConfig (length (heap w)) p t cd None])
         (with_heap (heap w ++ [[]]) w)).
Proof.
  intros Hf. unfold JsonConfig.new.
  rewrite (bind_ok _ _ _ _ _ (eq_refl : alloc [] w = (Ok _, _))).
  unfold bind at 1. simpl length.
  set (w1 := with_cfgs _ _).
  assert (Hc1 : cfgs w1 !! length (cfgs w)
                = Some (mkJsonConfig (length (heap w)) p t cd None)).
  { simpl. by rewrite lookup_app_r, Nat.sub_diag. }
  unfold JsonConfig.init.
  unfold bind at 1. rewrite (bind_ok _ _ _ _ _ (get_cfg_ok _ _ _ Hc1)).
  unfold bind at 1, gets at 1.
  change (fs w1 !! path _) with (fs w !! p). by rewrite Hf.
Qed.

Lemma insert_last {A} (l : list A) (x y : A) :
  <[length l := y]> (l ++ [x]) = l ++ [y].
Proof.
  rewrite insert_app_r_alt by lia. by rewrite Nat.sub_diag.
Qed.

(** [JsonConfig(p, None, cd)] where there is no file. *)
Lemma new_plain_ok p cd w :
  fs w !! p = None →
  ∃ w',
    JsonConfig.new p VNone cd w = (Ok (length (cfgs w)), w') ∧
    heap w' = heap w ++ [[]] ∧
    cfgs w' = cfgs w ++ [mkJsonConfig (length (heap w)) p VNone cd
                                      (Some (clock w))] ∧
    fs w' = <[p := mkFile (Text (JObj [])) (clock w)]> (fs w) ∧
    subs w' = subs w ∧ dbs w' = dbs w ∧ clock w' = clock w.
Proof.
  intros Hf. set (self := length (cfgs w)).
  rewrite (new_unfold _ _ _ _ Hf). fold self.
  set (c0 := mkJsonConfig (length (heap w)) p VNone cd None).
  set (w1 := with_cfgs _ _).
  assert (Hc1 : cfgs w1 !! self = Some c0).
  { simpl. by rewrite lookup_app_r, Nat.sub_diag. }
  assert (Hu1 : unmodified c0 w1).
  { intros _ f. simpl. by rewrite Hf. }
  assert (Hj1 : dump (heap w1) (VDict (opts c0)) = Ok (JObj [])).
  { apply dump_empty. simpl. by rewrite lookup_app_r, Nat.sub_diag. }
  exists (after_write self c0 (JObj []) w1). split_and!; try done.
  - unfold JsonConfig.create.
    unfold bind at 1. rewrite (bind_ok _ _ _ _ _ (get_cfg_ok _ _ _ Hc1)).
    simpl template. unfold bind at 1. simpl.
    by rewrite (write_ok self c0 (JObj []) w1 Hc1 Hu1 Hj1).
  - simpl. unfold self. by rewrite insert_last.
Qed.

(** [JsonConfig(p, t, cd)] for a dict [t], where there is no file. *)
Lemma new_template_ok p t tm cd j w :
  fs w !! p = None →
  heap w !! t = Some tm → dump (heap w) (VDict t) = Ok j →
  ∃ w',
    JsonConfig.new p (VDict t) cd w = (Ok (length (cfgs w)), w') ∧
    heap w' = heap w ++ [[]; tm] ∧
    cfgs w' = cfgs w ++ [mkJsonConfig (S (length (heap w))) p (VDict t) cd
                                      (Some (clock w))] ∧
    fs w' = <[p := mkFile (Text j) (clock w)]> (fs w) ∧
    subs w' = subs w ∧ dbs w' = dbs w ∧ clock w' = clock w.
Proof.
  intros Hf Ht Hj. set (self := length (cfgs w)).
  rewrite (new_unfold _ _ _ _ Hf). fold self.
  set (c0 := mkJsonConfig (length (heap w)) p (VDict t) cd None).
  set (w1 := with_cfgs _ _).
  assert (Hc1 : cfgs w1 !! self = Some c0).
  { simpl. by rewrite lookup_app_r, Nat.sub_diag. }
  assert (Ht1 : heap w1 !! t = Some tm).
  { simpl. by apply lookup_app_l_Some. }
  set (c2 := mkJsonConfig (S (length (heap w))) p (VDict t) cd None).
  set (w2 := with_cfgs (<[self := c2]> (cfgs w1))
               (with_heap (heap w1 ++ [tm]) w1)).
  assert (Hself : self < length (cfgs w1)).
  { simpl. rewrite length_app. simpl. unfold self. lia. }
  assert (Hc2 : cfgs w2 !! self = Some c2).
  { simpl. by apply list_lookup_insert_eq. }
  assert (Hu2 : unmodified c2 w2).
  { intros _ f. simpl. by rewrite Hf. }
  assert (Hh2 : heap w2 = heap w ++ [[]; tm]).
  { simpl. by rewrite <-(assoc_L (++)). }
  assert (Hj2 : dump (heap w2) (VDict (opts c2)) = Ok j).
  { rewrite Hh2. apply (dump_copy _ t tm); [done..| |simpl; lia].
    simpl. rewrite lookup_app_r by lia.
    by replace (S (length (heap w)) - length (heap w)) with 1 by lia. }
  exists (after_write self c2 j w2). split_and!; try done.
  - unfold JsonConfig.create.
    unfold bind at 1. rewrite (bind_ok _ _ _ _ _ (get_cfg_ok _ _ _ Hc1)).
    simpl template. unfold bind at 1.
    rewrite (bind_ok _ _ _ _ _ (dict_copy_ok _ _ _ Ht1)).
    unfold JsonConfig.set_opts.
    rewrite (bind_ok _ _ _ _ _ (get_cfg_ok _ _ _
               (Hc1 : cfgs (with_heap (heap w1 ++ [tm]) w1) !! self = _))).
    unfold put_cfg, modify.
    replace (length (heap w1)) with (S (length (heap w)))
      by (simpl; rewrite length_app; simpl; lia).
    simpl path. simpl template. simpl check_date.
    simpl last_readwrite_date. fold c2.
    change (with_cfgs _ (with_heap (heap w1 ++ [tm]) w1)) with w2.
    by rewrite (write_ok self c2 j w2 Hc2 Hu2 Hj2).
  - simpl. unfold self. by rewrite !insert_last.
Qed.

(** X13: a document made where there is no file yet.  Without a template it
    is empty and its file holds {}.  With a dict as template it holds the
    entries of the template in a dict of its own, and its file holds the
    JSON of the template; the template itself is untouched. *)
Theorem X13_new_document_without_file p cd w :
  fs w !! p = None →
  let self := length (cfgs w) in
  (∃ w',
     JsonConfig.new p VNone cd w = (Ok self, w') ∧
     doc_opts w' self = Some [] ∧
     file_json w' p = Some (JObj []) ∧
     cfgs w' !! self
     = Some (mkJsonConfig (length (heap w)) p VNone cd (Some (clock w)))) ∧
  (∀ t tm j,
     heap w !! t = Some tm → dump (heap w) (VDict t) = Ok j →
     ∃ w',
       JsonConfig.new p (VDict t) cd w = (Ok self, w') ∧
       doc_opts w' self = Some tm ∧
       file_json w' p = Some j ∧
       heap w' = heap w ++ [[]; tm] ∧
       cfgs w' !! self
       = Some (mkJsonConfig (S (length (heap w))) p (VDict t) cd
                            (Some (clock w)))).
Proof.
  intros Hf self. split.
  - destruct (new_plain_ok p cd w Hf) as (w' & Hrun & Hh & Hc & Hfs & _).
    assert (Hself : cfgs w' !! self = Some (mkJsonConfig (length (heap w)) p
                                              VNone cd (Some (clock w)))).
    { rewrite Hc. by rewrite lookup_app_r, Nat.sub_diag. }
    exists w'. split_and!; [done| | |done].
    + unfold doc_opts. rewrite Hself. simpl. rewrite Hh.
      by rewrite lookup_app_r, Nat.sub_diag.
    + unfold file_json. rewrite Hfs. by rewrite lookup_insert_eq.
  - intros t tm j Ht Hj.
    destruct (new_template_ok p t tm cd j w Hf Ht Hj)
      as (w' & Hrun & Hh & Hc & Hfs & _).
    assert (Hself : cfgs w' !! self
                    = Some (mkJsonConfig (S (length (heap w))) p (VDict t) cd
                                         (Some (clock w)))).
    { rewrite Hc. by rewrite lookup_app_r, Nat.sub_diag. }
    exists w'. split_and!; [done| | |done|done].
    + unfold doc_opts. rewrite Hself. simpl. rewrite Hh.
      rewrite lookup_app_r by lia.
      by replace (S (length (heap w)) - length (heap w)) with 1 by lia.
    + unfold file_json. rewrite Hfs. by rewrite lookup_insert_eq.
Qed.

(** ** JsonConfigDB *)

(** X14: documents are kept per [str(id)]: once [get_config] has returned a
    document, asking again, with the id as an int or as a string, gives
    the same document and changes nothing. *)
Theorem X14_get_config_cached self cid w c w' :
  JsonConfigDB.get_config self cid w = (Ok c, w') →
  ∀ cid', str cid' = str cid →
    JsonConfigDB.get_config self cid' w' = (Ok c, w').
Proof.
  intros (d & Hd & Hc)%get_config_inv cid' Hstr.
  apply (get_config_present self cid' w' d c Hd). by rewrite Hstr.
Qed.

Lemma get_config_run self d cid t c w w1 :
  dbs w !! self = Some d →
  dict_get (str cid) (db d) = None →
  JsonConfigDB.get_template self (CStr (str cid)) w = (Ok t, w1) →
  dbs w1 = dbs w →
  ∀ w2,
    JsonConfig.new (db_path d +:+ "/" +:+ str cid +:+ ".json") t false w1
    = (Ok c, w2) →
    dbs w2 = dbs w →
    JsonConfigDB.get_config self cid w
    = (Ok c,
       with_dbs (<[self := mkJsonConfigDB (db_path d)
                             (dict_set (str cid) c (db d))
                             (db_template d) (unique_template d)]> (dbs w))
                w2).
Proof.
  intros Hd Hk Ht Hd1 w2 Hnew Hd2.
  assert (Hself : self < length (dbs w)) by by eapply lookup_lt_Some.
  unfold JsonConfigDB.get_config.
  rewrite (bind_ok _ _ _ _ _ (get_db_ok _ _ _ Hd)).
  apply dict_mem_false in Hk as Hmem. rewrite Hmem.
  unfold JsonConfigDB.create_config. simpl str.
  unfold bind at 1. unfold bind at 1. rewrite Ht.
  assert (Hdb1 : dbs w1 !! self = Some d) by by rewrite Hd1.
  unfold JsonConfigDB.cfg_loc.
  unfold bind at 1. rewrite (bind_ok _ _ _ _ _ (get_db_ok _ _ _ Hdb1)).
  unfold ret at 1. unfold bind at 1. rewrite Hnew.
  assert (Hdb2 : dbs w2 !! self = Some d) by by rewrite Hd2.
  rewrite (bind_ok _ _ _ _ _ (get_db_ok _ _ _ Hdb2)).
  unfold put_db, modify. rewrite Hd2.
  set (w3 := with_dbs _ w2).
  assert (Hdb3 : dbs w3 !! self
                 = Some (mkJsonConfigDB (db_path d)
                           (dict_set (str cid) c (db d))
                           (db_template d) (unique_template d))).
  { simpl. by apply list_lookup_insert_eq. }
  rewrite (bind_ok _ _ _ _ _ (get_db_ok _ _ _ Hdb3)).
  cbn [db]. by rewrite dict_get_set_eq.
Qed.


(** X16: a store with [unique_template], and an id whose [str] holds no
    path separator.  If the template does not name the id, it gets a
    document that is empty, with an empty dict of its own as template,
    and a file that holds {}.  If the template names it, it gets the
    entries of [template[id]].  Without a template at all, [get_config]
    raises TypeError and registers nothing. *)
Theorem X16_unique_template_documents self d cid w :
  plain_id cid →
  dbs w !! self = Some d → unique_template d = true →
  dict_get (str cid) (db d) = None →
  let p := db_path d +:+ "/" +:+ str cid +:+ ".json" in
  fs w !! p = None →
  let c := length (cfgs w) in
  (∀ t tm,
     db_template d = VDict t → heap w !! t = Some tm →
     dict_get (str cid) tm = None →
     ∃ w',
       JsonConfigDB.get_config self cid w = (Ok c, w') ∧
       doc_opts w' c = Some [] ∧ file_json w' p = Some (JObj []) ∧
       (∃ cc, cfgs w' !! c = Some cc ∧
              template cc = VDict (length (heap w))) ∧
       heap w' !! length (heap w) = Some [] ∧
       heap w' !! t = Some tm) ∧
  (∀ t tm l tl j,
     db_template d = VDict t → heap w !! t = Some tm →
     dict_get (str cid) tm = Some (VDict l) →
     heap w !! l = Some tl → dump (heap w) (VDict l) = Ok j →
     ∃ w',
       JsonConfigDB.get_config self cid w = (Ok c, w') ∧
       doc_opts w' c = Some tl ∧ file_json w' p = Some j) ∧
  (db_template d = VNone →
   JsonConfigDB.get_config self cid w = (Raise TypeError, w)).
Proof.
  intros _ Hd Hu Hk p Hf c.
  assert (Hself : self < length (dbs w)) by by eapply lookup_lt_Some.
  split_and!.
  - intros t tm Ht Htm Hnone.
    set (w1 := with_heap (heap w ++ [[]]) w).
    assert (Htpl : JsonConfigDB.get_template self (CStr (str cid)) w
                   = (Ok (VDict (length (heap w))), w1)).
    { unfold JsonConfigDB.get_template.
      rewrite (bind_ok _ _ _ _ _ (get_db_ok _ _ _ Hd)). rewrite Hu, Ht.
      simpl str. rewrite (bind_ok _ _ _ _ _ (contains_ok _ _ (str cid) _ Htm)).
      apply dict_mem_false in Hnone. by rewrite Hnone. }
    assert (He : heap w1 !! length (heap w) = Some []).
    { simpl. by rewrite lookup_app_r, Nat.sub_diag. }
    destruct (new_template_ok p (length (heap w)) [] false (JObj []) w1 Hf He)
      as (w2 & Hnew & Hh2 & Hc2 & Hf2 & Hs2 & Hd2 & Hcl2).
    { by apply dump_empty. }
    eexists. split.
    { by apply (get_config_run self d cid _ c w w1 Hd Hk Htpl eq_refl w2). }
    assert (Hcc : cfgs w2 !! c
                  = Some (mkJsonConfig (S (length (heap w1))) p
                            (VDict (length (heap w))) false (Some (clock w1)))).
    { rewrite Hc2. simpl cfgs. by rewrite lookup_app_r, Nat.sub_diag. }
    split_and!.
    + eapply doc_opts_intro; [exact Hcc|].
      simpl. rewrite Hh2. apply lookup_snd.
    + eapply file_json_intro. simpl. rewrite Hf2. apply lookup_insert_eq.
    + eexists. split; [exact Hcc|done].
    + simpl. rewrite Hh2. by apply lookup_app_l_Some.
    + simpl. rewrite Hh2. simpl. rewrite <-(assoc_L (++)).
      by apply lookup_app_l_Some.
  - intros t tm l tl j Ht Htm Hsome Htl Hj.
    assert (Htpl : JsonConfigDB.get_template self (CStr (str cid)) w
                   = (Ok (VDict l), w)).
    { unfold JsonConfigDB.get_template.
      rewrite (bind_ok _ _ _ _ _ (get_db_ok _ _ _ Hd)). rewrite Hu, Ht.
      simpl str. rewrite (bind_ok _ _ _ _ _ (contains_ok _ _ (str cid) _ Htm)).
      assert (Hmem : dict_mem (str cid) tm = true)
        by (apply dict_mem_true; by eexists).
      rewrite Hmem. by eapply getitem_ok. }
    destruct (new_template_ok p l tl false j w Hf Htl Hj)
      as (w2 & Hnew & Hh2 & Hc2 & Hf2 & Hs2 & Hd2 & Hcl2).
    eexists. split.
    { by apply (get_config_run self d cid _ c w w Hd Hk Htpl eq_refl w2). }
    split.
    + eapply doc_opts_intro.
      * simpl. rewrite Hc2. by rewrite lookup_app_r, Nat.sub_diag.
      * simpl. rewrite Hh2. apply lookup_snd.
    + eapply file_json_intro. simpl. rewrite Hf2. apply lookup_insert_eq.
  - intros Ht. unfold JsonConfigDB.get_config.
    rewrite (bind_ok _ _ _ _ _ (get_db_ok _ _ _ Hd)).
    apply dict_mem_false in Hk as Hmem. rewrite Hmem.
    unfold JsonConfigDB.create_config, JsonConfigDB.get_template.
    unfold bind at 1. unfold bind at 1. unfold bind at 1.
    rewrite (get_db_ok _ _ _ Hd). by rewrite Hu, Ht.
Qed.

(** ** write_db *)

Lemma dict_get_elem {V} k (v : V) (d : pydict V) :
  dict_get k d = Some v → (k, v) ∈ d.
Proof.
  induction d as [|[k' v'] d IH]; simpl; [done|].
  destruct (decide (k = k')) as [->|?].
  - intros [= ->]. by left.
  - intros H. right. by apply IH.
Qed.

Lemma synced_frame i c w w' :
  cfgs w !! i = Some c →
  heap w' = heap w → clock w' = clock w →
  cfgs w' !! i = Some c → fs w' !! path c = fs w !! path c →
  synced i w → synced i w'.
Proof.
  intros Hc Hh Hcl Hc' Hf (c0 & j & Hc0 & Hfile & Hdoc & Hdate).
  rewrite Hc in Hc0. injection Hc0 as <-.
  exists c, j. split_and!; [done| | |by rewrite Hcl].
  - unfold file_json in *. by rewrite Hf.
  - unfold doc_json in *. rewrite Hc in Hdoc. by rewrite Hc', Hh.
Qed.

(** Writing a list of documents whose files are all different. *)
Lemma write_all_ok cs : ∀ ccs w,
  Forall2 (λ c cc, cfgs w !! c = Some cc ∧ unmodified cc w ∧
                   serialisable (heap w) (VDict (opts cc))) cs ccs →
  NoDup (path <$> ccs) →
  ∃ w',
    for_each cs JsonConfig.write w = (Ok tt, w') ∧
    same_objects w w' ∧
    (∀ c, c ∈ cs → synced c w') ∧
    (∀ i, i ∉ cs → cfgs w' !! i = cfgs w !! i) ∧
    (∀ p, p ∉ path <$> ccs → fs w' !! p = fs w !! p).
Proof.
  induction cs as [|c cs IH]; intros ccs w Hall Hnd.
  - apply Forall2_nil_inv_l in Hall as ->. exists w.
    split; [done|]. split; [apply same_objects_refl|].
    split; [|done]. by intros c ?%elem_of_nil.
  - apply Forall2_cons_inv_l in Hall as (cc & ccs' & (Hc & Hu & [j Hj]) & Hall & ->).
    rewrite fmap_cons in Hnd. apply NoDup_cons in Hnd as [Hp Hnd].
    assert (Hi : c < length (cfgs w)) by by eapply lookup_lt_Some.
    set (w1 := after_write c cc j w).
    assert (Hnotin : c ∉ cs).
    { intros Hin.
      destruct (list_elem_of_lookup_1 _ _ Hin) as [n Hn].
      destruct (Forall2_lookup_l _ _ _ _ _ Hall Hn) as (cc' & Hn' & Hc' & _).
      rewrite Hc in Hc'. injection Hc' as <-.
      apply Hp. apply list_elem_of_fmap. exists cc. split; [done|].
      by eapply list_elem_of_lookup_2. }
    destruct (IH ccs' w1) as (w' & Hrun & Hsame & Hsync & Hcfg & Hfs).
    { apply Forall2_same_length_lookup.
      apply Forall2_same_length_lookup in Hall as [Hlen Hall].
      split; [done|].
      intros n c' cc' Hn Hn'.
      destruct (Hall n c' cc' Hn Hn') as (Hc' & Hu' & Hser').
      assert (Hin : c' ∈ cs) by by eapply list_elem_of_lookup_2.
      assert (Hin' : cc' ∈ ccs') by by eapply list_elem_of_lookup_2.
      split_and!.
      - simpl. rewrite list_lookup_insert_ne; [done|]. by intros <-.
      - intros Hcd f. simpl. rewrite lookup_insert_ne.
        + by apply Hu'.
        + intros Heq. apply Hp. rewrite Heq.
          by apply list_elem_of_fmap_2.
      - done. }
    { done. }
    exists w'. split; [|split; [|split; [|split]]].
    + simpl. by rewrite (bind_ok _ _ _ _ _ (write_ok c cc j w Hc Hu Hj)).
    + eapply same_objects_trans; [|exact Hsame].
      by apply same_objects_after_write.
    + intros c' [->|Hin]%elem_of_cons; [|by apply Hsync].
      assert (Hc1 : cfgs w1 !! c = Some (written cc (clock w))).
      { simpl. by apply list_lookup_insert_eq. }
      destruct Hsame as (Hh & _ & _ & Hcl & _).
      apply (synced_frame c (written cc (clock w)) w1 w'); try done.
      * by rewrite Hcfg.
      * simpl. by apply Hfs.
      * eapply write_synced. by apply write_ok.
    + intros i Hi'. apply not_elem_of_cons in Hi' as [Hne Hi'].
      rewrite (Hcfg i Hi'). simpl. by rewrite list_lookup_insert_ne.
    + intros p Hp'. rewrite fmap_cons in Hp'.
      apply not_elem_of_cons in Hp' as [Hne Hp'].
      rewrite (Hfs p Hp'). simpl. by rewrite lookup_insert_ne.
Qed.

(** X17: [write_db] on a store whose documents can all be written and have
    files of their own: the call returns, and afterwards the file of
    every document of the store holds what that document holds in
    memory.  Nothing but files and dates has changed. *)
Theorem X17_write_db_writes_all self d ccs w :
  dbs w !! self = Some d →
  Forall2 (λ kc cc, cfgs w !! kc.2 = Some cc ∧ unmodified cc w ∧
                    serialisable (heap w) (VDict (opts cc))) (db d) ccs →
  NoDup (path <$> ccs) →
  ∃ w',
    JsonConfigDB.write_db self w = (Ok tt, w') ∧
    same_objects w w' ∧
    ∀ k c, dict_get k (db d) = Some c → synced c w'.
Proof.
  intros Hd Hall Hnd.
  destruct (write_all_ok (db d).*2 ccs w) as (w' & Hrun & Hsame & Hsync & _).
  { by apply Forall2_fmap_l. }
  { done. }
  exists w'. split; [|split; [done|]].
  - unfold JsonConfigDB.write_db.
    by rewrite (bind_ok _ _ _ _ _ (get_db_ok _ _ _ Hd)).
  - intros k c Hk%dict_get_elem. apply Hsync.
    apply list_elem_of_fmap. by exists (k, c).
Qed.

(** ** What the creation of a document leaves alone *)

Lemma touches_only_refl self w : touches_only self w w.
Proof. split_and!; try done. intros c Hc. by exists c. Qed.

Lemma touches_only_eq self w w' :
  dbs w' = dbs w → cfgs w' = cfgs w → touches_only self w w'.
Proof.
  intros Hd Hc. split_and!; try done; try (by rewrite Hc).
  intros c Hc'. exists c. by rewrite Hc.
Qed.

Lemma touches_only_trans self w1 w2 w3 :
  touches_only self w1 w2 → touches_only self w2 w3 →
  touches_only self w1 w3.
Proof.
  intros (Hd1 & Hl1 & Ho1 & Hs1) (Hd2 & Hl2 & Ho2 & Hs2). split_and!.
  - by rewrite Hd2.
  - by rewrite Hl2.
  - intros i Hi. by rewrite Ho2, Ho1.
  - intros c Hc. destruct (Hs1 c Hc) as (c' & Hc' & Hp').
    destruct (Hs2 c' Hc') as (c'' & Hc'' & Hp''). exists c''.
    split; [done|congruence].
Qed.

Lemma touches_only_put self c c' w :
  cfgs w !! self = Some c → path c' = path c →
  touches_only self w (with_cfgs (<[self := c']> (cfgs w)) w).
Proof.
  intros Hc Hp.
  assert (self < length (cfgs w)) by by eapply lookup_lt_Some.
  split_and!; simpl.
  - done.
  - by rewrite length_insert.
  - intros i Hi. by rewrite list_lookup_insert_ne.
  - intros c0 Hc0. rewrite Hc in Hc0. injection Hc0 as <-.
    exists c'. split; [by apply list_lookup_insert_eq|done].
Qed.

Lemma get_cfg_inv i w c w' :
  get_cfg i w = (Ok c, w') → w' = w ∧ cfgs w !! i = Some c.
Proof.
  unfold get_cfg. destruct (cfgs w !! i); [|done]. by intros [= <- <-].
Qed.

Lemma get_db_inv i w d w' :
  get_db i w = (Ok d, w') → w' = w ∧ dbs w !! i = Some d.
Proof.
  unfold get_db. destruct (dbs w !! i); [|done]. by intros [= <- <-].
Qed.

Lemma dict_copy_frame o w l w' :
  dict_copy o w = (Ok l, w') → dbs w' = dbs w ∧ cfgs w' = cfgs w.
Proof.
  unfold dict_copy. destruct o as [| | |s|a]; try done.
  - destruct s; [|done]. by intros [= _ <-].
  - unfold bind, deref, alloc. destruct (heap w !! a); [|done].
    by intros [= _ <-].
Qed.

Lemma write_touches i w w' :
  JsonConfig.write i w = (Ok tt, w') → touches_only i w w'.
Proof.
  intros Hw. apply write_inv in Hw as [_ Hw].
  destruct (Hw eq_refl) as (c & j & Hc & _ & ->).
  unfold after_write.
  apply (touches_only_put i c (written c (clock w))
           (with_fs (<[path c := mkFile (Text j) (clock w)]> (fs w)) w));
    done.
Qed.

Lemma set_opts_touches self l w w' :
  JsonConfig.set_opts self l w = (Ok tt, w') → touches_only self w w'.
Proof.
  intros (c & Hc & ->)%set_opts_inv. by apply (touches_only_put self c).
Qed.

Lemma update_last_date_touches self w w' :
  JsonConfig.update_last_date self w = (Ok tt, w') → touches_only self w w'.
Proof.
  intros (c & Hc & ->)%update_last_date_inv.
  by apply (touches_only_put self c).
Qed.

Lemma backfill_touches self items adds w r w' :
  JsonConfig.backfill self items adds w = (Ok r, w') →
  dbs w' = dbs w ∧ cfgs w' = cfgs w.
Proof.
  revert adds w. induction items as [|[key x] rest IH]; intros adds w; simpl.
  - by intros [= _ <-].
  - intros H. bind_inv H as c w0 Hc. apply get_cfg_inv in Hc as [-> Hc].
    bind_inv H as present w0 Hcont. apply contains_state in Hcont as ->.
    destruct present; [by apply IH in H|].
    bind_inv H as tv w0 Hget. apply getitem_inv in Hget as (-> & _).
    bind_inv H as [] w1 Hset.
    apply setitem_frame in Hset as (_ & Hc1 & _ & _ & Hd1).
    apply IH in H as [-> ->]. done.
Qed.

Lemma load_touches self w w' :
  JsonConfig.load self w = (Ok tt, w') → touches_only self w w'.
Proof.
  unfold JsonConfig.load. intros H.
  bind_inv H as c w0 Hc. apply get_cfg_inv in Hc as [-> Hc].
  unfold bind at 1, gets at 1 in H.
  destruct (fs w !! path c) as [fl|]; [|done].
  destruct (f_content fl) as [j|]; [|done].
  bind_inv H as v0 w1 Hload.
  assert (Ht1 : touches_only self w w1).
  { destruct (json_load j (heap w)). injection Hload as _ <-.
    by apply touches_only_eq. }
  bind_inv H as l w2 Hcopy. apply dict_copy_frame in Hcopy as [Hd2 Hc2].
  assert (Ht2 : touches_only self w w2).
  { eapply touches_only_trans; [exact Ht1|by apply touches_only_eq]. }
  bind_inv H as [] w3 Hset. apply set_opts_touches in Hset.
  bind_inv H as [] w4 Hdate. apply update_last_date_touches in Hdate.
  assert (Ht4 : touches_only self w w4).
  { eapply touches_only_trans; [|exact Hdate].
    eapply touches_only_trans; [exact Ht2|exact Hset]. }
  assert (Hrest : ∀ t,
    (items <- items_of t ;;
     additions <- JsonConfig.backfill self items false ;;
     if additions then JsonConfig.write self else ret tt) w4 = (Ok tt, w') →
    touches_only self w w').
  { intros t Ht. bind_inv Ht as items w5 Hitems.
    assert (w5 = w4) as ->.
    { unfold items_of in Hitems. destruct t as [| | | |a]; try done.
      unfold deref in Hitems. destruct (heap w4 !! a); by injection Hitems. }
    bind_inv Ht as adds w6 Hbf. apply backfill_touches in Hbf as [Hd6 Hc6].
    assert (Ht6 : touches_only self w w6).
    { eapply touches_only_trans; [exact Ht4|by apply touches_only_eq]. }
    destruct adds.
    - eapply touches_only_trans; [exact Ht6|by apply write_touches].
    - by injection Ht as <-. }
  destruct (template c); try (by apply Hrest in H).
  by injection H as <-.
Qed.

Lemma create_touches self w w' :
  JsonConfig.create self w = (Ok tt, w') → touches_only self w w'.
Proof.
  unfold JsonConfig.create. intros H.
  bind_inv H as c w0 Hc. apply get_cfg_inv in Hc as [-> Hc].
  bind_inv H as [] w1 Hseed.
  assert (Ht1 : touches_only self w w1).
  { destruct (template c);
      try (injection Hseed as <-; by apply touches_only_refl);
      bind_inv Hseed as l' w2 Hcopy;
      apply dict_copy_frame in Hcopy as [Hd2 Hc2];
      (eapply touches_only_trans; [by apply touches_only_eq|]);
      by apply set_opts_touches in Hseed. }
  eapply touches_only_trans; [exact Ht1|by apply write_touches].
Qed.

(** [JsonConfig(p, t, cd)] that returns: the new document is the next
    one, it is at [p], and the stores and the other documents are as
    before. *)
Lemma new_inv p t cd w self w' :
  JsonConfig.new p t cd w = (Ok self, w') →
  self = length (cfgs w) ∧ dbs w' = dbs w ∧
  (∀ i ci, cfgs w !! i = Some ci → cfgs w' !! i = Some ci) ∧
  ∃ cc, cfgs w' !! self = Some cc ∧ path cc = p.
Proof.
  unfold JsonConfig.new. intros H.
  bind_inv H as l w1 Hl. injection Hl as <- <-.
  bind_inv H as i w2 Hi. injection Hi as <- <-.
  bind_inv H as [] w3 Hinit. injection H as <- <-.
  set (w2 := with_cfgs _ _) in Hinit.
  assert (Hc2 : cfgs w2 !! length (cfgs w)
                = Some (mkJsonConfig (length (heap w)) p t cd None)).
  { simpl. by rewrite lookup_app_r, Nat.sub_diag. }
  assert (Ht : touches_only (length (cfgs w)) w2 w3).
  { unfold JsonConfig.init in Hinit.
    bind_inv Hinit as c w0 Hc. apply get_cfg_inv in Hc as [-> Hc].
    unfold bind at 1, gets at 1 in Hinit.
    destruct (fs w2 !! path c);
      [by apply load_touches|by apply create_touches]. }
  destruct Ht as (Hd & Hlen & Hother & Hself).
  split_and!; [done|by rewrite Hd| |].
  - intros i ci Hi.
    assert (i < length (cfgs w)) by by eapply lookup_lt_Some.
    rewrite Hother by lia. simpl. by apply lookup_app_l_Some.
  - destruct (Hself _ Hc2) as (c' & Hc' & Hp'). by exists c'.
Qed.

Lemma get_template_frame self cid w t w' :
  JsonConfigDB.get_template self cid w = (Ok t, w') →
  dbs w' = dbs w ∧ cfgs w' = cfgs w.
Proof.
  unfold JsonConfigDB.get_template. intros H.
  bind_inv H as d w0 Hd. apply get_db_inv in Hd as [-> Hd].
  destruct (unique_template d); [|by injection H as _ <-].
  bind_inv H as present w0 Hc. apply contains_state in Hc as ->.
  destruct present.
  - by apply getitem_inv in H as [-> _].
  - bind_inv H as l w1 Hl. injection Hl as <- <-. by injection H as _ <-.
Qed.

(** [create_config] that returns: the store has one more entry, for a
    new document at [<path>/<id>.json]. *)
Lemma create_config_inv self cid w w' :
  JsonConfigDB.create_config self cid w = (Ok tt, w') →
  ∃ d c cc,
    dbs w !! self = Some d ∧ c = length (cfgs w) ∧
    dbs w' = <[self := mkJsonConfigDB (db_path d)
                         (dict_set (str cid) c (db d))
                         (db_template d) (unique_template d)]> (dbs w) ∧
    (∀ i ci, cfgs w !! i = Some ci → cfgs w' !! i = Some ci) ∧
    cfgs w' !! c = Some cc ∧
    path cc = db_path d +:+ "/" +:+ str cid +:+ ".json".
Proof.
  unfold JsonConfigDB.create_config. intros H.
  bind_inv H as t w1 Ht. apply get_template_frame in Ht as [Hd1 Hc1].
  bind_inv H as p w2 Hp. unfold JsonConfigDB.cfg_loc in Hp.
  bind_inv Hp as d w0 Hd. apply get_db_inv in Hd as [-> Hd].
  injection Hp as <- <-.
  bind_inv H as c w3 Hnew.
  apply new_inv in Hnew as (-> & Hd3 & Hold & cc & Hcc & Hpath).
  bind_inv H as d' w0 Hd'. apply get_db_inv in Hd' as [-> Hd'].
  injection H as <-.
  rewrite Hd3 in Hd'. rewrite Hd' in Hd. injection Hd as <-.
  exists d', (length (cfgs w1)), cc. rewrite Hc1 in *. rewrite <-Hd1.
  split_and!; try done.
  simpl. by rewrite Hd3.
Qed.

Lemma has_doc_insert w w' self d k c dbi k0 c0 :
  dbs w !! self = Some d → dict_get k (db d) = None →
  dbs w' = <[self := mkJsonConfigDB (db_path d) (dict_set k c (db d))
                       (db_template d) (unique_template d)]> (dbs w) →
  has_doc w dbi k0 c0 → has_doc w' dbi k0 c0.
Proof.
  intros Hd Hk Hd' (d0 & Hd0 & Hk0).
  assert (self < length (dbs w)) by by eapply lookup_lt_Some.
  unfold has_doc. rewrite Hd'.
  destruct (decide (dbi = self)) as [->|Hne].
  - rewrite Hd in Hd0. injection Hd0 as <-.
    eexists. split; [by apply list_lookup_insert_eq|]. simpl.
    rewrite dict_get_set_ne; [done|]. intros <-. congruence.
  - exists d0. split; [|done]. by rewrite list_lookup_insert_ne.
Qed.

(** [get_config] that returns: the id has its document, and every
    document that a store had is still the document of its id. *)
Lemma get_config_docs self cid w c w' :
  JsonConfigDB.get_config self cid w = (Ok c, w') →
  has_doc w' self (str cid) c ∧
  (∀ dbi k c0, has_doc w dbi k c0 → has_doc w' dbi k c0).
Proof.
  intros H. split.
  { apply get_config_inv in H as (d & Hd & Hk). by exists d. }
  unfold JsonConfigDB.get_config in H.
  bind_inv H as d w0 Hd. apply get_db_inv in Hd as [-> Hd].
  bind_inv H as [] w1 Hstep.
  bind_inv H as d' w0 Hd'. apply get_db_inv in Hd' as [-> Hd'].
  assert (w' = w1) as ->.
  { destruct (dict_get (str cid) (db d')); by injection H as _ <-. }
  destruct (dict_mem (str cid) (db d)) eqn:Hmem.
  - by injection Hstep as <-.
  - apply create_config_inv in Hstep
      as (d0 & c1 & cc & Hd0 & _ & Hdbs & _).
    rewrite Hd in Hd0. injection Hd0 as <-.
    intros dbi k c0. simpl in Hdbs.
    eapply has_doc_insert; [exact Hd| |exact Hdbs].
    by apply dict_mem_false.
Qed.

(** ** load_db *)

Lemma load_db_loop self children : ∀ w d w',
  for_each children (λ cid, JsonConfigDB.create_config self (CStr cid)) w
  = (Ok tt, w') →
  dbs w !! self = Some d →
  (∀ k c, dict_get k (db d) = Some c →
          ∃ cc, cfgs w !! c = Some cc ∧
                path cc = db_path d +:+ "/" +:+ k +:+ ".json") →
  ∃ d',
    dbs w' !! self = Some d' ∧ db_path d' = db_path d ∧
    db_template d' = db_template d ∧ unique_template d' = unique_template d ∧
    (∀ k, is_Some (dict_get k (db d')) ↔
          is_Some (dict_get k (db d)) ∨ k ∈ children) ∧
    (∀ k c, dict_get k (db d') = Some c →
            ∃ cc, cfgs w' !! c = Some cc ∧
                  path cc = db_path d +:+ "/" +:+ k +:+ ".json") ∧
    (∀ dbi, dbi ≠ self → dbs w' !! dbi = dbs w !! dbi).
Proof.
  induction children as [|cid rest IH]; intros w d w' H Hd Hinv.
  - injection H as <-. exists d. split_and!; try done.
    intros k. split; [by left|]. intros [?|?%elem_of_nil]; done.
  - simpl in H. bind_inv H as [] w1 Hstep.
    apply create_config_inv in Hstep
      as (d0 & c & cc & Hd0 & -> & Hdbs & Hold & Hcc & Hpath).
    rewrite Hd in Hd0. injection Hd0 as <-. simpl in Hdbs, Hpath.
    assert (Hself : self < length (dbs w)) by by eapply lookup_lt_Some.
    set (d1 := mkJsonConfigDB (db_path d)
                 (dict_set cid (length (cfgs w)) (db d))
                 (db_template d) (unique_template d)) in *.
    assert (Hd1 : dbs w1 !! self = Some d1).
    { rewrite Hdbs. by apply list_lookup_insert_eq. }
    destruct (IH w1 d1 w' H Hd1) as (d' & Hd' & Hp' & Ht' & Hu' & Hkeys & Hinv' & Hoth).
    { intros k c. unfold d1. simpl.
      destruct (decide (cid = k)) as [->|Hne].
      - rewrite dict_get_set_eq. intros [= <-]. by exists cc.
      - rewrite dict_get_set_ne by done. intros Hk.
        destruct (Hinv k c Hk) as (cc0 & Hcc0 & Hp0).
        exists cc0. split; [by apply Hold|done]. }
    exists d'. split_and!; try done.
    + intros k. rewrite Hkeys. unfold d1. simpl.
      rewrite dict_set_keys, elem_of_cons. tauto.
    + intros dbi Hne. rewrite (Hoth dbi Hne), Hdbs.
      by rewrite list_lookup_insert_ne.
Qed.

(** X18: [load_db] that returns: the store has forgotten what it held and
    has exactly one document per name found in the directory, each at
    [<path>/<name>.json]; the other stores are as before. *)
Theorem X18_load_db_entries self children w w' :
  load_db self children w = (Ok tt, w') →
  ∃ d d',
    dbs w !! self = Some d ∧ dbs w' !! self = Some d' ∧
    db_path d' = db_path d ∧ db_template d' = db_template d ∧
    (∀ k, is_Some (dict_get k (db d')) ↔ k ∈ children) ∧
    (∀ k c, dict_get k (db d') = Some c →
            ∃ cc, cfgs w' !! c = Some cc ∧
                  path cc = db_path d +:+ "/" +:+ k +:+ ".json") ∧
    (∀ dbi, dbi ≠ self → dbs w' !! dbi = dbs w !! dbi).
Proof.
  unfold load_db. intros H.
  bind_inv H as d w0 Hd. apply get_db_inv in Hd as [-> Hd].
  bind_inv H as [] w1 Hput. injection Hput as <-.
  assert (Hself : self < length (dbs w)) by by eapply lookup_lt_Some.
  set (d0 := mkJsonConfigDB (db_path d) [] (db_template d)
                            (unique_template d)) in *.
  set (w1 := with_dbs (<[self := d0]> (dbs w)) w) in *.
  assert (Hd0 : dbs w1 !! self = Some d0).
  { simpl. by apply list_lookup_insert_eq. }
  change (for_each children
            (λ cid, JsonConfigDB.create_config self (CStr cid)) w1
          = (Ok tt, w')) in H.
  destruct (load_db_loop self children w1 d0 w' H Hd0)
    as (d' & Hd' & Hp' & Ht' & _ & Hkeys & Hinv & Hoth); [done|].
  exists d, d'. split_and!; try done.
  - intros k. rewrite Hkeys. simpl. split; [|by right].
    by intros [[? [=]]|?].
  - intros dbi Hne. rewrite (Hoth dbi Hne). simpl.
    by rewrite list_lookup_insert_ne.
Qed.

(** ** join_guilds_offline *)

Lemma write_all_inv cs : ∀ w w',
  for_each cs JsonConfig.write w = (Ok tt, w') →
  same_objects w w' ∧
  (∀ c, c ∈ cs → on_disk w' c) ∧
  (∀ c, on_disk w c → on_disk w' c).
Proof.
  induction cs as [|c cs IH]; intros w w' H.
  - injection H as <-. split; [apply same_objects_refl|].
    split; [by intros c ?%elem_of_nil|done].
  - simpl in H. bind_inv H as [] w1 Hw.
    pose proof (write_synced _ _ _ Hw) as (c1 & j & Hc1 & Hf1 & _).
    apply write_inv in Hw as [Hs1 Hw].
    destruct (Hw eq_refl) as (cc & j' & Hcc & _ & ->).
    destruct (IH _ _ H) as (Hs2 & Hall & Hkeep).
    assert (Hstep : ∀ c0, on_disk w c0 →
                          on_disk (after_write c cc j' w) c0).
    { intros c0 (cc0 & Hcc0 & [j0 Hj0]).
      destruct (same_objects_cfg _ _ _ _ Hs1 Hcc0) as (cc0' & Hcc0' & Hshape).
      exists cc0'. split; [done|].
      assert (Hp : path cc0' = path cc0) by (unfold cfg_shape in Hshape; congruence).
      rewrite Hp. unfold file_json in *. simpl.
      destruct (decide (path cc = path cc0)) as [->|Hne].
      - rewrite lookup_insert_eq. by eexists.
      - rewrite lookup_insert_ne by done.
        destruct (fs w !! path cc0); [|done]. by eexists. }
    split; [by eapply same_objects_trans|]. split.
    + intros c0 [->|Hin]%elem_of_cons; [|by apply Hall].
      apply Hkeep. exists c1. split; [done|by eexists].
    + intros c0 Hc0. by apply Hkeep, Hstep.
Qed.

Lemma write_db_inv self w w' :
  JsonConfigDB.write_db self w = (Ok tt, w') →
  same_objects w w' ∧
  (∀ k c, has_doc w self k c → on_disk w' c) ∧
  (∀ c, on_disk w c → on_disk w' c).
Proof.
  unfold JsonConfigDB.write_db. intros H.
  bind_inv H as d w0 Hd. apply get_db_inv in Hd as [-> Hd].
  apply write_all_inv in H as (Hs & Hall & Hkeep).
  split; [done|]. split; [|done].
  intros k c (d0 & Hd0 & Hk). rewrite Hd in Hd0. injection Hd0 as <-.
  apply Hall. apply dict_get_elem in Hk.
  apply list_elem_of_fmap. by exists (k, c).
Qed.

Lemma join_loop guilds : ∀ b b',
  for_each guilds (λ guild,
    b <- gets id ;;
    _ <- lift (JsonConfigDB.get_config (config_db b) (CInt (guild_id guild))) ;;
    _ <- lift (JsonConfigDB.get_config (job_db b) (CInt (guild_id guild))) ;;
    ret tt) b = (Ok tt, b') →
  config_db b' = config_db b ∧ job_db b' = job_db b ∧
  (∀ dbi k c, has_doc (core_world b) dbi k c →
              has_doc (core_world b') dbi k c) ∧
  (∀ g, g ∈ guilds →
     ∃ c1 c2,
       has_doc (core_world b') (config_db b) (str (CInt (guild_id g))) c1 ∧
       has_doc (core_world b') (job_db b) (str (CInt (guild_id g))) c2).
Proof.
  induction guilds as [|g rest IH]; intros b b' H.
  - injection H as <-. split_and!; try done. by intros g ?%elem_of_nil.
  - simpl in H. bind_inv H as [] b1 Hbody.
    bind_inv Hbody as b0 b0' Hb. injection Hb as <- <-.
    bind_inv Hbody as c1 b2 H1. apply lift_inv in H1 as (w2 & H1 & ->).
    bind_inv Hbody as c2 b3 H2. apply lift_inv in H2 as (w3 & H2 & ->).
    injection Hbody as <-. simpl in H2.
    apply get_config_docs in H1 as [Hdoc1 Hmono1].
    apply get_config_docs in H2 as [Hdoc2 Hmono2].
    destruct (IH _ _ H) as (Hcdb & Hjdb & Hmono & Hall). simpl in *.
    split_and!; try done.
    + intros dbi k c Hc. by apply Hmono, Hmono2, Hmono1.
    + intros g' [->|Hin]%elem_of_cons; [|by apply Hall].
      exists c1, c2. split; apply Hmono; [by apply Hmono2|done].
Qed.

(** X19: [join_guilds_offline] that returns: every guild that was fetched
    has a document in the guild store and one in the job store, under
    [str(guild.id)], and the file of each holds a JSON text. *)
Theorem X19_join_guilds_offline_documents guilds b b' :
  join_guilds_offline guilds b = (Ok tt, b') →
  ∀ g, g ∈ guilds →
    ∃ c1 c2,
      has_doc (core_world b') (config_db b) (str (CInt (guild_id g))) c1 ∧
      on_disk (core_world b') c1 ∧
      has_doc (core_world b') (job_db b) (str (CInt (guild_id g))) c2 ∧
      on_disk (core_world b') c2.
Proof.
  unfold join_guilds_offline. intros H g Hg.
  bind_inv H as [] b1 Hloop.
  apply join_loop in Hloop as (Hcdb & Hjdb & _ & Hall).
  destruct (Hall g Hg) as (c1 & c2 & Hc1 & Hc2).
  bind_inv H as b0 b0' Hb. injection Hb as <- <-.
  bind_inv H as [] b2 Hw1. apply lift_inv in Hw1 as (w2 & Hw1 & ->).
  apply lift_inv in H as (w3 & Hw2 & ->). simpl in *.
  apply write_db_inv in Hw1 as ((_ & _ & Hd2 & _) & Hdisk1 & _).
  apply write_db_inv in Hw2 as ((_ & _ & Hd3 & _) & Hdisk2 & Hkeep2).
  assert (Hdoc : ∀ dbi k c, has_doc (core_world b1) dbi k c → has_doc w3 dbi k c).
  { intros dbi k c (d & Hd & Hk). exists d. by rewrite Hd3, Hd2. }
  assert (Hdoc2 : ∀ dbi k c, has_doc (core_world b1) dbi k c → has_doc w2 dbi k c).
  { intros dbi k c (d & Hd & Hk). exists d. by rewrite Hd2. }
  exists c1, c2. split_and!.
  - by apply Hdoc.
  - apply Hkeep2. eapply Hdisk1. rewrite Hcdb. exact Hc1.
  - by apply Hdoc.
  - eapply Hdisk2. rewrite Hjdb. by apply Hdoc2.
Qed.

(** * Further properties of GuildStateDB *)

Lemma register_cls_ok t (s : GuildStateDB) :
  is_guild_state t = true → types s !! qualname t = None →
  GuildStateDB.register_cls t s
  = (Ok tt, mkGuildStateDB (<[qualname t := t]> (types s))
                           (<[qualname t := ∅]> (statedb s))
                           (objects s) (bot_get_guild s)).
Proof.
  intros Hg Hn. unfold GuildStateDB.register_cls, GuildStateDB.typekey.
  rewrite Hg. simpl. unfold bind, gets, modify, id.
  destruct (decide (is_Some (types s !! qualname t))) as [[x Hx]|_]; [|done].
  congruence.
Qed.

Lemma register_cls_taken t t0 (s : GuildStateDB) :
  types s !! qualname t = Some t0 →
  GuildStateDB.register_cls t s = (Raise GuildStateException, s).
Proof.
  intros Hn. unfold GuildStateDB.register_cls, GuildStateDB.typekey.
  destruct (is_guild_state t); [|done]. simpl. unfold bind, gets, id.
  destruct (decide (is_Some (types s !! qualname t))) as [|Hno]; [done|].
  destruct Hno. by eexists.
Qed.

(** X20: [register_cls] accepts a class exactly when it subclasses
    GuildStateBase and no class of the same qualified name is registered.
    It then records the class with an empty dict of states, and a second
    registration under that name is refused; in every other case it
    raises GuildStateException and changes nothing. *)
Theorem X20_register_cls_spec t (s : GuildStateDB) :
  if is_guild_state t && bool_decide (types s !! qualname t = None) then
    ∃ s1,
      GuildStateDB.register_cls t s = (Ok tt, s1) ∧
      types s1 !! qualname t = Some t ∧
      statedb s1 !! qualname t = Some ∅ ∧
      objects s1 = objects s ∧
      ∀ t', qualname t' = qualname t →
        GuildStateDB.register_cls t' s1 = (Raise GuildStateException, s1)
  else GuildStateDB.register_cls t s = (Raise GuildStateException, s).
Proof.
  destruct (is_guild_state t) eqn:Hg; simpl.
  - case_bool_decide as Hn.
    + eexists. split; [by apply register_cls_ok|]. simpl.
      split_and!; try by rewrite lookup_insert_eq. done.
      intros t' Hq. apply (register_cls_taken t' t). simpl.
      by rewrite Hq, lookup_insert_eq.
    + destruct (types s !! qualname t) as [t0|] eqn:Ht; [|done].
      by eapply register_cls_taken.
  - unfold GuildStateDB.register_cls. by rewrite Hg.
Qed.

Lemma unregister_cls_ok t t0 states (s : GuildStateDB) :
  types s !! qualname t = Some t0 →
  statedb s !! qualname t = Some states →
  GuildStateDB.unregister_cls t s
  = (Ok tt, mkGuildStateDB (base.delete (qualname t) (types s))
                           (base.delete (qualname t) (statedb s))
                           (objects s) (bot_get_guild s)).
Proof.
  intros Ht Hs.
  unfold GuildStateDB.unregister_cls, GuildStateDB.check_typekey,
    GuildStateDB.typekey, bind, gets, modify, ret, id; simpl.
  rewrite Ht. simpl. by rewrite Hs.
Qed.

(** X21: registering a class and unregistering it again gives back the
    registry as it was; unregistering a class that is not registered
    raises GuildStateException and changes nothing. *)
Theorem X21_register_then_unregister t (s : GuildStateDB) :
  (is_guild_state t = true → types s !! qualname t = None →
   statedb s !! qualname t = None →
   (GuildStateDB.register_cls t ;; GuildStateDB.unregister_cls t) s
   = (Ok tt, s)) ∧
  (types s !! qualname t = None →
   GuildStateDB.unregister_cls t s = (Raise GuildStateException, s)).
Proof.
  split.
  - intros Hg Ht Hs.
    rewrite (bind_ok _ _ _ _ _ (register_cls_ok t s Hg Ht)).
    erewrite unregister_cls_ok; simpl; [|by rewrite lookup_insert_eq..].
    rewrite !delete_insert_eq, !delete_id by done. by destruct s.
  - intros Ht.
    unfold GuildStateDB.unregister_cls, GuildStateDB.check_typekey,
      GuildStateDB.typekey, bind, gets, id; simpl.
    by rewrite Ht.
Qed.

Lemma get_fresh t e (s : GuildStateDB) g gid t' states :
  GuildStateDB.get_guild_and_id e s = (Ok (g, gid), s) →
  types s !! qualname t = Some t' →
  statedb s !! qualname t = Some states →
  states !! gid = None →
  GuildStateDB.get t e s
  = (Ok (length (objects s)),
     mkGuildStateDB (types s)
       (<[qualname t := <[gid := length (objects s)]> states]> (statedb s))
       (objects s ++ [mkGuildState t' g]) (bot_get_guild s)).
Proof.
  intros Hg Ht Hs Hi.
  unfold GuildStateDB.get, bind. rewrite Hg.
  unfold GuildStateDB.get_of_type, GuildStateDB.check_typekey,
    GuildStateDB.typekey, bind, gets, ret, raise, modify, id; simpl.
  rewrite Ht; simpl. rewrite Ht, Hs; simpl. by rewrite Hi.
Qed.

(** X22: the first [get] for a guild makes an instance of the registered
    class, with the guild that the entity stands for, and caches it under
    the guild id; the instances cached for other guilds or other classes
    are served as before. *)
Theorem X22_get_creates_instance t e (s : GuildStateDB) g gid t' states :
  GuildStateDB.get_guild_and_id e s = (Ok (g, gid), s) →
  types s !! qualname t = Some t' →
  statedb s !! qualname t = Some states →
  states !! gid = None →
  let i := length (objects s) in
  ∃ s1,
    GuildStateDB.get t e s = (Ok i, s1) ∧
    objects s1 = objects s ++ [mkGuildState t' g] ∧
    objects s1 !! i = Some (mkGuildState t' g) ∧
    GuildStateDB.get t e s1 = (Ok i, s1) ∧
    ∀ t2 e2 i2 g2 gid2,
      GuildStateDB.get_guild_and_id e2 s = (Ok (g2, gid2), s) →
      qualname t2 ≠ qualname t ∨ gid2 ≠ gid →
      GuildStateDB.get t2 e2 s = (Ok i2, s) →
      GuildStateDB.get t2 e2 s1 = (Ok i2, s1).
Proof.
  intros Hg Ht Hs Hi i.
  pose proof (get_fresh t e s g gid t' states Hg Ht Hs Hi) as Hrun.
  fold i in Hrun. set (s1 := mkGuildStateDB _ _ _ _) in Hrun.
  exists s1. split_and!; try done.
  - simpl. by rewrite lookup_app_r, Nat.sub_diag.
  - eapply (get_cached t e s1 g gid t' (<[gid := i]> states)); simpl.
    + by apply (get_guild_and_id_frame e s).
    + done.
    + by rewrite lookup_insert_eq.
    + by rewrite lookup_insert_eq.
  - intros t2 e2 i2 g2 gid2 Hg2 Hne Hget.
    apply get_ok_inv in Hget as (g2' & gid2' & t2' & states2 & Hg2' & Ht2 & Hs2 & Hi2).
    rewrite Hg2 in Hg2'.
    assert (g2' = g2 ∧ gid2' = gid2) as [-> ->] by (split; congruence).
    destruct (decide (qualname t2 = qualname t)) as [Heq|Hq].
    + destruct Hne as [?|Hgid]; [done|].
      rewrite Heq, Hs in Hs2. injection Hs2 as <-.
      eapply (get_cached t2 e2 s1 g2 gid2 t2' (<[gid := i]> states)); simpl.
      * by apply (get_guild_and_id_frame e2 s).
      * done.
      * by rewrite Heq, lookup_insert_eq.
      * by rewrite lookup_insert_ne.
    + eapply (get_cached t2 e2 s1 g2 gid2 t2' states2); simpl.
      * by apply (get_guild_and_id_frame e2 s).
      * done.
      * by rewrite lookup_insert_ne.
      * done.
Qed.

Lemma get_bot t e (s s1 : GuildStateDB) r :
  GuildStateDB.get t e s = (r, s1) → bot_get_guild s1 = bot_get_guild s.
Proof.
  unfold GuildStateDB.get, bind.
  destruct (GuildStateDB.get_guild_and_id e s) as [[[g gid]| |] s0] eqn:Hg;
    pose proof (get_guild_and_id_state _ _ _ _ Hg) as ->.
  - unfold GuildStateDB.get_of_type, GuildStateDB.check_typekey,
      GuildStateDB.typekey, bind, gets, ret, raise, modify, id; simpl.
    destruct (types s !! qualname t) as [t'|] eqn:Ht; simpl;
      [|intros H; by simplify_eq].
    rewrite Ht.
    destruct (statedb s !! qualname t) as [states|]; simpl;
      [|intros H; by simplify_eq].
    destruct (states !! gid); intros H; by simplify_eq.
  - intros H; by simplify_eq.
  - intros H; by simplify_eq.
Qed.

(** X23: the cache is keyed by the guild id alone: an int, a Guild and an
    object with a [guild] attribute that stand for the same id get the
    same instance. *)
Theorem X23_get_same_id_same_instance t e e' (s s1 : GuildStateDB) i g g' gid :
  GuildStateDB.get_guild_and_id e s = (Ok (g, gid), s) →
  GuildStateDB.get_guild_and_id e' s = (Ok (g', gid), s) →
  GuildStateDB.get t e s = (Ok i, s1) →
  GuildStateDB.get t e' s1 = (Ok i, s1).
Proof.
  intros Hg Hg' Hget.
  pose proof (get_bot _ _ _ _ _ Hget) as Hb.
  apply get_ok_inv in Hget as (g1 & gid1 & t' & states & Hg1 & Ht & Hs & Hi).
  rewrite (get_guild_and_id_frame e s s1 _ Hb Hg) in Hg1.
  assert (g1 = g ∧ gid1 = gid) as [-> ->] by (split; congruence).
  eapply get_cached; [|done..].
  by apply (get_guild_and_id_frame e' s).
Qed.

(** X24: [unregister_cls] forgets the instances of the class: after the
    class is unregistered and registered again, [get] makes a new
    instance where one was cached before. *)
Theorem X24_unregister_drops_instances t e (s s1 : GuildStateDB) i :
  GuildStateDB.get t e s = (Ok i, s1) → is_guild_state t = true →
  ∃ s2 s3 g,
    (GuildStateDB.unregister_cls t ;; GuildStateDB.register_cls t) s1
    = (Ok tt, s2) ∧
    statedb s2 !! qualname t = Some ∅ ∧ objects s2 = objects s1 ∧
    GuildStateDB.get t e s2 = (Ok (length (objects s1)), s3) ∧
    objects s3 = objects s1 ++ [mkGuildState t g].
Proof.
  intros (g & gid & t' & states & Hg & Ht & Hs & Hi)%get_ok_inv Hsub.
  set (s15 := mkGuildStateDB (base.delete (qualname t) (types s1))
                (base.delete (qualname t) (statedb s1))
                (objects s1) (bot_get_guild s1)).
  assert (Hn : types s15 !! qualname t = None) by apply lookup_delete_eq.
  pose proof (register_cls_ok t s15 Hsub Hn) as Hreg.
  set (s2 := mkGuildStateDB _ _ _ _) in Hreg.
  assert (Hg2 : GuildStateDB.get_guild_and_id e s2 = (Ok (g, gid), s2)).
  { by apply (get_guild_and_id_frame e s1). }
  assert (Ht2 : types s2 !! qualname t = Some t).
  { simpl. by rewrite lookup_insert_eq. }
  assert (Hs2 : statedb s2 !! qualname t = Some ∅).
  { simpl. by rewrite lookup_insert_eq. }
  eexists s2, _, g. split_and!.
  - by rewrite (bind_ok _ _ _ _ _ (unregister_cls_ok t t' states s1 Ht Hs)).
  - exact Hs2.
  - done.
  - by apply (get_fresh t e s2 g gid t ∅ Hg2 Ht2 Hs2).
  - done.
Qed.

(** X25: [delete] never changes the registry, whatever it is given; for a
    guild that no class has an instance for, it returns normally. *)
Theorem X25_delete_changes_nothing e (s : GuildStateDB) :
  (GuildStateDB.delete e s).2 = s ∧
  (∀ g gid,
     GuildStateDB.get_guild_and_id e s = (Ok (g, gid), s) →
     (∀ k states, statedb s !! k = Some states → states !! gid = None) →
     GuildStateDB.delete e s = (Ok tt, s)).
Proof.
  assert (Hloop : ∀ gid values (s : GuildStateDB),
            (GuildStateDB.delete_loop gid values s).2 = s).
  { intros gid values s0. induction values as [|st r IH]; [done|].
    simpl. by destruct (decide (is_Some (st !! gid))). }
  split.
  - unfold GuildStateDB.delete, bind.
    destruct (GuildStateDB.get_guild_and_id e s) as [[[g gid]| |] s0] eqn:Hg;
      pose proof (get_guild_and_id_state _ _ _ _ Hg) as ->; try done.
    unfold gets, id. simpl. apply Hloop.
  - intros g gid Hg Hnone.
    unfold GuildStateDB.delete, bind. rewrite Hg. unfold gets, id. simpl.
    apply delete_loop_miss. intros states Hin.
    apply list_elem_of_fmap in Hin as ([k st] & -> & Hin).
    apply elem_of_map_to_list in Hin. by eapply Hnone.
Qed.

(** X26: what [get] refuses.  The entity is looked at first: [None] raises
    GuildRequiredException, an object with neither an id nor a guild
    raises TypeError; then a class that is not registered raises
    GuildStateException.  Nothing is cached in any of these cases. *)
Theorem X26_get_refusals t (s : GuildStateDB) :
  GuildStateDB.get t EntNone s = (Raise GuildRequiredException, s) ∧
  GuildStateDB.get t EntOther s = (Raise TypeError, s) ∧
  GuildStateDB.get t (EntHasGuild None) s = (Raise AttributeError, s) ∧
  (types s !! qualname t = None →
   ∀ e g gid,
     GuildStateDB.get_guild_and_id e s = (Ok (g, gid), s) →
     GuildStateDB.get t e s = (Raise GuildStateException, s)).
Proof.
  split_and!; try done.
  intros Ht e g gid Hg. unfold GuildStateDB.get, bind. rewrite Hg.
  unfold GuildStateDB.get_of_type, GuildStateDB.check_typekey,
    GuildStateDB.typekey, bind, gets, raise, id; simpl.
  by rewrite Ht.
Qed.

(** * Further properties of CoreWrapper *)

(** X27: the four hooks look the guild of the header up first: for a guild
    that the bot does not know, each of them raises AttributeError and
    leaves the stores and the files alone. *)
Theorem X27_hooks_need_the_guild h b :
  get_guild b (header_guild_id h) = None →
  CoreWrapper.cfg_job_create h b = (Raise AttributeError, b) ∧
  CoreWrapper.cfg_job_delete h b = (Raise AttributeError, b) ∧
  CoreWrapper.cfg_sched_create h b = (Raise AttributeError, b) ∧
  CoreWrapper.cfg_sched_delete h b = (Raise AttributeError, b).
Proof.
  intros Hg.
  assert (H : CoreWrapper.get_jobcfg_for_header h b = (Raise AttributeError, b)).
  { unfold CoreWrapper.get_jobcfg_for_header, bind at 1, gets at 1. simpl.
    by rewrite Hg. }
  unfold CoreWrapper.cfg_job_create, CoreWrapper.cfg_job_delete,
    CoreWrapper.cfg_sched_create, CoreWrapper.cfg_sched_delete.
  by rewrite !(bind_raise _ _ _ _ _ H).
Qed.

(** ** A job record, written and removed *)

Lemma dump_val_functional n n' h ms v j j' :
  dump_val n h ms v = Ok j → dump_val n' h ms v = Ok j' → j = j'.
Proof.
  intros H H'.
  apply (dump_val_mono n (n `max` n')) in H; [|lia].
  apply (dump_val_mono n' (n `max` n')) in H'; [|lia].
  congruence.
Qed.

(** The value that [json.load] has just built encodes back to its text
    in any heap that differs from the decoder's only at an older dict,
    whatever older dicts the encoder is inside of. *)
Lemma loaded_fresh j h l d' :
  unique_keys j = true → l < length h →
  ∃ n, ∀ ms, (∀ m, m ∈ ms → m < length h) →
    dump_val n (<[l := d']> (json_load j h).2) ms (json_load j h).1 = Ok j.
Proof.
  intros Hu Hl. destruct (json_load_dump_framed j Hu h) as [n Hn].
  exists n. intros ms Hms.
  rewrite <-(app_nil_r (<[l := d']> (json_load j h).2)).
  apply (dump_val_frame n _ (l :: ms)).
  - rewrite dump_val_marked by by left.
    rewrite <-(app_nil_r (json_load j h).2).
    apply Hn. intros m [->|Hm]%elem_of_cons; left; [done|by apply Hms].
  - intros m Hm. left. by right.
Qed.

Lemma serialisable_store_fresh h ext l d k v δ x :
  h !! l = Some d →
  fresh_ok h (<[l := dict_set k v d]> (h ++ ext)) δ v →
  serialisable h x →
  serialisable (<[l := dict_set k v d]> (h ++ ext)) x.
Proof.
  intros Hl Hfresh [j Hj].
  assert (Hlt : l < length h) by by eapply lookup_lt_Some.
  destruct (dump_sim h (<[l := dict_set k v d]> (h ++ ext)) δ) with
    (n := S (length h)) (ms := @nil nat) (v := x) as [j' Hj'].
  - intros a da Ha. destruct (decide (a = l)) as [->|Hne].
    + exists (dict_set k v d). split.
      * apply list_lookup_insert_eq. rewrite length_app. lia.
      * rewrite Hl in Ha. injection Ha as <-.
        apply Forall_dict_set; [apply Forall_own_values|by right].
    + exists da. split.
      * rewrite list_lookup_insert_ne by done. by apply lookup_app_l_Some.
      * apply Forall_own_values.
  - by intros m ?%elem_of_nil.
  - by exists j.
  - exists j'. by eapply dump_any_fuel.
Qed.

Lemma delete_sub_ok n s i c l d k ign j w :
  subs w !! n = Some s → parent s = RJson i → sc_opts s = VDict l →
  heap w !! l = Some d → is_Some (dict_get k d) →
  cfgs w !! i = Some c → unmodified c w →
  dump (<[l := dict_del k d]> (heap w)) (VDict (opts c)) = Ok j →
  ConfigMixin.delete (RSub n) k ign w
  = (Ok tt, after_write i c j (with_heap (<[l := dict_del k d]> (heap w)) w)).
Proof.
  intros Hs Hp Ho Hl Hk Hc Hu Hj. unfold ConfigMixin.delete.
  pose proof (opts_of_sub _ _ _ Hs) as Hopts. rewrite Ho in Hopts.
  assert (Hskip : (if ign
                   then o <- opts_of (RSub n) ;;
                        present <- contains o k ;; ret (negb present)
                   else ret false) w = (Ok false, w)).
  { destruct ign; [|done].
    rewrite (bind_ok _ _ _ _ _ Hopts).
    rewrite (bind_ok _ _ _ _ _ (contains_ok _ _ k _ Hl)).
    apply dict_mem_true in Hk. by rewrite Hk. }
  rewrite (bind_ok _ _ _ _ _ Hskip).
  rewrite (bind_ok _ _ _ _ _ Hopts).
  rewrite (bind_ok _ _ _ _ _ (delitem_ok _ _ _ _ Hl Hk)).
  set (w1 := with_heap _ w).
  assert (Hs1 : subs w1 !! n = Some s) by done.
  rewrite (write_of_sub _ _ i _ Hs1 Hp).
  by apply write_ok.
Qed.

Lemma dict_del_set_new {V} k (v : V) (d : pydict V) :
  dict_get k d = None → dict_del k (dict_set k v d) = d.
Proof.
  induction d as [|[k' v'] d IH]; simpl.
  - intros _. by rewrite decide_True.
  - destruct (decide (k = k')) as [->|Hne]; [done|]. intros Hk. simpl.
    rewrite decide_False by done. by rewrite IH.
Qed.

(** What the file holds under ["jobs"], read off a successful encoding
    of the document. *)
Lemma dump_jobs_inv h r root l dl j :
  dump h (VDict r) = Ok j → h !! r = Some root →
  dict_get "jobs" root = Some (VDict l) → h !! l = Some dl →
  ∃ js jd n,
    j = JObj js ∧ dict_get "jobs" js = Some (JObj jd) ∧
    dump_items (dump_val n h [l; r]) dl = Ok jd.
Proof.
  intros Hj Hr Hk Hl.
  destruct (dump_root_get h r root "jobs" (VDict l) j Hj Hr Hk)
    as (js & jl & -> & Hkjs & Hjl).
  apply dump_val_dict_inv in Hjl as (n' & d' & jd & _ & _ & Hd' & Hjd & ->).
  rewrite Hl in Hd'. injection Hd' as <-.
  by exists js, jd, n'.
Qed.

(** X28: a job is submitted and then ends, in a guild whose job document
    holds a dict under "jobs": [_cfg_job_create] returns and the file
    holds the header under jobs/<id>; [_cfg_job_delete] then returns and
    the file holds nothing under that id.  If the id was not on record
    before, the dict of jobs is back to what it was. *)
Theorem X28_job_record_round_trip h b guild cfg c root l d :
  get_guild b (header_guild_id h) = Some guild →
  has_doc (core_world b) (job_db b) (str (CInt (guild_id guild))) cfg →
  cfgs (core_world b) !! cfg = Some c →
  heap (core_world b) !! opts c = Some root →
  dict_get "jobs" root = Some (VDict l) →
  heap (core_world b) !! l = Some d →
  unmodified c (core_world b) →
  serialisable (heap (core_world b)) (VDict (opts c)) →
  unique_keys (JObj (record h)) = true →
  let key := str (CInt (header_id h)) in
  ∃ b1 b2 js1 jobs1 js2 jobs2,
    CoreWrapper.cfg_job_create h b = (Ok tt, b1) ∧
    file_json (core_world b1) (path c) = Some (JObj js1) ∧
    dict_get "jobs" js1 = Some (JObj jobs1) ∧
    dict_get key jobs1 = Some (JObj (record h)) ∧
    CoreWrapper.cfg_job_delete h b1 = (Ok tt, b2) ∧
    file_json (core_world b2) (path c) = Some (JObj js2) ∧
    dict_get "jobs" js2 = Some (JObj jobs2) ∧
    dict_get key jobs2 = None ∧
    (dict_get key d = None → heap (core_world b2) !! l = Some d).
Proof.
  intros Hg (dd & Hdd & Hdoc) Hc Hr Hjobs Hl Hu Hser Huniq key.
  set (w := core_world b) in *. set (r := opts c) in *.
  assert (Hlr : l ≠ r) by by eapply serialisable_no_self_cycle.
  assert (Hllt : l < length (heap w)) by by eapply lookup_lt_Some.
  assert (Hrlt : r < length (heap w)) by by eapply lookup_lt_Some.
  assert (Hilt : cfg < length (cfgs w)) by by eapply lookup_lt_Some.
  (* the view of "jobs" *)
  set (n := length (subs w)).
  set (s0 := mkSubConfig (RJson cfg) (VDict l) "jobs" false).
  set (w1 := with_subs (subs w ++ [s0]) w).
  pose proof (sub_ok (RJson cfg) (VDict r) "jobs" (VDict l) w
                (opts_of_json _ _ _ Hc) (getitem_ok _ _ _ _ _ Hr Hjobs))
    as Hsub.
  fold n s0 w1 in Hsub.
  (* header.as_dict() *)
  destruct (json_load_extends (JObj (record h)) (heap w)) as [ext Hext].
  destruct (json_load (JObj (record h)) (heap w)) as [vd hp] eqn:Hload.
  simpl in Hext. subst hp.
  set (hp := heap w ++ ext) in *.
  set (w2 := with_heap hp w1).
  assert (Has : as_dict h w1 = (Ok vd, w2)).
  { unfold as_dict. simpl heap. by rewrite Hload. }
  (* sub.set(str(id), record) *)
  set (d3 := dict_set key vd d).
  set (h3 := <[l := d3]> hp).
  destruct (loaded_fresh (JObj (record h)) (heap w) l d3 Huniq Hllt)
    as [n0 Hn0].
  rewrite Hload in Hn0. simpl fst in Hn0. simpl snd in Hn0.
  fold hp h3 in Hn0.
  assert (Hfresh : fresh_ok (heap w) h3 n0 vd).
  { intros m ms Hms. exists (JObj (record h)).
    eapply dump_val_mono; [|by apply Hn0]. lia. }
  destruct (serialisable_store_fresh (heap w) ext l d key vd n0 (VDict r)
              Hl Hfresh Hser) as [j1 Hj1].
  fold hp d3 h3 in Hj1.
  assert (Hr3 : h3 !! r = Some root).
  { unfold h3. rewrite list_lookup_insert_ne by done.
    by apply lookup_app_l_Some. }
  assert (Hl3 : h3 !! l = Some d3).
  { unfold h3. apply list_lookup_insert_eq. unfold hp.
    rewrite length_app. lia. }
  destruct (dump_jobs_inv h3 r root l d3 j1 Hj1 Hr3 Hjobs Hl3)
    as (js1 & jobs1 & n1 & -> & Hjs1 & Hjobs1).
  destruct (dump_items_get _ _ _ key vd Hjobs1 (dict_get_set_eq _ _ _))
    as (jv & Hjv & Hkey1).
  assert (jv = JObj (record h)) as ->.
  { eapply dump_val_functional; [exact Hjv|]. apply Hn0.
    intros m [->|[->|?%elem_of_nil]%elem_of_cons]%elem_of_cons; done. }
  set (w3 := with_heap h3 w2).
  set (w4 := after_write cfg c (JObj js1) w3).
  assert (Hset : ConfigMixin.set (RSub n) key vd w2 = (Ok tt, w4)).
  { apply (set_sub_ok n s0 cfg c l d key vd (JObj js1) w2); try done.
    - simpl. by rewrite lookup_app_r, Nat.sub_diag.
    - simpl. by apply lookup_app_l_Some. }
  set (b1 := with_world w4 b).
  assert (Hcreate : CoreWrapper.cfg_job_create h b = (Ok tt, b1)).
  { unfold CoreWrapper.cfg_job_create.
    rewrite (bind_ok _ _ _ _ _ (get_jobcfg_present h b guild dd cfg Hg Hdd Hdoc)).
    rewrite (bind_ok _ _ _ _ _ (lift_run _ b _ _ Hsub)).
    rewrite (bind_ok _ _ _ _ _ (lift_run _ (with_world w1 b) _ _ Has)).
    exact (lift_run _ (with_world w2 (with_world w1 b)) _ _ Hset). }
  (* the second hook *)
  assert (Hc4 : cfgs w4 !! cfg = Some (written c (clock w))).
  { simpl. by apply list_lookup_insert_eq. }
  assert (Hr4 : heap w4 !! opts (written c (clock w)) = Some root) by done.
  set (s5 := mkSubConfig (RJson cfg) (VDict l) "jobs" false).
  set (w5 := with_subs (subs w4 ++ [s5]) w4).
  pose proof (sub_ok (RJson cfg) (VDict r) "jobs" (VDict l) w4
                (opts_of_json _ _ _ Hc4) (getitem_ok _ _ _ _ _ Hr4 Hjobs))
    as Hsub5.
  fold s5 w5 in Hsub5.
  set (d6 := dict_del key d3).
  set (h6 := <[l := d6]> h3).
  assert (serialisable h6 (VDict r)) as [j6 Hj6].
  { apply (serialisable_del h3 l d3); [done|]. by eexists. }
  assert (Hr6 : h6 !! r = Some root).
  { unfold h6. by rewrite list_lookup_insert_ne. }
  assert (Hl6 : h6 !! l = Some d6).
  { unfold h6. apply list_lookup_insert_eq. by eapply lookup_lt_Some. }
  destruct (dump_jobs_inv h6 r root l d6 j6 Hj6 Hr6 Hjobs Hl6)
    as (js2 & jobs2 & n2 & -> & Hjs2 & Hjobs2).
  set (w6 := with_heap h6 w5).
  set (w7 := after_write cfg (written c (clock w)) (JObj js2) w6).
  assert (Hdel : ConfigMixin.delete (RSub (length (subs w4))) key true w5
                 = (Ok tt, w7)).
  { apply (delete_sub_ok _ s5 cfg (written c (clock w)) l d3); try done.
    - simpl. by rewrite lookup_app_r, Nat.sub_diag.
    - unfold d3. rewrite dict_get_set_eq. by eexists.
    - eapply unmodified_ext; [..|apply (unmodified_after_write cfg c (JObj js1) w3)];
        done. }
  set (b2 := with_world w7 b1).
  assert (Hdelete : CoreWrapper.cfg_job_delete h b1 = (Ok tt, b2)).
  { unfold CoreWrapper.cfg_job_delete.
    rewrite (bind_ok _ _ _ _ _
               (get_jobcfg_present h b1 guild dd cfg Hg Hdd Hdoc)).
    rewrite (bind_ok _ _ _ _ _ (lift_run _ b1 _ _ Hsub5)).
    exact (lift_run _ (with_world w5 b1) _ _ Hdel). }
  exists b1, b2, js1, jobs1, js2, jobs2. split_and!.
  - exact Hcreate.
  - eapply file_json_intro. simpl. apply lookup_insert_eq.
  - exact Hjs1.
  - exact Hkey1.
  - exact Hdelete.
  - eapply file_json_intro. simpl. apply lookup_insert_eq.
  - exact Hjs2.
  - eapply dump_items_get_None; [exact Hjobs2|]. apply dict_get_del_eq.
  - intros Hnone. simpl. unfold h6, d6, d3.
    rewrite dict_del_set_new by done. apply list_lookup_insert_eq.
    by eapply lookup_lt_Some.
Qed.

(** ** A file edited by hand, and a document made from a file *)

(** X29: with [check_date], after somebody else has written the file:
    [write] raises ConfigException and changes nothing; [load] then
    takes the edited content, and the next [write] goes through and
    leaves that content in the file. *)
Theorem X29_reload_after_conflict i c t fl items w :
  cfgs w !! i = Some c → check_date c = true →
  last_readwrite_date c = Some t →
  fs w !! path c = Some fl → (t < f_mtime fl ≤ clock w)%Z →
  f_content fl = Text (JObj items) →
  unique_keys (JObj items) = true → template_within c w items.*1 →
  JsonConfig.write i w = (Raise ConfigException, w) ∧
  ∃ w1 w2,
    JsonConfig.load i w = (Ok tt, w1) ∧
    doc_json w1 i = Some (JObj items) ∧
    JsonConfig.write i w1 = (Ok tt, w2) ∧
    doc_json w2 i = Some (JObj items) ∧
    file_json w2 (path c) = Some (JObj items).
Proof.
  intros Hc Hcd Hdate Hf [Hlt Hle] Hcont Hu Htpl.
  split; [by eapply write_conflict|].
  destruct (load_ok i c fl items w Hc Hf Hcont Hu Htpl)
    as (w1 & c1 & Hload & Hdoc & Hfs & Hcl & Hc1 & Hd1 & Hp1 & _ & Hcd1 & _).
  assert (Hj1 : dump (heap w1) (VDict (opts c1)) = Ok (JObj items)).
  { unfold doc_json in Hdoc. rewrite Hc1 in Hdoc. simpl in Hdoc.
    destruct (dump (heap w1) (VDict (opts c1))); by simplify_eq. }
  assert (Hu1 : unmodified c1 w1).
  { intros _ f. rewrite Hfs, Hp1, Hf. intros [= <-].
    exists (clock w). split; [done|lia]. }
  assert (Hi : i < length (cfgs w1)) by by eapply lookup_lt_Some.
  exists w1, (after_write i c1 (JObj items) w1). split_and!.
  - exact Hload.
  - exact Hdoc.
  - by apply write_ok.
  - unfold doc_json. simpl. rewrite list_lookup_insert_eq by done.
    simpl. by rewrite Hj1.
  - eapply file_json_intro. simpl. rewrite <-Hp1. apply lookup_insert_eq.
Qed.



(** ** The further properties on concrete stores *)

Lemma example_dump :
  dump (heap example_world) (VDict (opts example_doc))
  = Ok (JObj [("jobs", JObj [("9", JStr "old")]); ("a", JInt 1)]).
Proof. vm_compute. reflexivity. Qed.

Lemma no_check_unmodified c w : check_date c = false → unmodified c w.
Proof. intros Hc H. congruence. Qed.

Lemma X1_set_then_get_witness :
  ∃ w',
    ConfigMixin.set (RJson 0) "b" (VInt 2) example_world = (Ok tt, w') ∧
    ConfigMixin.get (RJson 0) "b" w' = (Ok (VInt 2), w') ∧
    file_json w' "cfg/1.json"
    = Some (JObj [("jobs", JObj [("9", JStr "old")]); ("a", JInt 1);
                  ("b", JInt 2)]).
Proof.
  destruct (X1_set_then_get 0 example_doc
              [("jobs", VDict 1); ("a", VInt 1)] "b" (VInt 2) _ example_world
              eq_refl eq_refl example_unmodified example_dump I)
    as (w' & jv & Hset & Hget & _ & _ & _ & Hjv & Hfile & _).
  exists w'. split_and!; [exact Hset|exact Hget|].
  vm_compute in Hjv. injection Hjv as <-. exact Hfile.
Defined.

Lemma X2_delete_present_witness :
  ∃ w',
    ConfigMixin.delete (RJson 0) "a" false example_world = (Ok tt, w') ∧
    ConfigMixin.get (RJson 0) "a" w' = (Raise KeyError, w') ∧
    file_json w' "cfg/1.json"
    = Some (JObj [("jobs", JObj [("9", JStr "old")])]).
Proof.
  destruct (X2_delete_present 0 example_doc
              [("jobs", VDict 1); ("a", VInt 1)] "a" _ false example_world
              eq_refl eq_refl example_unmodified example_dump
              (ex_intro _ (VInt 1) eq_refl))
    as (w' & Hdel & Hget & _ & _ & Hfile & _).
  exists w'. split_and!; [exact Hdel|exact Hget|exact Hfile].
Defined.

Lemma X3_missing_key_witness :
  ConfigMixin.get (RJson 0) "zz" example_world
  = (Raise KeyError, example_world) ∧
  SubconfigMixin.sub (RJson 0) "zz" example_world
  = (Raise KeyError, example_world).
Proof.
  destruct (X3_missing_key (RJson 0) 0 [("jobs", VDict 1); ("a", VInt 1)] "zz"
              (λ v, ret v) example_world eq_refl eq_refl eq_refl)
    as (Hget & _ & Hsub & _).
  split; [exact Hget|exact Hsub].
Defined.

Lemma X4_get_and_set_is_set_witness :
  ConfigMixin.get_and_set (RJson 0) "a" (λ v, ret (VInt 5)) example_world
  = ConfigMixin.set (RJson 0) "a" (VInt 5) example_world ∧
  ConfigMixin.get_and_set (RJson 0) "a" (λ _, raise TypeError) example_world
  = (Raise TypeError, example_world).
Proof.
  destruct (X4_get_and_set_is_set (RJson 0) 0 [("jobs", VDict 1); ("a", VInt 1)]
              "a" (VInt 1) example_world eq_refl eq_refl eq_refl)
    as [Hset Hraise].
  split; [exact (Hset (λ _, VInt 5))|exact (Hraise TypeError)].
Defined.

Lemma X5_failed_write_truncates_witness :
  ∃ w',
    JsonConfig.write 0 cyclic_world = (Raise ValueError, w') ∧
    file_json w' "cfg/3.json" = None ∧
    JsonConfig.load 0 w' = (Raise ValueError, w').
Proof.
  destruct (X5_failed_write_truncates 0
              (mkJsonConfig 0 "cfg/3.json" VNone false None) ValueError
              cyclic_world eq_refl
              (no_check_unmodified
                 (mkJsonConfig 0 "cfg/3.json" VNone false None) cyclic_world
                 eq_refl)
              eq_refl)
    as (w' & Hw & _ & Hf & _ & _ & Hl).
  exists w'. split_and!; [exact Hw|exact Hf|exact Hl].
Defined.

Lemma X6_set_of_own_dict_raises_witness :
  ∃ w',
    ConfigMixin.set (RJson 0) "me" (VDict 0) example_world
    = (Raise ValueError, w') ∧
    ConfigMixin.get (RJson 0) "me" w' = (Ok (VDict 0), w') ∧
    JsonConfig.load 0 w' = (Raise ValueError, w').
Proof.
  destruct (X6_set_of_own_dict_raises 0 example_doc
              [("jobs", VDict 1); ("a", VInt 1)] "me" example_world
              eq_refl eq_refl example_unmodified example_serialisable)
    as (w' & Hset & _ & Hget & _ & Hload).
  exists w'. split_and!; [exact Hset|exact Hget|exact Hload].
Defined.

Lemma X7_view_of_plain_value_witness :
  ∃ w1,
    SubconfigMixin.sub (RJson 0) "a" example_world = (Ok (RSub 1), w1) ∧
    ConfigMixin.set (RSub 1) "x" (VInt 0) w1 = (Raise TypeError, w1) ∧
    ConfigMixin.get (RSub 1) "x" w1 = (Raise TypeError, w1).
Proof.
  destruct (X7_view_of_plain_value (RJson 0) 0
              [("jobs", VDict 1); ("a", VInt 1)] "a" (VInt 1) example_world
              eq_refl eq_refl eq_refl I) as [Hsub Huse].
  destruct (Huse "x" (VInt 0)) as (Hset & Hget & _).
  eexists. split_and!; [exact Hsub|exact Hset|exact Hget].
Defined.


Lemma X9_sub_set_writes_through_witness :
  ∃ w' js,
    sub_then_set 0 "jobs" "3" (VStr "x") example_world = (Ok (RSub 1), w') ∧
    heap w' !! 1 = Some [("9", VStr "old"); ("3", VStr "x")] ∧
    file_json w' "cfg/1.json" = Some (JObj js) ∧
    ∃ jd, dict_get "jobs" js = Some (JObj jd) ∧
          dict_get "3" jd = Some (JStr "x").
Proof.
  destruct (X9_sub_set_writes_through 0 example_doc
              [("jobs", VDict 1); ("a", VInt 1)] "jobs" 1 [("9", VStr "old")]
              "3" (VStr "x") example_world eq_refl eq_refl eq_refl eq_refl
              example_unmodified example_serialisable I)
    as (w' & js & jd & jv & Hrun & Hl & _ & _ & Hfile & Hjobs & Hjv & Hkey).
  exists w', js. split_and!; [exact Hrun|exact Hl|exact Hfile|].
  exists jd. split; [exact Hjobs|].
  vm_compute in Hjv. injection Hjv as <-. exact Hkey.
Defined.

Lemma stored_template_within : template_within stored_doc stored_world stored_json.*1.
Proof.
  exists [("a", VInt 0)]. split; [done|].
  intros k Hk. apply list_elem_of_singleton in Hk as ->. by left.
Qed.

Lemma X11_load_reads_file_witness :
  ∃ w' c',
    JsonConfig.load 0 stored_world = (Ok tt, w') ∧
    doc_json w' 0 = Some (JObj stored_json) ∧
    fs w' = fs stored_world ∧
    cfgs w' !! 0 = Some c' ∧ last_readwrite_date c' = Some 4%Z.
Proof.
  destruct (X11_load_reads_file 0 stored_doc
              (mkFile (Text (JObj stored_json)) 3%Z) stored_json stored_world
              eq_refl eq_refl eq_refl eq_refl stored_template_within)
    as (w' & c' & Hload & Hdoc & Hfs & Hc' & Hdate & _).
  exists w', c'. split_and!; [exact Hload|exact Hdoc|exact Hfs|exact Hc'|exact Hdate].
Defined.

Lemma example_dicts_ok : dicts_ok (heap example_world).
Proof.
  apply (bool_decide_unpack _). vm_compute. exact I.
Qed.

Lemma X12_write_then_load_witness :
  ∃ w1 w2,
    JsonConfig.write 0 example_world = (Ok tt, w1) ∧
    JsonConfig.load 0 w1 = (Ok tt, w2) ∧
    doc_json w2 0
    = Some (JObj [("jobs", JObj [("9", JStr "old")]); ("a", JInt 1)]).
Proof.
  destruct (X12_write_then_load 0 example_doc
              [("jobs", VDict 1); ("a", VInt 1)] _ example_world
              eq_refl eq_refl example_unmodified example_dicts_ok
              example_dump I)
    as (w1 & w2 & Hw & Hl & Hdoc & _).
  exists w1, w2. split_and!; [exact Hw|exact Hl|exact Hdoc].
Defined.

Lemma X13_new_document_without_file_witness :
  (∃ w',
     JsonConfig.new "cfg/9.json" VNone false example_world = (Ok 1, w') ∧
     file_json w' "cfg/9.json" = Some (JObj [])) ∧
  (∃ w',
     JsonConfig.new "cfg/9.json" (VDict 1) false example_world = (Ok 1, w') ∧
     doc_opts w' 1 = Some [("9", VStr "old")] ∧
     file_json w' "cfg/9.json" = Some (JObj [("9", JStr "old")])).
Proof.
  destruct (X13_new_document_without_file "cfg/9.json" false example_world
              eq_refl) as [Hplain Htpl].
  split.
  - destruct Hplain as (w' & Hrun & _ & Hfile & _).
    exists w'. split; [exact Hrun|exact Hfile].
  - destruct (Htpl 1 [("9", VStr "old")] (JObj [("9", JStr "old")])
                eq_refl eq_refl) as (w' & Hrun & Hdoc & Hfile & _).
    exists w'. split_and!; [exact Hrun|exact Hdoc|exact Hfile].
Defined.

Lemma X14_get_config_cached_witness :
  let w' := (JsonConfigDB.get_config 0 (CInt 1) jobdb_world).2 in
  JsonConfigDB.get_config 0 (CStr "1") w' = (Ok 0, w') ∧
  JsonConfigDB.get_config 0 (CInt 1) w' = (Ok 0, w').
Proof.
  intros w'.
  assert (Hrun : JsonConfigDB.get_config 0 (CInt 1) jobdb_world = (Ok 0, w')).
  { vm_compute. reflexivity. }
  split.
  - apply (X14_get_config_cached 0 (CInt 1) jobdb_world 0 w' Hrun (CStr "1")).
    vm_compute. reflexivity.
  - apply (X14_get_config_cached 0 (CInt 1) jobdb_world 0 w' Hrun (CInt 1)).
    reflexivity.
Defined.


Lemma X16_unique_template_documents_witness :
  (∃ w',
     JsonConfigDB.get_config 0 (CInt 7) common_world = (Ok 0, w') ∧
     doc_opts w' 0 = Some [] ∧
     file_json w' "commoncfg/7.json" = Some (JObj [])) ∧
  (∃ w',
     JsonConfigDB.get_config 0 (CStr "_monky") common_world = (Ok 0, w') ∧
     doc_opts w' 0 = Some [("last_schedule_id", VInt 0)] ∧
     file_json w' "commoncfg/_monky.json"
     = Some (JObj [("last_schedule_id", JInt 0)])).
Proof.
  split.
  - assert (Hid : plain_id (CInt 7)) by (vm_compute; reflexivity).
    destruct (X16_unique_template_documents 0
                (mkJsonConfigDB "commoncfg" [] (VDict 0) true) (CInt 7)
                common_world Hid eq_refl eq_refl eq_refl eq_refl)
      as (Hnew & _ & _).
    destruct (Hnew 0 [("_monky", VDict 1)] eq_refl eq_refl eq_refl)
      as (w' & Hrun & Hdoc & Hfile & _).
    exists w'. split_and!; [exact Hrun|exact Hdoc|exact Hfile].
  - assert (Hid : plain_id (CStr "_monky")) by (vm_compute; reflexivity).
    destruct (X16_unique_template_documents 0
                (mkJsonConfigDB "commoncfg" [] (VDict 0) true) (CStr "_monky")
                common_world Hid eq_refl eq_refl eq_refl eq_refl)
      as (_ & Hnamed & _).
    destruct (Hnamed 0 [("_monky", VDict 1)] 1 [("last_schedule_id", VInt 0)]
                (JObj [("last_schedule_id", JInt 0)])
                eq_refl eq_refl eq_refl eq_refl eq_refl)
      as (w' & Hrun & Hdoc & Hfile).
    exists w'. split_and!; [exact Hrun|exact Hdoc|exact Hfile].
Defined.

Lemma X17_write_db_writes_all_witness :
  ∃ w',
    JsonConfigDB.write_db 0 example_bot_world = (Ok tt, w') ∧
    synced 1 w'.
Proof.
  destruct (X17_write_db_writes_all 0
              (mkJsonConfigDB "jobdb" [("1", 1)] (VDict 0) false)
              [mkJsonConfig 4 "jobdb/1.json" (VDict 0) false (Some 0%Z)]
              example_bot_world eq_refl)
    as (w' & Hrun & _ & Hsync).
  - constructor; [|constructor]. split_and!.
    + reflexivity.
    + by apply no_check_unmodified.
    + eexists. vm_compute. reflexivity.
  - apply NoDup_singleton.
  - exists w'. split; [exact Hrun|]. by apply (Hsync "1").
Defined.

Lemma X18_load_db_entries_witness :
  let w' := (load_db 0 ["1"; "2"] jobdb_world).2 in
  ∃ d',
    dbs w' !! 0 = Some d' ∧
    (∀ k, is_Some (dict_get k (db d')) ↔ k ∈ ["1"; "2"]) ∧
    (∀ k c, dict_get k (db d') = Some c →
            ∃ cc, cfgs w' !! c = Some cc ∧
                  path cc = "jobdb" +:+ "/" +:+ k +:+ ".json").
Proof.
  intros w'.
  destruct (X18_load_db_entries 0 ["1"; "2"] jobdb_world w')
    as (d & d' & Hd & Hd' & _ & _ & Hkeys & Hpaths & _).
  { vm_compute. reflexivity. }
  injection Hd as <-.
  exists d'. split_and!; [exact Hd'|exact Hkeys|exact Hpaths].
Defined.

Lemma X19_join_guilds_offline_documents_witness :
  let b' := (join_guilds_offline [mkGuild 1; mkGuild 2] startup_bot).2 in
  ∃ c1 c2,
    has_doc (core_world b') 0 "2" c1 ∧ on_disk (core_world b') c1 ∧
    has_doc (core_world b') 2 "2" c2 ∧ on_disk (core_world b') c2.
Proof.
  intros b'.
  assert (Hrun : join_guilds_offline [mkGuild 1; mkGuild 2] startup_bot
                 = (Ok tt, b')) by (vm_compute; reflexivity).
  assert (Hin : mkGuild 2 ∈ [mkGuild 1; mkGuild 2]) by (right; left).
  exact (X19_join_guilds_offline_documents [mkGuild 1; mkGuild 2] startup_bot b'
           Hrun (mkGuild 2) Hin).
Defined.

Lemma X21_register_then_unregister_witness :
  (GuildStateDB.register_cls example_state_type ;;
   GuildStateDB.unregister_cls example_state_type) empty_registry
  = (Ok tt, empty_registry) ∧
  GuildStateDB.unregister_cls example_state_type empty_registry
  = (Raise GuildStateException, empty_registry).
Proof.
  destruct (X21_register_then_unregister example_state_type empty_registry)
    as [Hround Hmissing].
  split; [exact (Hround eq_refl eq_refl eq_refl)|exact (Hmissing eq_refl)].
Defined.

Lemma X22_get_creates_instance_witness :
  ∃ s1,
    GuildStateDB.get example_state_type (EntInt 7) example_gs_db = (Ok 0, s1) ∧
    objects s1 = [mkGuildState example_state_type (Some (mkGuild 7))] ∧
    GuildStateDB.get example_state_type (EntInt 7) s1 = (Ok 0, s1).
Proof.
  destruct (X22_get_creates_instance example_state_type (EntInt 7) example_gs_db
              (Some (mkGuild 7)) 7%Z example_state_type ∅
              eq_refl eq_refl eq_refl eq_refl)
    as (s1 & Hrun & Hobj & _ & Hagain & _).
  exists s1. split_and!; [exact Hrun|exact Hobj|exact Hagain].
Defined.

Lemma X23_get_same_id_same_instance_witness :
  let s1 := (GuildStateDB.get example_state_type (EntInt 7) example_gs_db).2 in
  GuildStateDB.get example_state_type (EntGuild (mkGuild 7)) s1 = (Ok 0, s1) ∧
  GuildStateDB.get example_state_type (EntHasGuild (Some (mkGuild 7))) s1
  = (Ok 0, s1).
Proof.
  intros s1.
  assert (Hrun : GuildStateDB.get example_state_type (EntInt 7) example_gs_db
                 = (Ok 0, s1)) by (vm_compute; reflexivity).
  split.
  - exact (X23_get_same_id_same_instance example_state_type (EntInt 7)
             (EntGuild (mkGuild 7)) example_gs_db s1 0 (Some (mkGuild 7))
             (Some (mkGuild 7)) 7%Z eq_refl eq_refl Hrun).
  - exact (X23_get_same_id_same_instance example_state_type (EntInt 7)
             (EntHasGuild (Some (mkGuild 7))) example_gs_db s1 0
             (Some (mkGuild 7)) (Some (mkGuild 7)) 7%Z eq_refl eq_refl Hrun).
Defined.

Lemma X24_unregister_drops_instances_witness :
  let s1 := (GuildStateDB.get example_state_type (EntInt 7) example_gs_db).2 in
  ∃ s2 s3,
    (GuildStateDB.unregister_cls example_state_type ;;
     GuildStateDB.register_cls example_state_type) s1 = (Ok tt, s2) ∧
    GuildStateDB.get example_state_type (EntInt 7) s2 = (Ok 1, s3).
Proof.
  intros s1.
  destruct (X24_unregister_drops_instances example_state_type (EntInt 7)
              example_gs_db s1 0) as (s2 & s3 & g & Hseq & _ & _ & Hget & _).
  - vm_compute. reflexivity.
  - reflexivity.
  - exists s2, s3. split; [exact Hseq|exact Hget].
Defined.

Lemma X25_delete_changes_nothing_witness :
  GuildStateDB.delete (EntInt 7) example_gs_db = (Ok tt, example_gs_db).
Proof.
  destruct (X25_delete_changes_nothing (EntInt 7) example_gs_db) as [_ Hnone].
  apply (Hnone (Some (mkGuild 7)) 7%Z eq_refl).
  intros k states Hk. unfold example_gs_db in Hk. simpl in Hk.
  apply lookup_singleton_Some in Hk as [_ <-]. apply lookup_empty.
Defined.

Lemma X26_get_refusals_witness :
  GuildStateDB.get (mkStateType "Other" true) (EntInt 7) example_gs_db
  = (Raise GuildStateException, example_gs_db).
Proof.
  destruct (X26_get_refusals (mkStateType "Other" true) example_gs_db)
    as (_ & _ & _ & Hunreg).
  apply (Hunreg eq_refl (EntInt 7) (Some (mkGuild 7)) 7%Z eq_refl).
Defined.

Lemma X27_hooks_need_the_guild_witness :
  CoreWrapper.cfg_job_create job_5 lonely_bot
  = (Raise AttributeError, lonely_bot) ∧
  CoreWrapper.cfg_job_delete job_5 lonely_bot
  = (Raise AttributeError, lonely_bot).
Proof.
  destruct (X27_hooks_need_the_guild job_5 lonely_bot eq_refl)
    as (Hcreate & Hdelete & _).
  split; [exact Hcreate|exact Hdelete].
Defined.

Lemma X28_job_record_round_trip_witness :
  ∃ b1 b2 js1 jobs1 js2 jobs2,
    CoreWrapper.cfg_job_create job_5 example_bot = (Ok tt, b1) ∧
    file_json (core_world b1) "jobdb/1.json" = Some (JObj js1) ∧
    dict_get "jobs" js1 = Some (JObj jobs1) ∧
    dict_get "5" jobs1 = Some (JObj [("id", JInt 5); ("guild_id", JInt 1)]) ∧
    CoreWrapper.cfg_job_delete job_5 b1 = (Ok tt, b2) ∧
    file_json (core_world b2) "jobdb/1.json" = Some (JObj js2) ∧
    dict_get "jobs" js2 = Some (JObj jobs2) ∧
    dict_get "5" jobs2 = None ∧
    heap (core_world b2) !! 5 = Some [("4", VDict 7)].
Proof.
  destruct (X28_job_record_round_trip job_5 example_bot (mkGuild 1) 1
              (mkJsonConfig 4 "jobdb/1.json" (VDict 0) false (Some 0%Z))
              [("jobs", VDict 5); ("cron", VDict 6)] 5 [("4", VDict 7)])
    as (b1 & b2 & js1 & jobs1 & js2 & jobs2 & H1 & H2 & H3 & H4 & H5 & H6 &
        H7 & H8 & H9); try reflexivity.
  - eexists. split; reflexivity.
  - by apply no_check_unmodified.
  - eexists. vm_compute. reflexivity.
  - exists b1, b2, js1, jobs1, js2, jobs2.
    split_and!; [exact H1|exact H2|exact H3|exact H4|exact H5|exact H6|
                 exact H7|exact H8|exact (H9 eq_refl)].
Defined.

Lemma X29_reload_after_conflict_witness :
  JsonConfig.write 0 edited_world = (Raise ConfigException, edited_world) ∧
  ∃ w1 w2,
    JsonConfig.load 0 edited_world = (Ok tt, w1) ∧
    JsonConfig.write 0 w1 = (Ok tt, w2) ∧
    file_json w2 "cfg/1.json" = Some (JObj [("a", JInt 9)]).
Proof.
  assert (Hf : fs edited_world !! path example_doc
               = Some (mkFile (Text (JObj [("a", JInt 9)])) 6%Z)).
  { vm_compute. reflexivity. }
  assert (Hrange : (5 < f_mtime (mkFile (Text (JObj [("a", JInt 9)])) 6%Z)
                    ≤ clock edited_world)%Z).
  { simpl. lia. }
  destruct (X29_reload_after_conflict 0 example_doc 5%Z _ [("a", JInt 9)]
              edited_world eq_refl eq_refl eq_refl Hf Hrange eq_refl eq_refl I)
    as (Hw & w1 & w2 & Hl & _ & Hw1 & _ & Hfile).
  split; [exact Hw|]. exists w1, w2.
  split_and!; [exact Hl|exact Hw1|exact Hfile].
Defined.

